(** * EDA-Server-Backend: the background system-telemetry service

    A shallow embedding of [app/services/system_info_service.py]:
    the bounded realtime history ([collections.deque] with [maxlen]),
    the command executor [_run_command], the rule-based S.M.A.R.T.
    analyzer [_analyze_smart_data], the per-device collection loop
    [_collect_all_smart_info] and the four copy-out read accessors.

    Modelling conventions.
    - Python exceptions are values: a computation that may raise has type
      [result E A]; [Raise e] is an exception that leaves the function.
    - A parsed JSON document (the value of [json.loads]) is a [json] tree.
      Numbers are Python [int]s; [smartctl -j] emits integer numerals for
      every field the analyzer reads, and binary floating point is left
      outside the model.
    - Python strings are [string]s holding the UTF-8 encoding.
    - The builtins [int(str)], [str.strip] and [json.loads] are parameters
      of the development (the class [PyBuiltins]): every theorem holds for
      whatever those builtins compute.
    - Objects that are shared between the store and its callers live in an
      explicit heap, so that aliasing created by shallow copies is visible. *)

From Stdlib Require Import ZArith String List Lia DecimalString.
From stdpp Require Import base list strings.
Import ListNotations.
Open Scope Z_scope.
Open Scope string_scope.

(** ** Exceptions as values *)

Inductive result (E A : Type) : Type :=
| Ok (a : A)
| Raise (e : E).
Arguments Ok {E A} a.
Arguments Raise {E A} e.

#[global] Instance result_ret {E} : MRet (result E) := fun _ a => Ok a.
#[global] Instance result_bind {E} : MBind (result E) := fun _ _ f m =>
  match m with
  | Ok a => f a
  | Raise e => Raise e
  end.

(** The exception classes that the dynamic operations of the analyzer and
    of the history set-up can raise. *)
Inductive py_exn : Type :=
| AttributeError
| TypeError
| KeyError
| ValueError
| ZeroDivisionError
| OverflowError.

(** ** Python values obtained from [json.loads] *)

#[warnings="-register-all"]
Inductive json : Type :=
| JNull
| JBool (b : bool)
| JInt (n : Z)
| JStr (s : string)
| JArr (items : list json)
| JObj (fields : list (string * json)).

(** A Python [dict] with string keys, in insertion order.  [dict_get] is
    the lookup; [dict_set] is [d[k] = v]: an existing key keeps its place
    and takes the new value, a new key goes to the end. *)
Fixpoint dict_get {V} (k : string) (d : list (string * V)) : option V :=
  match d with
  | [] => None
  | (k', v) :: rest => if String.eqb k k' then Some v else dict_get k rest
  end.

Fixpoint dict_set {V} (k : string) (v : V) (d : list (string * V)) : list (string * V) :=
  match d with
  | [] => [(k, v)]
  | (k', v') :: rest =>
      if String.eqb k k' then (k', v) :: rest else (k', v') :: dict_set k v rest
  end.

Fixpoint dict_keys {V} (d : list (string * V)) : list string :=
  match d with
  | [] => []
  | (k, _) :: rest => k :: List.filter (fun k' => negb (String.eqb k k')) (dict_keys rest)
  end.

(** [bool(v)]: Python truthiness. *)
Definition truthy (v : json) : bool :=
  match v with
  | JNull => false
  | JBool b => b
  | JInt n => negb (n =? 0)%Z
  | JStr s => negb (String.eqb s "")
  | JArr l => match l with [] => false | _ => true end
  | JObj d => match d with [] => false | _ => true end
  end.

(** [needle in haystack] on strings: substring test. *)
Fixpoint str_contains (needle hay : string) : bool :=
  if String.prefix needle hay then true
  else match hay with
       | EmptyString => false
       | String _ rest => str_contains needle rest
       end.

(** [str(n)] for an [int] that CPython prints: one of at most 4300 digits
    ([INT_MAX_STR_DIGITS]).  For a longer one [str] and the f-strings
    raise ValueError; the statements that say a call returns exclude such
    numbers by [ints_printable]. *)
Definition str_of_int (n : Z) : string := NilEmpty.string_of_int (Z.to_int n).

(** [v.get(k, default)]: only a dict has the method. *)
Definition py_get (v : json) (k : string) (default : json) : result py_exn json :=
  match v with
  | JObj d => Ok (match dict_get k d with Some x => x | None => default end)
  | _ => Raise AttributeError
  end.

(** [k in v] for a string literal [k]. *)
Definition py_in (k : string) (v : json) : result py_exn bool :=
  match v with
  | JObj d => Ok (match dict_get k d with Some _ => true | None => false end)
  | JArr l => Ok (existsb (fun x => match x with JStr s => String.eqb s k | _ => false end) l)
  | JStr s => Ok (str_contains k s)
  | _ => Raise TypeError
  end.

(** [v[k]] for a string literal [k]. *)
Definition py_getitem (v : json) (k : string) : result py_exn json :=
  match v with
  | JObj d => match dict_get k d with Some x => Ok x | None => Raise KeyError end
  | _ => Raise TypeError
  end.

(** The elements a [for] loop over [v] visits.  A dict yields its keys and
    a string its characters (here: one element per byte; every element is a
    [JStr] either way). *)
Definition py_iter (v : json) : result py_exn (list json) :=
  match v with
  | JArr l => Ok l
  | JObj d => Ok (map JStr (dict_keys d))
  | JStr s => Ok (map (fun c => JStr (String c EmptyString)) (list_ascii_of_string s))
  | _ => Raise TypeError
  end.

(** The numeric value of an operand of [>] against an [int]: [int] and
    [bool] compare, anything else raises. *)
Definition py_num (v : json) : result py_exn Z :=
  match v with
  | JInt n => Ok n
  | JBool b => Ok (Z.b2z b)
  | _ => Raise TypeError
  end.

Definition py_gt (v : json) (k : Z) : result py_exn bool :=
  n ← py_num v; Ok (k <? n)%Z.

(** ** Health status *)

Inductive HealthStatus : Type := HEALTHY | WARNING | FAILED | UNKNOWN.

(** [status.name] *)
Definition HealthStatus_name (s : HealthStatus) : string :=
  match s with
  | HEALTHY => "HEALTHY"
  | WARNING => "WARNING"
  | FAILED => "FAILED"
  | UNKNOWN => "UNKNOWN"
  end.

(** [status.value] *)
Definition HealthStatus_value (s : HealthStatus) : string :=
  match s with
  | HEALTHY => "健康 (PASSED)"
  | WARNING => "警告 (WARNING)"
  | FAILED => "危险 (FAILED)"
  | UNKNOWN => "未知 (UNKNOWN)"
  end.

(** [CRITICAL_ATA_ATTRIBUTES]: id -> (name, description, check_raw). *)
Definition CRITICAL_ATA_ATTRIBUTES : list (Z * (string * string * bool)) :=
  [ (5, ("Reallocated_Sector_Ct",
         "已重映射扇区数。当硬盘发现读/写/校验错误时，会将该扇区标记为“已重映射”并使用备用扇区替换。非零值是磁盘表面退化的明确信号。",
         true));
    (187, ("Reported_Uncorrect", "无法修正的错误计数。非零值表示存在数据损坏风险。", true));
    (188, ("Command_Timeout", "命令超时计数。可能与电源或线缆问题有关。", true));
    (197, ("Current_Pending_Sector_Ct",
           "当前待处理扇区数。这些是不稳定扇区，等待被重映射。非零值是即将发生故障的强烈预警。",
           true));
    (198, ("Offline_Uncorrectable", "脱机无法校正的错误计数。与197类似，是严重问题的标志。", true)) ].

Fixpoint table_get {V} (k : Z) (t : list (Z * V)) : option V :=
  match t with
  | [] => None
  | (k', v) :: rest => if (k =? k')%Z then Some v else table_get k rest
  end.

(** [attr_id in CRITICAL_ATA_ATTRIBUTES] together with the subscript that
    follows it: the key is hashed, so a list or dict raises; [True] and
    [False] hash as 1 and 0. *)
Definition critical_lookup (attr_id : json) : result py_exn (option (string * string * bool)) :=
  match attr_id with
  | JInt n => Ok (table_get n CRITICAL_ATA_ATTRIBUTES)
  | JBool b => Ok (table_get (Z.b2z b) CRITICAL_ATA_ATTRIBUTES)
  | JNull | JStr _ => Ok None
  | JArr _ | JObj _ => Raise TypeError
  end.

(** ** Builtins taken as parameters *)

Class PyBuiltins : Type := {
  (** [int(s)] on a [str]: [None] stands for [ValueError]. *)
  int_of_str : string -> option Z;
  (** [s.strip()] *)
  str_strip : string -> string;
  (** [json.loads(s)]: [None] stands for [json.JSONDecodeError], the one
      exception the callers catch.  The other ways [json.loads] can end (a
      plain ValueError for an integer literal of more than 4300 digits, a
      RecursionError for deep nesting) are outside this model: what is
      said of a parse is said of an output on which [json.loads] returns
      a document or raises [JSONDecodeError]. *)
  json_loads : string -> option json
}.

(** [int(v)] *)
Definition py_int `{PyBuiltins} (v : json) : result py_exn Z :=
  match v with
  | JInt n => Ok n
  | JBool b => Ok (Z.b2z b)
  | JStr s => match int_of_str s with Some n => Ok n | None => Raise ValueError end
  | _ => Raise TypeError
  end.

(** [f"{v}"] for the values the analyzer formats.  The repr of a list or a
    dict is never needed: such a value is rejected before it is formatted. *)
Definition py_format (v : json) : string :=
  match v with
  | JInt n => str_of_int n
  | JBool true => "True"
  | JBool false => "False"
  | JNull => "None"
  | JStr s => s
  | JArr _ | JObj _ => ""
  end.

(** ** The S.M.A.R.T. analyzer: [_analyze_smart_data] *)

(** One entry of ["critical_attributes"]. *)
Record finding : Type := {
  finding_id : json;
  finding_name : string;
  finding_raw_value : Z;
  finding_description : string;
  finding_value : json;
  finding_worst : json;
  finding_thresh : json
}.

(** The dict the analyzer returns. *)
Record SmartAnalysis : Type := {
  health_status : string;
  health_status_description : string;
  analysis_summary : list string;
  analysis_critical_attributes : list finding;
  analysis_recommendations : list string
}.

(** The local variables of one analysis pass. *)
Record locals : Type := {
  status : HealthStatus;
  summary : list string;
  recommendations : list string;
  critical_attributes : list finding
}.

(** [if status == HealthStatus.HEALTHY: status = HealthStatus.WARNING] *)
Definition warn_if_healthy (s : HealthStatus) : HealthStatus :=
  match s with HEALTHY => WARNING | _ => s end.

(** The early return for an absent (falsy) payload. *)
Definition unknown_analysis : SmartAnalysis :=
  {| health_status := HealthStatus_name UNKNOWN;
     health_status_description := HealthStatus_value UNKNOWN;
     analysis_summary := ["无法获取S.M.A.R.T.数据。"];
     analysis_critical_attributes := [];
     analysis_recommendations := ["请检查设备连接和权限。"] |}.

Definition initial_locals : locals :=
  {| status := HEALTHY; summary := []; recommendations := []; critical_attributes := [] |}.

(** Rule 1: the overall self-test indicator. *)
Definition self_test_rule (raw_data : json) (st : locals) : result py_exn locals :=
  smart_status ← py_get raw_data "smart_status" (JObj []);
  passed ← py_get smart_status "passed" (JBool false);
  if negb (truthy passed) then
    Ok {| status := FAILED;
          summary := summary st ++ ["❌ 整体S.M.A.R.T.自检状态为失败！"];
          recommendations := recommendations st ++ ["立即备份所有重要数据并准备更换此硬盘！"];
          critical_attributes := critical_attributes st |}
  else
    Ok {| status := status st;
          summary := summary st ++ ["✅ 整体S.M.A.R.T.自检状态为通过。"];
          recommendations := recommendations st;
          critical_attributes := critical_attributes st |}.

(** Rule 2: the NVMe critical-warning counter. *)
Definition nvme_critical_rule (nvme_log : json) (st : locals) : result py_exn locals :=
  critical_warning ← py_get nvme_log "critical_warning" (JInt 0);
  fired ← py_gt critical_warning 0;
  if fired : bool then
    Ok {| status := FAILED;
          summary := summary st ++ ["❌ NVMe 发现严重警告。"];
          recommendations := recommendations st ++ ["立即检查SSD状态，备份数据。"];
          critical_attributes := critical_attributes st |}
  else Ok st.

(** Rule 3: NVMe percentage of life used. *)
Definition nvme_life_line (percentage_used : json) : string :=
  "⚠️ NVMe SSD 已用寿命达到 " ++ py_format percentage_used ++ "%。".

Definition nvme_life_rule (nvme_log : json) (st : locals) : result py_exn locals :=
  percentage_used ← py_get nvme_log "percentage_used" (JInt 0);
  fired ← py_gt percentage_used 85;
  if fired : bool then
    Ok {| status := warn_if_healthy (status st);
          summary := summary st ++ [nvme_life_line percentage_used];
          recommendations := recommendations st ++ ["考虑在不久的将来更换此SSD。"];
          critical_attributes := critical_attributes st |}
  else Ok st.

(** Rule 4: one row of the ATA attribute table (the body of the loop). *)
Definition ata_summary_line (name : string) (attr_id : json) (raw_value : Z) : string :=
  "⚠️ 发现关键属性异常：" ++
  (name ++ " (ID " ++ py_format attr_id ++ ") 的值为 " ++ str_of_int raw_value ++ "。").

Definition ata_recommendation (name : string) : string :=
  "监控 " ++ name ++ " 的值。如果持续增长，请准备更换硬盘。".

(** [int(attr.get("raw", {}).get("value", 0))] *)
Definition raw_value_of `{PyBuiltins} (attr : json) : result py_exn Z :=
  raw ← py_get attr "raw" (JObj []);
  raw_field ← py_get raw "value" (JInt 0);
  py_int raw_field.

Definition ata_attribute_rule `{PyBuiltins} (attr : json) (st : locals) : result py_exn locals :=
  attr_id ← py_getitem attr "id";
  entry ← critical_lookup attr_id;
  match entry with
  | None => Ok st
  | Some (name, desc, check_raw) =>
      raw_value ← raw_value_of attr;
      normalized_value ← py_get attr "value" JNull;
      worst_value ← py_get attr "worst" JNull;
      threshold_value ← py_get attr "thresh" JNull;
      if check_raw && (0 <? raw_value)%Z then
        Ok {| status := warn_if_healthy (status st);
              summary := summary st ++ [ata_summary_line name attr_id raw_value];
              recommendations := recommendations st ++ [ata_recommendation name];
              critical_attributes := critical_attributes st ++
                [ {| finding_id := attr_id; finding_name := name;
                     finding_raw_value := raw_value; finding_description := desc;
                     finding_value := normalized_value; finding_worst := worst_value;
                     finding_thresh := threshold_value |} ] |}
      else Ok st
  end.

(** Rule 5: the reported temperature. *)
Definition temperature_line (temp : json) : string :=
  "🔥 温度偏高 (" ++ py_format temp ++ "°C)！".

Definition temperature_rule (raw_data : json) (st : locals) : result py_exn locals :=
  temperature ← py_get raw_data "temperature" (JObj []);
  temp ← py_get temperature "current" JNull;
  match temp with
  | JNull => Ok st
  | _ =>
      fired ← py_gt temp 55;
      if fired : bool then
        Ok {| status := warn_if_healthy (status st);
              summary := summary st ++ [temperature_line temp];
              recommendations := recommendations st ++ ["检查机箱通风和散热情况。"];
              critical_attributes := critical_attributes st |}
      else Ok st
  end.

(** A [for] loop whose body may raise. *)
Fixpoint for_each {E X S} (body : X -> S -> result E S) (xs : list X) (st : S) : result E S :=
  match xs with
  | [] => Ok st
  | x :: rest => st' ← body x st; for_each body rest st'
  end.

(** [if "nvme_smart_health_information_log" in raw_data: ...] *)
Definition nvme_block (raw_data : json) (st : locals) : result py_exn locals :=
  present ← py_in "nvme_smart_health_information_log" raw_data;
  if present : bool then
    nvme_log ← py_getitem raw_data "nvme_smart_health_information_log";
    st1 ← nvme_critical_rule nvme_log st;
    nvme_life_rule nvme_log st1
  else Ok st.

(** [if "ata_smart_attributes" in raw_data: for attr in ...["table"]: ...] *)
Definition ata_block `{PyBuiltins} (raw_data : json) (st : locals) : result py_exn locals :=
  present ← py_in "ata_smart_attributes" raw_data;
  if present : bool then
    ata ← py_getitem raw_data "ata_smart_attributes";
    table ← py_getitem ata "table";
    attrs ← py_iter table;
    for_each ata_attribute_rule attrs st
  else Ok st.

(** The closing step: the "no anomalies" pair and the returned dict. *)
Definition conclude (st : locals) : SmartAnalysis :=
  let quiet :=
    match summary st with
    | [first] => str_contains "✅" first
    | _ => false
    end in
  {| health_status := HealthStatus_name (status st);
     health_status_description := HealthStatus_value (status st);
     analysis_summary :=
       if quiet then summary st ++ ["✅ 未发现明显的S.M.A.R.T.警告属性。"] else summary st;
     analysis_critical_attributes := critical_attributes st;
     analysis_recommendations :=
       if quiet then recommendations st ++ ["继续保持良好使用习惯，定期检查。"]
       else recommendations st |}.

Definition _analyze_smart_data `{PyBuiltins} (raw_data : json) : result py_exn SmartAnalysis :=
  if negb (truthy raw_data) then Ok unknown_analysis
  else
    st0 ← self_test_rule raw_data initial_locals;
    st1 ← nvme_block raw_data st0;
    st2 ← ata_block raw_data st1;
    st3 ← temperature_rule raw_data st2;
    Ok (conclude st3).

(** *** The pass as a sequence of rule firings

    The body of [_analyze_smart_data] fires the five rules above on parts
    of the payload.  [pass_rules] lists the firings of one pass in source
    order; [fire_all] runs any list of firings, in whatever order. *)

Inductive rule : Type :=
| SelfTest (raw_data : json)
| NvmeCritical (nvme_log : json)
| NvmeLife (nvme_log : json)
| AtaAttribute (attr : json)
| Temperature (raw_data : json).

Definition fire `{PyBuiltins} (r : rule) (st : locals) : result py_exn locals :=
  match r with
  | SelfTest raw_data => self_test_rule raw_data st
  | NvmeCritical nvme_log => nvme_critical_rule nvme_log st
  | NvmeLife nvme_log => nvme_life_rule nvme_log st
  | AtaAttribute attr => ata_attribute_rule attr st
  | Temperature raw_data => temperature_rule raw_data st
  end.

Definition fire_all `{PyBuiltins} (rules : list rule) (st : locals) : result py_exn locals :=
  for_each fire rules st.

Definition nvme_rules (raw_data : json) : result py_exn (list rule) :=
  present ← py_in "nvme_smart_health_information_log" raw_data;
  if present : bool then
    nvme_log ← py_getitem raw_data "nvme_smart_health_information_log";
    Ok [NvmeCritical nvme_log; NvmeLife nvme_log]
  else Ok [].

Definition ata_rules (raw_data : json) : result py_exn (list rule) :=
  present ← py_in "ata_smart_attributes" raw_data;
  if present : bool then
    ata ← py_getitem raw_data "ata_smart_attributes";
    table ← py_getitem ata "table";
    attrs ← py_iter table;
    Ok (map AtaAttribute attrs)
  else Ok [].

Definition pass_rules (raw_data : json) : result py_exn (list rule) :=
  nvme ← nvme_rules raw_data;
  ata ← ata_rules raw_data;
  Ok ([SelfTest raw_data] ++ nvme ++ ata ++ [Temperature raw_data])%list.

(** ** The bounded realtime history: [collections.deque] *)

Record deque (A : Type) : Type := {
  deque_items : list A;
  deque_maxlen : option Z
}.
Arguments deque_items {A} d.
Arguments deque_maxlen {A} d.

(** [sys.maxsize] of a 64-bit CPython, and the least [Py_ssize_t]. *)
Definition PY_SSIZE_T_MAX : Z := 2 ^ 63 - 1.

Definition PY_SSIZE_T_MIN : Z := - 2 ^ 63.

(** [deque()] and [deque(maxlen=m)]: [m] is first converted to a
    [Py_ssize_t], which raises OverflowError outside its range; a negative
    [maxlen] is refused after that. *)
Definition deque_new {A} (maxlen : option Z) : result py_exn (deque A) :=
  match maxlen with
  | None => Ok {| deque_items := []; deque_maxlen := None |}
  | Some m =>
      if ((m <? PY_SSIZE_T_MIN) || (PY_SSIZE_T_MAX <? m))%Z then Raise OverflowError
      else if (m <? 0)%Z then Raise ValueError
      else Ok {| deque_items := []; deque_maxlen := Some m |}
  end.

(** [d.append(x)]: the item goes to the right end; when that makes the
    deque longer than [maxlen], one item is popped from the left end. *)
Definition deque_append {A} (d : deque A) (x : A) : deque A :=
  let grown := (deque_items d ++ [x])%list in
  {| deque_items :=
       match deque_maxlen d with
       | Some m => if (m <? Z.of_nat (length grown))%Z then tl grown else grown
       | None => grown
       end;
     deque_maxlen := deque_maxlen d |}.

(** [a // b] on [int]s. *)
Definition py_floordiv (a b : Z) : result py_exn Z :=
  if (b =? 0)%Z then Raise ZeroDivisionError else Ok (a / b)%Z.

(** ** The command executor: [_run_command] *)

(** What the operating system does with one child process. *)
Inductive run_outcome : Type :=
| Exited (returncode : Z) (stdout stderr : string)
| NotFound (filename : string)
| TimedOut
| Crashed (text : string).

(** The exceptions [subprocess.run] raises; [OtherException] stands for any
    other subclass of [Exception], with its [str(e)]. *)
Inductive subprocess_exn : Type :=
| FileNotFoundError (filename : string)
| TimeoutExpired
| CalledProcessError (returncode : Z) (stdout stderr : string)
| OtherException (text : string).

Record CompletedProcess : Type := {
  cp_returncode : Z;
  cp_stdout : string;
  cp_stderr : string
}.

(** [subprocess.run(args, capture_output=True, text=True, check=True,
    encoding='utf-8', timeout=t)] *)
Definition subprocess_run (spawn : list string -> Z -> run_outcome)
    (args : list string) (timeout : Z) : result subprocess_exn CompletedProcess :=
  match spawn args timeout with
  | Exited rc out err =>
      if (rc =? 0)%Z then Ok {| cp_returncode := rc; cp_stdout := out; cp_stderr := err |}
      else Raise (CalledProcessError rc out err)
  | NotFound filename => Raise (FileNotFoundError filename)
  | TimedOut => Raise TimeoutExpired
  | Crashed text => Raise (OtherException text)
  end.

(** [try: body except ...: handler] *)
Definition try_except {E A} (body : result E A) (handler : E -> result E A) : result E A :=
  match body with
  | Ok a => Ok a
  | Raise e => handler e
  end.

Definition _run_command `{PyBuiltins} (spawn : list string -> Z -> run_outcome)
    (command : list string) (use_sudo : bool) : result subprocess_exn (bool * string) :=
  let full_command := if use_sudo then "sudo" :: command else command in
  try_except
    (completed ← subprocess_run spawn full_command 60;
     Ok (true, str_strip (cp_stdout completed)))
    (fun e =>
       match e with
       | FileNotFoundError filename =>
           Ok (false, "命令未找到: " ++ filename ++ "。请确保相关工具已安装。")
       | TimeoutExpired =>
           Ok (false, "命令 '" ++ String.concat " " full_command ++ "' 执行超时。")
       | CalledProcessError returncode stdout stderr =>
           let error_msg :=
             if negb (String.eqb stderr "") then str_strip stderr else str_strip stdout in
           Ok (false, "命令 '" ++ String.concat " " full_command ++ "' 执行失败: " ++
                      error_msg ++ " (Exit Code: " ++ str_of_int returncode ++ ")")
       | OtherException text =>
           Ok (false, "执行命令时发生未知错误: " ++ text)
       end).

(** ** Fetching and analysing every device: [_collect_all_smart_info] *)

Record device_info : Type := {
  path : string;
  type_args : list string
}.

(** Returns [(raw_data, error_msg)]; Python's [None] is [JNull] for the
    payload and [None] for the message. *)
Definition _get_raw_smart_data_for_device `{PyBuiltins}
    (spawn : list string -> Z -> run_outcome) (device : device_info)
    : result subprocess_exn (json * option string) :=
  let device_path := path device in
  let command := (["smartctl"; "-a"; "-j"] ++ type_args device ++ [device_path])%list in
  ran ← _run_command spawn command true;
  let '(success, output) := ran in
  if negb success then
    Ok (JNull, Some ("无法获取设备 " ++ device_path ++ " 的S.M.A.R.T.信息: " ++ output))
  else
    match json_loads output with
    | Some parsed => Ok (parsed, None)
    | None => Ok (JNull, Some ("解析设备 " ++ device_path ++ " 的S.M.A.R.T. JSON数据失败。"))
    end.

(** Either kind of exception may leave the collection loop. *)
Inductive collect_exn : Type :=
| FromCommand (e : subprocess_exn)
| FromAnalysis (e : py_exn).

Definition lift_command {A} (r : result subprocess_exn A) : result collect_exn A :=
  match r with Ok a => Ok a | Raise e => Raise (FromCommand e) end.

Definition lift_analysis {A} (r : result py_exn A) : result collect_exn A :=
  match r with Ok a => Ok a | Raise e => Raise (FromAnalysis e) end.

(** One value of [final_report["disk_info"]]. *)
Record disk_entry : Type := {
  raw_smart_data : json;
  analysis : SmartAnalysis
}.

Record smart_report : Type := {
  device_list : list string;
  disk_info : list (string * disk_entry)
}.

(** [if error_msg:] *)
Definition message_set (error_msg : option string) : bool :=
  match error_msg with
  | Some s => negb (String.eqb s "")
  | None => false
  end.

(** The body of the loop over the discovered devices.  The accumulator is
    [final_report["disk_info"]] and the lines sent to the error log. *)
Definition collect_device `{PyBuiltins} (spawn : list string -> Z -> run_outcome)
    (device : device_info) (acc : list (string * disk_entry) * list string)
    : result collect_exn (list (string * disk_entry) * list string) :=
  let '(info, log) := acc in
  let device_path := path device in
  fetched ← lift_command (_get_raw_smart_data_for_device spawn device);
  let '(raw_data, error_msg) := fetched in
  if message_set error_msg then
    analysis_data ← lift_analysis (_analyze_smart_data JNull);
    Ok (dict_set device_path
          {| raw_smart_data := raw_data; analysis := analysis_data |} info,
        (log ++ [("Error getting S.M.A.R.T. data for " ++ device_path ++ ": " ++
                  default "" error_msg)%string])%list)
  else
    analysis_data ← lift_analysis (_analyze_smart_data raw_data);
    Ok (dict_set device_path
          {| raw_smart_data := raw_data; analysis := analysis_data |} info,
        log).

(** The discovery step [_get_smart_device_list] is taken as its result:
    [inr devices] on success, [inl message] on failure. *)
Definition _collect_all_smart_info `{PyBuiltins} (spawn : list string -> Z -> run_outcome)
    (discovered : string + list device_info)
    : result collect_exn (smart_report * list string) :=
  match discovered with
  | inl devices_or_msg =>
      Ok ({| device_list := []; disk_info := [] |},
          ["Failed to discover S.M.A.R.T. devices: " ++ devices_or_msg])
  | inr devices =>
      done ← for_each (collect_device spawn) devices ([], []);
      let '(info, log) := done in
      Ok ({| device_list := map fst info; disk_info := info |}, log)
  end.

(** ** The metric store and its callers *)

(** Addresses are positions in the heap. *)
Abbreviation addr := nat.

(** Immutable Python values.  A float is kept as its printed form: the
    store never computes with it. *)
Inductive scalar : Type :=
| SNone
| SBool (b : bool)
| SInt (n : Z)
| SFloat (printed : string)
| SStr (s : string).

Inductive pyval : Type :=
| Imm (s : scalar)
| Ref (a : addr).

(** Mutable objects: a dict or a list whose members are values. *)
Inductive pyobj : Type :=
| DictObj (d : list (string * pyval))
| ListObj (l : list pyval).

Abbreviation heap := (list pyobj).

Definition alloc (h : heap) (o : pyobj) : heap * addr := ((h ++ [o])%list, length h).

Record app_config : Type := {
  REALTIME_COLLECTION_INTERVAL : Z;
  REALTIME_RETENTION_MINUTES : Z;
  DISK_USAGE_PATHS : list string
}.

(** The fields of the service.  The four containers are the service's own
    objects: only copies of them leave it, so they are kept in the record;
    their members point into the heap.  [realtime_thread_alive] is
    [self._realtime_thread is not None and self._realtime_thread.is_alive()]. *)
Record SystemInfoService : Type := {
  _hardware_info : list (string * pyval);
  _realtime_history : deque pyval;
  _disk_usage : list (string * pyval);
  _smart_info : list (string * pyval);
  _config : option app_config;
  realtime_thread_alive : bool
}.

(** [__init__] *)
Definition __init__ : SystemInfoService :=
  {| _hardware_info := [];
     _realtime_history := {| deque_items := []; deque_maxlen := None |};
     _disk_usage := [];
     _smart_info := [];
     _config := None;
     realtime_thread_alive := false |}.

(** [start(app)]: the service afterwards, and whether the call raised. *)
Definition start (app : app_config) (self : SystemInfoService)
    : SystemInfoService * result py_exn unit :=
  if realtime_thread_alive self then (self, Ok tt)
  else
    let configured :=
      {| _hardware_info := _hardware_info self;
         _realtime_history := _realtime_history self;
         _disk_usage := _disk_usage self;
         _smart_info := _smart_info self;
         _config := Some app;
         realtime_thread_alive := false |} in
    let interval := REALTIME_COLLECTION_INTERVAL app in
    let retention_mins := REALTIME_RETENTION_MINUTES app in
    match (max_len ← py_floordiv (retention_mins * 60) interval;
           deque_new (Some max_len)) with
    | Raise e => (configured, Raise e)
    | Ok history =>
        ({| _hardware_info := _hardware_info self;
            _realtime_history := history;
            _disk_usage := _disk_usage self;
            _smart_info := _smart_info self;
            _config := Some app;
            realtime_thread_alive := true |}, Ok tt)
    end.

(** The locked append that ends an iteration of
    [_realtime_collection_loop]. *)
Definition record_sample (self : SystemInfoService) (sample : pyval) : SystemInfoService :=
  {| _hardware_info := _hardware_info self;
     _realtime_history := deque_append (_realtime_history self) sample;
     _disk_usage := _disk_usage self;
     _smart_info := _smart_info self;
     _config := _config self;
     realtime_thread_alive := realtime_thread_alive self |}.

(** One iteration of the loop, given the clock reading and the [status]
    dict the sampler has built: the sample dict is allocated and appended. *)
Definition realtime_iteration (now : string) (status : pyval)
    (h : heap) (self : SystemInfoService) : heap * SystemInfoService :=
  let '(h', a) := alloc h (DictObj [("timestamp", Imm (SStr now)); ("data", status)]) in
  (h', record_sample self (Ref a)).

(** The locked assignments that end [_collect_hardware_info],
    [_collect_daily_data] and [_collect_smart_info_data]. *)
Definition publish_hardware_info (now : string) (info : pyval) (self : SystemInfoService)
    : SystemInfoService :=
  {| _hardware_info := [("timestamp", Imm (SStr now)); ("data", info)];
     _realtime_history := _realtime_history self;
     _disk_usage := _disk_usage self;
     _smart_info := _smart_info self;
     _config := _config self;
     realtime_thread_alive := realtime_thread_alive self |}.

Definition publish_disk_usage (now : string) (usage_data : pyval) (self : SystemInfoService)
    : SystemInfoService :=
  {| _hardware_info := _hardware_info self;
     _realtime_history := _realtime_history self;
     _disk_usage := [("timestamp", Imm (SStr now)); ("data", usage_data)];
     _smart_info := _smart_info self;
     _config := _config self;
     realtime_thread_alive := realtime_thread_alive self |}.

Definition publish_smart_info (now : string) (smart_data : pyval) (self : SystemInfoService)
    : SystemInfoService :=
  {| _hardware_info := _hardware_info self;
     _realtime_history := _realtime_history self;
     _disk_usage := _disk_usage self;
     _smart_info := [("timestamp", Imm (SStr now)); ("data", smart_data)];
     _config := _config self;
     realtime_thread_alive := realtime_thread_alive self |}.

(** The read accessors: [d.copy()] and [list(dq)] build a new object that
    holds the same members. *)
Definition get_hardware_info (self : SystemInfoService) (h : heap) : heap * addr :=
  alloc h (DictObj (_hardware_info self)).

Definition get_realtime_history (self : SystemInfoService) (h : heap) : heap * addr :=
  alloc h (ListObj (deque_items (_realtime_history self))).

Definition get_disk_usage (self : SystemInfoService) (h : heap) : heap * addr :=
  alloc h (DictObj (_disk_usage self)).

Definition get_smart_info (self : SystemInfoService) (h : heap) : heap * addr :=
  alloc h (DictObj (_smart_info self)).

Inductive accessor : Type := HardwareInfo | RealtimeHistory | DiskUsage | SmartInfo.

Definition call (acc : accessor) (self : SystemInfoService) (h : heap) : heap * addr :=
  match acc with
  | HardwareInfo => get_hardware_info self h
  | RealtimeHistory => get_realtime_history self h
  | DiskUsage => get_disk_usage self h
  | SmartInfo => get_smart_info self h
  end.

(** *** What a caller can do with a returned object *)

(** In-place operations on a dict or a list. *)
Inductive mutation : Type :=
| DictSet (k : string) (v : pyval)
| DictDel (k : string)
| Clear
| ListAppend (v : pyval)
| ListSet (i : nat) (v : pyval)
| ListPop.

(** The object after the operation; an operation that raises in Python
    (wrong type, missing key, bad index) leaves it as it was. *)
Definition mutate_object (m : mutation) (o : pyobj) : pyobj :=
  match m, o with
  | DictSet k v, DictObj d => DictObj (dict_set k v d)
  | DictDel k, DictObj d => DictObj (List.filter (fun kv => negb (String.eqb k (fst kv))) d)
  | Clear, DictObj _ => DictObj []
  | Clear, ListObj _ => ListObj []
  | ListAppend v, ListObj l => ListObj (l ++ [v])
  | ListSet i v, ListObj l => ListObj (<[i := v]> l)
  | ListPop, ListObj l => ListObj (removelast l)
  | _, _ => o
  end.

(** The caller applies [m] to the object at address [a]. *)
Definition mutate (h : heap) (a : addr) (m : mutation) : heap :=
  match h !! a with
  | Some o => <[a := mutate_object m o]> h
  | None => h
  end.

(** What a reader sees when it walks a value to depth [fuel]
    (as the JSON serialisation of a response does). *)
#[warnings="-register-all"]
Inductive tree : Type :=
| TImm (s : scalar)
| TDict (d : list (string * tree))
| TList (l : list tree).

Fixpoint deep_read (fuel : nat) (h : heap) (v : pyval) : option tree :=
  match v with
  | Imm s => Some (TImm s)
  | Ref a =>
      match fuel with
      | O => None
      | S n =>
          match h !! a with
          | Some (DictObj d) =>
              TDict <$> mapM (fun kv => t ← deep_read n h (snd kv); Some (fst kv, t)) d
          | Some (ListObj l) => TList <$> mapM (deep_read n h) l
          | None => None
          end
      end
  end.

(** No dangling reference: every address stored in the heap, or in the
    containers of the service, is allocated. *)
Definition val_closed (n : nat) (v : pyval) : bool :=
  match v with
  | Imm _ => true
  | Ref a => Nat.ltb a n
  end.

Definition obj_closed (n : nat) (o : pyobj) : bool :=
  match o with
  | DictObj d => forallb (fun kv => val_closed n (snd kv)) d
  | ListObj l => forallb (val_closed n) l
  end.

Definition heap_closed (h : heap) : bool := forallb (obj_closed (length h)) h.

(** The object an accessor copies. *)
Definition held (acc : accessor) (self : SystemInfoService) : pyobj :=
  match acc with
  | HardwareInfo => DictObj (_hardware_info self)
  | RealtimeHistory => ListObj (deque_items (_realtime_history self))
  | DiskUsage => DictObj (_disk_usage self)
  | SmartInfo => DictObj (_smart_info self)
  end.

Definition store_closed (h : heap) (self : SystemInfoService) : bool :=
  obj_closed (length h) (held HardwareInfo self) &&
  obj_closed (length h) (held RealtimeHistory self) &&
  obj_closed (length h) (held DiskUsage self) &&
  obj_closed (length h) (held SmartInfo self).

(** ** Predicates used in the statements, and the inputs of the examples *)

Open Scope list_scope.

Definition demo_config : app_config :=
  {| REALTIME_COLLECTION_INTERVAL := 20; REALTIME_RETENTION_MINUTES := 1;
     DISK_USAGE_PATHS := ["/home"] |}.

(** [a] may become [b] within a pass: never towards a milder status. *)
Definition escalates (a b : HealthStatus) : Prop :=
  match a with
  | FAILED => b = FAILED
  | WARNING => b = WARNING \/ b = FAILED
  | HEALTHY => b = HEALTHY \/ b = WARNING \/ b = FAILED
  | UNKNOWN => b = UNKNOWN \/ b = FAILED
  end.

Definition double_quote : string := String (Ascii.ascii_of_nat 34) EmptyString.

(** The JSON text of a report whose only content is a passed self-test. *)
Definition passed_document : string :=
  ("{" ++ double_quote ++ "smart_status" ++ double_quote ++ ": {" ++
   double_quote ++ "passed" ++ double_quote ++ ": true}}")%string.

(** Builtins for the closed examples: they agree with Python on the
    strings the examples pass to them. *)
Definition example_builtins : PyBuiltins :=
  {| int_of_str := fun s => if String.eqb s "3" then Some 3%Z else None;
     str_strip := fun s => s;
     json_loads := fun s =>
       if String.eqb s passed_document
       then Some (JObj [("smart_status", JObj [("passed", JBool true)])])
       else if String.eqb s "{}" then Some (JObj []) else None |}.

Definition ata_row (attr_id raw_value : Z) : json :=
  JObj [("id", JInt attr_id); ("value", JInt 100); ("worst", JInt 100); ("thresh", JInt 10);
        ("raw", JObj [("value", JInt raw_value)])].

(** A drive whose self-test failed, with three reallocated sectors, at 60 C. *)
Definition failing_drive : json :=
  JObj [("smart_status", JObj [("passed", JBool false)]);
        ("ata_smart_attributes", JObj [("table", JArr [ata_row 5 3])]);
        ("temperature", JObj [("current", JInt 60)])].

(** The row is a critical attribute whose raw value is above zero. *)
Definition alarming `{PyBuiltins} (attr : json) : bool :=
  match (attr_id ← py_getitem attr "id";
         entry ← critical_lookup attr_id;
         match entry with
         | None => Ok false
         | Some (_, _, check_raw) =>
             raw_value ← raw_value_of attr; Ok (check_raw && (0 <? raw_value)%Z)
         end) with
  | Ok b => b
  | Raise _ => false
  end.

(** The payload has a [smart_status] mapping whose [passed] field is true. *)
Definition reports_passed (raw_data : json) : bool :=
  match raw_data with
  | JObj fields =>
      match dict_get "smart_status" fields with
      | Some (JObj smart_status) =>
          match dict_get "passed" smart_status with
          | Some passed => truthy passed
          | None => false
          end
      | _ => false
      end
  | _ => false
  end.

(** The NVMe health log reports a critical warning. *)
Definition nvme_critical_warning (raw_data : json) : bool :=
  match (nvme_log ← py_getitem raw_data "nvme_smart_health_information_log";
         critical_warning ← py_get nvme_log "critical_warning" (JInt 0);
         py_gt critical_warning 0) with
  | Ok b => b
  | Raise _ => false
  end.

(** [st'] continues [st]: the three lists have only grown at their end. *)
Record continues (st st' : locals) : Prop := {
  summary_grows : exists more, summary st' = summary st ++ more;
  recommendations_grow : exists more, recommendations st' = recommendations st ++ more;
  findings_grow : exists more, critical_attributes st' = critical_attributes st ++ more
}.

(** [b] is [a], or [a] raised from HEALTHY to WARNING. *)
Definition at_most_warns (a b : HealthStatus) : Prop := b = a \/ b = warn_if_healthy a.

(** The payload of scenario C read literally: an NVMe log with 90% of
    life used and no critical warning, and nothing else. *)
Definition worn_nvme_only : json :=
  JObj [("nvme_smart_health_information_log",
         JObj [("percentage_used", JInt 90); ("critical_warning", JInt 0)])].

(** A worn NVMe drive whose self-test passed. *)
Definition worn_nvme_passed : json :=
  JObj [("smart_status", JObj [("passed", JBool true)]);
        ("nvme_smart_health_information_log",
         JObj [("percentage_used", JInt 90); ("critical_warning", JInt 0)])].

(** A drive as in scenario A, with pending sectors besides. *)
Definition two_alarms : json :=
  JObj [("smart_status", JObj [("passed", JBool true)]);
        ("ata_smart_attributes", JObj [("table", JArr [ata_row 5 3; ata_row 197 1])]);
        ("temperature", JObj [("current", JInt 40)])].

(** Scenario A of the specification. *)
Definition scenario_a : json :=
  JObj [("smart_status", JObj [("passed", JBool true)]);
        ("ata_smart_attributes", JObj [("table", JArr [ata_row 9 1200; ata_row 5 3; ata_row 197 0])]);
        ("temperature", JObj [("current", JInt 40)])].

(** A drive on which every rule fires: failed self-test, NVMe critical
    warning and wear, reallocated sectors, and 60 C. *)
Definition everything_wrong : json :=
  JObj [("smart_status", JObj [("passed", JBool false)]);
        ("nvme_smart_health_information_log",
         JObj [("critical_warning", JInt 1); ("percentage_used", JInt 90)]);
        ("ata_smart_attributes", JObj [("table", JArr [ata_row 5 3])]);
        ("temperature", JObj [("current", JInt 60)])].

(** The fetch of [device] yields no payload. *)
Definition fetch_fails `{PyBuiltins} (spawn : list string -> Z -> run_outcome)
    (device : device_info) : bool :=
  match _get_raw_smart_data_for_device spawn device with
  | Ok (_, error_msg) => message_set error_msg
  | Raise _ => false
  end.

(** What the report holds for a device without payload. *)
Definition unknown_entry : disk_entry :=
  {| raw_smart_data := JNull; analysis := unknown_analysis |}.

Definition sda : device_info := {| path := "/dev/sda"; type_args := [] |}.
Definition sdb : device_info := {| path := "/dev/sdb"; type_args := [] |}.

(** Every drive answers with a passed self-test. *)
Definition all_drives_answer : list string -> Z -> run_outcome :=
  fun _ _ => Exited 0 passed_document "".

(** The same, except that reading [/dev/sda] is refused. *)
Definition sda_refused : list string -> Z -> run_outcome :=
  fun args _ =>
    if existsb (String.eqb "/dev/sda") args then Exited 2 "" "Permission denied"
    else Exited 0 passed_document "".

(** The heap and the service after the hardware probe has published its
    inventory: the [info] dict is object 0. *)
Definition probed_heap : list pyobj := [DictObj [("os", Imm (SStr "Linux"))]].

Definition probed_service : SystemInfoService :=
  publish_hardware_info "2025-01-01T00:00:00+00:00" (Ref 0%nat) __init__.

(** ** More predicates on payloads *)

(** The NVMe health log reports more than 85% of life used. *)
Definition nvme_worn (raw_data : json) : bool :=
  match (nvme_log ← py_getitem raw_data "nvme_smart_health_information_log";
         percentage_used ← py_get nvme_log "percentage_used" (JInt 0);
         py_gt percentage_used 85) with
  | Ok b => b
  | Raise _ => false
  end.

(** The reported temperature is above 55. *)
Definition overheated (raw_data : json) : bool :=
  match (temperature ← py_get raw_data "temperature" (JObj []);
         temp ← py_get temperature "current" JNull;
         match temp with
         | JNull => Ok false
         | _ => py_gt temp 55
         end) with
  | Ok b => b
  | Raise _ => false
  end.

(** The rows of the ATA attribute table, when the payload has one. *)
Definition ata_rows (raw_data : json) : list json :=
  match (ata ← py_getitem raw_data "ata_smart_attributes";
         table ← py_getitem ata "table";
         py_iter table) with
  | Ok rows => rows
  | Raise _ => []
  end.

(** The verdict read off the payload, rule by rule. *)
Definition expected_status `{PyBuiltins} (raw_data : json) : HealthStatus :=
  if negb (reports_passed raw_data) || nvme_critical_warning raw_data then FAILED
  else if nvme_worn raw_data || existsb alarming (ata_rows raw_data) || overheated raw_data
       then WARNING
       else HEALTHY.

(** The finding [f] is the one the analyzer builds for the table row [row]. *)
Definition finding_of_row `{PyBuiltins} (f : finding) (row : json) : Prop :=
  py_getitem row "id" = Ok (finding_id f) /\
  critical_lookup (finding_id f) = Ok (Some (finding_name f, finding_description f, true)) /\
  raw_value_of row = Ok (finding_raw_value f) /\
  (0 < finding_raw_value f)%Z /\
  py_get row "value" JNull = Ok (finding_value f) /\
  py_get row "worst" JNull = Ok (finding_worst f) /\
  py_get row "thresh" JNull = Ok (finding_thresh f).

(** A number, or nothing: what [>] and [int()] accept without a builtin. *)
Definition number_or_absent (v : option json) : bool :=
  match v with
  | None | Some (JInt _) | Some (JBool _) => true
  | _ => false
  end.

(** A mapping, or nothing. *)
Definition mapping_or_absent (v : option json) : bool :=
  match v with
  | None | Some (JObj _) => true
  | _ => false
  end.

(** A row of the ATA table as [smartctl -j] prints it: an object with an
    integer [id] and, if it has a [raw] entry, a mapping whose [value] is
    a number. *)
Definition row_shaped (row : json) : bool :=
  match row with
  | JObj fields =>
      match dict_get "id" fields with
      | Some (JInt _) =>
          match dict_get "raw" fields with
          | None => true
          | Some (JObj raw) => number_or_absent (dict_get "value" raw)
          | Some _ => false
          end
      | _ => false
      end
  | _ => false
  end.

(** A payload of the shape [smartctl -a -j] prints: an object whose
    sections, where present, are mappings with numeric fields. *)
Definition payload_shaped (raw_data : json) : bool :=
  match raw_data with
  | JObj fields =>
      mapping_or_absent (dict_get "smart_status" fields) &&
      match dict_get "nvme_smart_health_information_log" fields with
      | None => true
      | Some (JObj nvme_log) =>
          number_or_absent (dict_get "critical_warning" nvme_log) &&
          number_or_absent (dict_get "percentage_used" nvme_log)
      | Some _ => false
      end &&
      match dict_get "ata_smart_attributes" fields with
      | None => true
      | Some (JObj ata) =>
          match dict_get "table" ata with
          | Some (JArr rows) => forallb row_shaped rows
          | _ => false
          end
      | Some _ => false
      end &&
      match dict_get "temperature" fields with
      | None => true
      | Some (JObj temperature) =>
          match dict_get "current" temperature with
          | None | Some JNull | Some (JInt _) | Some (JBool _) => true
          | _ => false
          end
      | Some _ => false
      end
  | _ => false
  end.

(** The analysis every healthy drive gets. *)
Definition healthy_analysis : SmartAnalysis :=
  {| health_status := HealthStatus_name HEALTHY;
     health_status_description := HealthStatus_value HEALTHY;
     analysis_summary := ["✅ 整体S.M.A.R.T.自检状态为通过。";
                          "✅ 未发现明显的S.M.A.R.T.警告属性。"];
     analysis_critical_attributes := [];
     analysis_recommendations := ["继续保持良好使用习惯，定期检查。"] |}.

(** From [st] to [st'] the summary and the recommendations have grown by
    the same number of lines, and the findings by no more. *)
Definition paired (st st' : locals) : Prop :=
  exists lines advice found,
    summary st' = summary st ++ lines /\
    recommendations st' = recommendations st ++ advice /\
    critical_attributes st' = critical_attributes st ++ found /\
    length lines = length advice /\
    (length found <= length advice)%nat.

(** The line the loop sends to the error log for a failed fetch. *)
Definition fetch_error_line (device : device_info) (error_msg : string) : string :=
  ("Error getting S.M.A.R.T. data for " ++ path device ++ ": " ++ error_msg)%string.

(** The JSON text of a report whose ATA section has no table. *)
Definition tableless_document : string :=
  ("{" ++ double_quote ++ "ata_smart_attributes" ++ double_quote ++ ": {}}")%string.

(** Builtins for an example in which the drives print three documents: a
    passed self-test, a JSON list, and a report without an ATA table. *)
Definition list_document_builtins : PyBuiltins :=
  {| int_of_str := fun _ => None;
     str_strip := fun s => s;
     json_loads := fun s =>
       if String.eqb s passed_document
       then Some (JObj [("smart_status", JObj [("passed", JBool true)])])
       else if String.eqb s "[1]" then Some (JArr [JInt 1])
       else if String.eqb s tableless_document
            then Some (JObj [("ata_smart_attributes", JObj [])])
            else None |}.

Definition sdc : device_info := {| path := "/dev/sdc"; type_args := [] |}.

(** [/dev/sda] answers with a passed self-test, [/dev/sdb] prints the
    JSON list [[1]] and [/dev/sdc] a report without an ATA table. *)
Definition drives_print_a_list : list string -> Z -> run_outcome :=
  fun args _ =>
    if existsb (String.eqb "/dev/sdb") args then Exited 0 "[1]" ""
    else if existsb (String.eqb "/dev/sdc") args then Exited 0 tableless_document ""
    else Exited 0 passed_document "".

(** [stop()]: the workers are signalled and joined, and both thread
    fields are set to [None]; nothing else changes. *)
Definition stop (self : SystemInfoService) : SystemInfoService :=
  {| _hardware_info := _hardware_info self;
     _realtime_history := _realtime_history self;
     _disk_usage := _disk_usage self;
     _smart_info := _smart_info self;
     _config := _config self;
     realtime_thread_alive := false |}.

(** Iterations of [_realtime_collection_loop], one per tick: the objects
    the sampler builds for the [status] of the tick are allocated, then the
    sample is appended under the clock reading [now]. *)
Fixpoint realtime_loop (ticks : list (list pyobj * string * pyval))
    (h : heap) (self : SystemInfoService) : heap * SystemInfoService :=
  match ticks with
  | [] => (h, self)
  | (built, now, status) :: rest =>
      let '(h', self') := realtime_iteration now status (h ++ built) self in
      realtime_loop rest h' self'
  end.

(** The deque keeps at least one item: it is unbounded or its [maxlen] is
    at least 1. *)
Definition has_room {A} (d : deque A) : Prop :=
  match deque_maxlen d with
  | Some m => (1 <= m)%Z
  | None => True
  end.

(** ** Disk usage: [_get_dir_size] and [_collect_daily_data] *)

(** The exceptions of the [os] and [shutil] calls, each with its [str(e)]:
    the two classes the code names, and [Os_Exception] for any other
    subclass of [Exception]. *)
Inductive os_exn : Type :=
| Os_FileNotFoundError (text : string)
| Os_PermissionError (text : string)
| Os_Exception (text : string).

Definition os_exn_str (e : os_exn) : string :=
  match e with
  | Os_FileNotFoundError text | Os_PermissionError text | Os_Exception text => text
  end.

(** [shutil.disk_usage(path)] *)
Record usage_tuple : Type := {
  usage_total : Z;
  usage_used : Z;
  usage_free : Z
}.

(** What the file system answers to the calls the code makes, the tree
    being the same for the time of one collection.  [os_walk top] is the
    sequence of [(dirpath, filenames)] the generator yields and, when the
    iteration ends with an exception, that exception.  CPython's
    [os.walk], called without [onerror] as here, skips what it cannot
    list and ends normally: the exception is there for the handler the
    source has. *)
Record FileSystem : Type := {
  os_walk : string -> list (string * list string) * option os_exn;
  os_path_islink : string -> bool;
  os_path_getsize : string -> result os_exn Z;
  os_path_isdir : string -> bool;
  os_listdir : string -> result os_exn (list string);
  shutil_disk_usage : string -> result os_exn usage_tuple
}.

(** [s.endswith("/")] *)
Definition ends_with_sep (s : string) : bool :=
  String.eqb (String.substring (String.length s - 1) 1 s) "/".

(** [os.path.join(a, b)] of [posixpath]. *)
Definition os_path_join (a b : string) : string :=
  if String.prefix "/" b then b
  else if (String.eqb a "" || ends_with_sep a)%bool then (a ++ b)%string
  else (a ++ "/" ++ b)%string.

(** The body of the loop over [filenames]. *)
Definition add_file_size (fs : FileSystem) (dirpath f : string) (total_size : Z)
    : result os_exn Z :=
  let fp := os_path_join dirpath f in
  if negb (os_path_islink fs fp) then
    try_except
      (size ← os_path_getsize fs fp; Ok (total_size + size))
      (fun e =>
         match e with
         | Os_FileNotFoundError _ | Os_PermissionError _ => Ok total_size
         | Os_Exception _ => Raise e
         end)
  else Ok total_size.

(** The body of the loop over what [os.walk] yields. *)
Definition add_directory_size (fs : FileSystem) (yielded : string * list string)
    (total_size : Z) : result os_exn Z :=
  for_each (add_file_size fs (fst yielded)) (snd yielded) total_size.

Definition _get_dir_size (fs : FileSystem) (path : string) : result os_exn Z :=
  let '(yielded, ended) := os_walk fs path in
  try_except
    (total_size ← for_each (add_directory_size fs) yielded 0;
     match ended with
     | Some e => Raise e
     | None => Ok total_size
     end)
    (fun e =>
       match e with
       | Os_PermissionError _ => Ok 0
       | Os_FileNotFoundError _ | Os_Exception _ => Raise e
       end).

(** A member of ["users"]: keys ["name"], ["path"], ["used_bytes"]. *)
Record user_detail : Type := {
  user_name : string;
  user_path : string;
  used_bytes : Z
}.

(** A member of [usage_data]: keys ["path"], ["partition_total_bytes"],
    ["partition_used_bytes"], ["users"]. *)
Record usage_entry : Type := {
  usage_path : string;
  partition_total_bytes : Z;
  partition_used_bytes : Z;
  users : list user_detail
}.

(** [logger.warning] and [logger.error] *)
Inductive log_level : Type := LogWarning | LogError.

(** A [for] loop inside a [try] whose body appends to a list defined
    outside it: when an iteration raises, what was appended before stays. *)
Fixpoint for_each_kept {E X S} (body : X -> S -> result E S) (xs : list X) (st : S)
    : S * option E :=
  match xs with
  | [] => (st, None)
  | x :: rest =>
      match body x st with
      | Ok st' => for_each_kept body rest st'
      | Raise e => (st, Some e)
      end
  end.

(** The body of the loop over [os.listdir(path)]. *)
Definition add_user_detail (fs : FileSystem) (path item_name : string)
    (user_details : list user_detail) : result os_exn (list user_detail) :=
  let full_path := os_path_join path item_name in
  if (os_path_isdir fs full_path && negb (os_path_islink fs full_path))%bool then
    size_bytes ← _get_dir_size fs full_path;
    Ok (user_details ++ [{| user_name := item_name; user_path := full_path;
                            used_bytes := size_bytes |}])
  else Ok user_details.

(** The two handlers of the listing's [try]. *)
Definition listing_failure (path : string) (e : os_exn) : log_level * string :=
  match e with
  | Os_PermissionError _ =>
      (LogWarning,
       ("Permission denied to list contents of '" ++ path ++ "' for disk usage.")%string)
  | Os_FileNotFoundError _ | Os_Exception _ =>
      (LogError, ("Error listing directory or getting size for '" ++ path ++ "': " ++
               os_exn_str e)%string)
  end.

(** [user_details] after the listing's [try], and the line it logged. *)
Definition list_user_details (fs : FileSystem) (path : string)
    : list user_detail * list (log_level * string) :=
  match os_listdir fs path with
  | Raise e => ([], [listing_failure path e])
  | Ok items =>
      match for_each_kept (add_user_detail fs path) items [] with
      | (user_details, Some e) => (user_details, [listing_failure path e])
      | (user_details, None) => (user_details, [])
      end
  end.

(** The body of the loop over [paths_to_check]: the accumulator is
    [usage_data] and the lines sent to the log. *)
Definition collect_path (fs : FileSystem)
    (acc : list usage_entry * list (log_level * string)) (path : string)
    : list usage_entry * list (log_level * string) :=
  let '(usage_data, log) := acc in
  if negb (os_path_isdir fs path) then
    (usage_data,
     log ++ [(LogWarning, ("Disk usage path '" ++ path ++
                        "' does not exist or is not a directory.")%string)])
  else
    match shutil_disk_usage fs path with
    | Raise (Os_FileNotFoundError _) =>
        (usage_data,
         log ++ [(LogError, ("Partition information for '" ++ path ++ "' not found.")%string)])
    | Raise e =>
        (usage_data,
         log ++ [(LogError, ("Error getting partition info for '" ++ path ++ "': " ++
                          os_exn_str e)%string)])
    | Ok disk_partition_usage =>
        let '(user_details, lines) := list_user_details fs path in
        (usage_data ++ [{| usage_path := path;
                           partition_total_bytes := usage_total disk_partition_usage;
                           partition_used_bytes := usage_used disk_partition_usage;
                           users := user_details |}],
         log ++ lines)
    end.

(** [self._config.get('DISK_USAGE_PATHS', [])] *)
Definition paths_to_check (self : SystemInfoService) : list string :=
  match _config self with
  | Some config => DISK_USAGE_PATHS config
  | None => []
  end.

(** [_collect_daily_data], up to its locked assignment: the [usage_data]
    that [publish_disk_usage] stores with the timestamp, and the lines
    logged. *)
Definition _collect_daily_data (fs : FileSystem) (self : SystemInfoService)
    : list usage_entry * list (log_level * string) :=
  fold_left (collect_path fs) (paths_to_check self) ([], []).

(** The files met by the walk of [path], with their directory joined. *)
Definition walked_files (fs : FileSystem) (path : string) : list string :=
  flat_map (fun yielded => map (os_path_join (fst yielded)) (snd yielded))
           (fst (os_walk fs path)).

(** What one file adds to the total: nothing for a symbolic link or a file
    whose size cannot be read. *)
Definition counted_size (fs : FileSystem) (fp : string) : Z :=
  if os_path_islink fs fp then 0
  else match os_path_getsize fs fp with
       | Ok size => size
       | Raise _ => 0
       end.

(** No file of the list fails [os.path.getsize] with anything else than
    [FileNotFoundError] or [PermissionError]. *)
Definition sizes_readable_or_skipped (fs : FileSystem) (files : list string) : Prop :=
  forall fp text, In fp files -> os_path_islink fs fp = false ->
                  os_path_getsize fs fp <> Raise (Os_Exception text).

(** [os.path.isdir(full_path) and not os.path.islink(full_path)] *)
Definition is_user_directory (fs : FileSystem) (path item_name : string) : bool :=
  (os_path_isdir fs (os_path_join path item_name) &&
   negb (os_path_islink fs (os_path_join path item_name)))%bool.

(** The path gets an entry in [usage_data]. *)
Definition is_reported (fs : FileSystem) (path : string) : bool :=
  (os_path_isdir fs path &&
   match shutil_disk_usage fs path with Ok _ => true | Raise _ => false end)%bool.

(** A small tree: [/data] holds the directories [alice] (two files, one of
    them a symbolic link, and a sub-directory with a file that vanishes
    before it is measured), [bob] (one file), [carol] (a file whose size
    cannot be read for an I/O error) and [dave], a symbolic link [shared]
    and the file [notes.txt]; [/backup] is a directory that may not be
    listed and whose partition cannot be read; [/missing] does not
    exist. *)
Definition example_fs : FileSystem :=
  {| os_walk := fun top =>
       if String.eqb top "/data/alice" then
         ([("/data/alice", ["a.bin"; "link"]); ("/data/alice/sub", ["b.bin"; "gone"])], None)
       else if String.eqb top "/data/bob" then ([("/data/bob", ["c.bin"])], None)
       else if String.eqb top "/data/carol" then ([("/data/carol", ["d.bin"])], None)
       else ([], None);
     os_path_islink := fun p =>
       (String.eqb p "/data/alice/link" || String.eqb p "/data/shared")%bool;
     os_path_getsize := fun p =>
       if String.eqb p "/data/alice/a.bin" then Ok 100
       else if String.eqb p "/data/alice/sub/b.bin" then Ok 20
       else if String.eqb p "/data/bob/c.bin" then Ok 7
       else if String.eqb p "/data/carol/d.bin"
            then Raise (Os_Exception "[Errno 5] Input/output error")
            else Raise (Os_FileNotFoundError "[Errno 2] No such file or directory");
     os_path_isdir := fun p =>
       (String.eqb p "/data" || String.eqb p "/data/alice" || String.eqb p "/data/bob" ||
        String.eqb p "/data/carol" || String.eqb p "/data/dave" ||
        String.eqb p "/data/shared" || String.eqb p "/backup")%bool;
     os_listdir := fun p =>
       if String.eqb p "/data"
       then Ok ["alice"; "notes.txt"; "shared"; "bob"; "carol"; "dave"]
       else Raise (Os_PermissionError "[Errno 13] Permission denied");
     shutil_disk_usage := fun p =>
       if String.eqb p "/data" then
         Ok {| usage_total := 1000; usage_used := 400; usage_free := 600 |}
       else Raise (Os_Exception "[Errno 5] Input/output error") |}.

Definition example_service : SystemInfoService :=
  fst (start {| REALTIME_COLLECTION_INTERVAL := 5; REALTIME_RETENTION_MINUTES := 30;
                DISK_USAGE_PATHS := ["/missing"; "/data"; "/backup"] |} __init__).

(** [sum(sizes)] *)
Definition Z_sum (sizes : list Z) : Z := fold_right Z.add 0 sizes.

(** The dict built for one sub-directory, when its size could be computed. *)
Definition is_detail_of (fs : FileSystem) (path item_name : string) (d : user_detail) : Prop :=
  user_name d = item_name /\
  user_path d = os_path_join path item_name /\
  _get_dir_size fs (os_path_join path item_name) = Ok (used_bytes d).

(** ** The views of [app/api/monitor.py] and [success] *)

(** [bool(v)].  A float is false when it prints as a zero; a dict or a
    list is false when it is empty. *)
Definition py_bool (h : heap) (v : pyval) : bool :=
  match v with
  | Imm SNone => false
  | Imm (SBool b) => b
  | Imm (SInt n) => negb (n =? 0)%Z
  | Imm (SFloat printed) => negb (String.eqb printed "0.0" || String.eqb printed "-0.0")
  | Imm (SStr s) => negb (String.eqb s "")
  | Ref a =>
      match h !! a with
      | Some (DictObj []) | Some (ListObj []) => false
      | _ => true
      end
  end.

(** [success(data, msg)] of [app/utils/response_utils.py]: the dict it
    hands to [jsonify].  [RetCode.SUCCESS] is 0 and
    [MSG_MAP[RetCode.SUCCESS]] is the text below. *)
Definition success (data : pyval) (msg : option string) (h : heap) : heap * addr :=
  let msg_or_default :=
    match msg with
    | Some s => if String.eqb s "" then "成功" else s
    | None => "成功"
    end in
  let '(h1, data_or_empty) :=
    if py_bool h data then (h, data)
    else let '(h', a) := alloc h (DictObj []) in (h', Ref a) in
  alloc h1 (DictObj [("code", Imm (SInt 0)); ("msg", Imm (SStr msg_or_default));
                     ("data", data_or_empty)]).

(** The body of the four views: [success(system_info_service.get_x())]. *)
Definition monitor_view (acc : accessor) (self : SystemInfoService) (h : heap)
    : heap * addr :=
  let '(h1, a) := call acc self h in
  success (Ref a) None h1.

(** [not obj] for a dict or a list. *)
Definition is_empty (o : pyobj) : bool :=
  match o with
  | DictObj [] | ListObj [] => true
  | _ => false
  end.

(** ** Equal payloads *)

(** Two values built by [json.loads] hold the same document: scalars are
    the same, lists agree member by member, and dicts agree as mappings,
    whatever the order their keys were inserted in.  Values so related
    compare equal with [==]. *)
#[warnings="-register-all"]
Inductive json_eq : json -> json -> Prop :=
| json_eq_null : json_eq JNull JNull
| json_eq_bool (b : bool) : json_eq (JBool b) (JBool b)
| json_eq_int (n : Z) : json_eq (JInt n) (JInt n)
| json_eq_str (s : string) : json_eq (JStr s) (JStr s)
| json_eq_arr (l1 l2 : list json) :
    Forall2 json_eq l1 l2 -> json_eq (JArr l1) (JArr l2)
| json_eq_obj (d1 d2 : list (string * json)) :
    (forall k, option_Forall2 json_eq (dict_get k d1) (dict_get k d2)) ->
    json_eq (JObj d1) (JObj d2).

(** Two findings hold the same entries. *)
Definition finding_eq (f g : finding) : Prop :=
  json_eq (finding_id f) (finding_id g) /\
  finding_name f = finding_name g /\
  finding_raw_value f = finding_raw_value g /\
  finding_description f = finding_description g /\
  json_eq (finding_value f) (finding_value g) /\
  json_eq (finding_worst f) (finding_worst g) /\
  json_eq (finding_thresh f) (finding_thresh g).

(** Two analyses hold the same entries. *)
Definition analysis_eq (a b : SmartAnalysis) : Prop :=
  health_status a = health_status b /\
  health_status_description a = health_status_description b /\
  analysis_summary a = analysis_summary b /\
  Forall2 finding_eq (analysis_critical_attributes a) (analysis_critical_attributes b) /\
  analysis_recommendations a = analysis_recommendations b.

(** Two calls end the same way: both return, with related values, or both
    raise the same exception. *)
Definition same_outcome {E A} (R : A -> A -> Prop) (first second : result E A) : Prop :=
  match first, second with
  | Ok a, Ok b => R a b
  | Raise e1, Raise e2 => e1 = e2
  | _, _ => False
  end.

(** The local variables of two passes agree. *)
Definition locals_eq (s t : locals) : Prop :=
  status s = status t /\
  summary s = summary t /\
  recommendations s = recommendations t /\
  Forall2 finding_eq (critical_attributes s) (critical_attributes t).

(** What two loops over equal values visit: the members of equal lists,
    or in both loops a key first. *)
Definition same_visits (l1 l2 : list json) : Prop :=
  Forall2 json_eq l1 l2 \/
  exists s1 r1 s2 r2, l1 = JStr s1 :: r1 /\ l2 = JStr s2 :: r2.

(** The failing drive again, the members of each dict in another order. *)
Definition failing_drive_reordered : json :=
  JObj [("temperature", JObj [("current", JInt 60)]);
        ("ata_smart_attributes",
         JObj [("table",
                JArr [JObj [("raw", JObj [("value", JInt 3)]); ("thresh", JInt 10);
                            ("worst", JInt 100); ("value", JInt 100); ("id", JInt 5)]])]);
        ("smart_status", JObj [("passed", JBool false)])].

(** ** Limits of the interpreter *)

(** [sys.get_int_max_str_digits()]: the longest [int] that [str] and the
    f-strings print. *)
Definition INT_MAX_STR_DIGITS : Z := 4300.

(** Every integer of the document can be printed. *)
Fixpoint ints_printable (v : json) : bool :=
  match v with
  | JInt n => (Z.abs n <? 10 ^ INT_MAX_STR_DIGITS)%Z
  | JArr items => forallb ints_printable items
  | JObj fields => forallb (fun kv => ints_printable (snd kv)) fields
  | JNull | JBool _ | JStr _ => true
  end.

(** The turn of a device in the loop of [_collect_all_smart_info]
    completes: its fetch returns and the analysis of what it returned
    returns. *)
Definition turn_completes `{PyBuiltins} (spawn : list string -> Z -> run_outcome)
    (device : device_info) : Prop :=
  exists raw_data error_msg analysis_data,
    _get_raw_smart_data_for_device spawn device = Ok (raw_data, error_msg) /\
    _analyze_smart_data (if message_set error_msg then JNull else raw_data) =
      Ok analysis_data.

(** * Properties *)

(** ** The realtime history *)

Section DequeFacts.
Context {A : Type}.
Implicit Types (d : deque A) (x : A) (xs : list A).

(** One append keeps the newest [m] items of what was held plus the new one. *)
Lemma deque_append_items d x m :
  deque_maxlen d = Some m -> (0 <= m)%Z ->
  (Z.of_nat (length (deque_items d)) <= m)%Z ->
  deque_items (deque_append d x) =
    skipn (length (deque_items d ++ [x]) - Z.to_nat m) (deque_items d ++ [x]).
Proof.
  intros Hm Hpos Hlen. unfold deque_append. rewrite Hm. simpl.
  rewrite length_app. simpl.
  destruct (Z.ltb_spec m (Z.of_nat (length (deque_items d) + 1))) as [Hfull | Hroom].
  - replace (length (deque_items d) + 1 - Z.to_nat m)%nat with 1%nat by lia.
    destruct (deque_items d ++ [x]); reflexivity.
  - replace (length (deque_items d) + 1 - Z.to_nat m)%nat with 0%nat by lia.
    reflexivity.
Qed.

Lemma deque_append_bounded d x m :
  deque_maxlen d = Some m -> (0 <= m)%Z ->
  (Z.of_nat (length (deque_items d)) <= m)%Z ->
  (Z.of_nat (length (deque_items (deque_append d x))) <= m)%Z.
Proof.
  intros Hm Hpos Hlen. rewrite (deque_append_items d x m) by assumption.
  rewrite length_skipn, length_app. simpl. lia.
Qed.

(** Appending [xs] one by one keeps the newest [m] items, oldest first. *)
Lemma deque_append_all xs : forall d m,
  deque_maxlen d = Some m -> (0 <= m)%Z ->
  (Z.of_nat (length (deque_items d)) <= m)%Z ->
  deque_maxlen (fold_left deque_append xs d) = Some m /\
  deque_items (fold_left deque_append xs d) =
    skipn (length (deque_items d ++ xs) - Z.to_nat m) (deque_items d ++ xs).
Proof.
  induction xs as [| x xs IH]; intros d m Hm Hpos Hlen; simpl.
  - split; [assumption |]. rewrite app_nil_r.
    replace (length (deque_items d) - Z.to_nat m)%nat with 0%nat by lia. reflexivity.
  - destruct (IH (deque_append d x) m) as [IHm IHitems].
    + assumption.
    + assumption.
    + apply deque_append_bounded; assumption.
    + split; [assumption |]. rewrite IHitems.
      rewrite (deque_append_items d x m) by assumption.
      rewrite !length_app, length_skipn, length_app. simpl.
      set (n := length (deque_items d)) in *.
      destruct (Z.ltb_spec m (Z.of_nat (n + 1))) as [Hfull | Hroom].
      * replace (n + 1 - Z.to_nat m)%nat with 1%nat by lia.
        destruct (deque_items d) as [| o rest] eqn:Hd; simpl in *.
        { subst n. simpl in *. replace (Z.to_nat m) with 0%nat by lia.
          rewrite !Nat.sub_0_r. simpl. reflexivity. }
        { subst n. simpl in *.
          replace (length rest + 1 - 0 + length xs - Z.to_nat m)%nat
            with (length xs) by lia.
          replace (S (length rest + S (length xs)) - Z.to_nat m)%nat
            with (S (length xs)) by lia.
          simpl. rewrite drop_0, <- app_assoc. reflexivity. }
      * replace (n + 1 - Z.to_nat m)%nat with 0%nat by lia.
        rewrite drop_0, <- app_assoc. simpl.
        f_equal. lia.
Qed.
End DequeFacts.

Lemma record_samples_history (samples : list pyval) : forall self,
  _realtime_history (fold_left record_sample samples self) =
  fold_left deque_append samples (_realtime_history self).
Proof.
  induction samples as [| s samples IH]; intros self; simpl; [reflexivity |].
  rewrite IH. reflexivity.
Qed.

Lemma start_creates_history (app : app_config) (self0 self : SystemInfoService) :
  realtime_thread_alive self0 = false ->
  start app self0 = (self, Ok tt) ->
  let capacity := (REALTIME_RETENTION_MINUTES app * 60 / REALTIME_COLLECTION_INTERVAL app)%Z in
  _realtime_history self = {| deque_items := []; deque_maxlen := Some capacity |} /\
  (0 <= capacity)%Z.
Proof.
  intros Hidle Hstart capacity. unfold start in Hstart. rewrite Hidle in Hstart.
  unfold py_floordiv, deque_new in Hstart.
  destruct (REALTIME_COLLECTION_INTERVAL app =? 0)%Z eqn:Hzero; simpl in Hstart;
    [discriminate |].
  fold capacity in Hstart.
  destruct ((capacity <? PY_SSIZE_T_MIN) || (PY_SSIZE_T_MAX <? capacity))%Z; [discriminate |].
  destruct (Z.ltb_spec capacity 0); [discriminate |].
  injection Hstart as <-. simpl. split; [reflexivity | assumption].
Qed.

(** C1. After [start] has sized the history from retention minutes R and
    interval seconds I, however many samples the realtime loop appends, the
    history holds at most floor(R*60/I) of them: exactly the newest ones,
    oldest first; and an append to a full history drops its head. *)
Theorem realtime_history_bounded_fifo
    (app : app_config) (self0 self : SystemInfoService) (samples : list pyval) :
  realtime_thread_alive self0 = false ->
  start app self0 = (self, Ok tt) ->
  let capacity := (REALTIME_RETENTION_MINUTES app * 60 / REALTIME_COLLECTION_INTERVAL app)%Z in
  let running := fold_left record_sample samples self in
  let history := deque_items (_realtime_history running) in
  (Z.of_nat (length history) <= capacity)%Z /\
  history = skipn (length samples - Z.to_nat capacity) samples /\
  forall sample : pyval,
    Z.of_nat (length history) = capacity ->
    deque_items (_realtime_history (record_sample running sample)) = tl (history ++ [sample]).
Proof.
  intros Hidle Hstart capacity running history.
  destruct (start_creates_history app self0 self Hidle Hstart) as [Hnew Hpos].
  fold capacity in Hnew, Hpos.
  assert (Hrun : deque_maxlen (_realtime_history running) = Some capacity /\
                 history = skipn (length samples - Z.to_nat capacity) samples).
  { unfold history, running. rewrite record_samples_history, Hnew.
    destruct (deque_append_all samples {| deque_items := []; deque_maxlen := Some capacity |} capacity)
      as [Hm Hitems]; simpl; [reflexivity | assumption | lia |].
    split; assumption. }
  destruct Hrun as [Hm Hitems].
  assert (Hbound : (Z.of_nat (length history) <= capacity)%Z).
  { rewrite Hitems, length_skipn. lia. }
  repeat split; [assumption | assumption |].
  intros sample Hfull. simpl. unfold deque_append. rewrite Hm. simpl.
  fold history. rewrite length_app. simpl.
  destruct (Z.ltb_spec capacity (Z.of_nat (length history + 1))); [reflexivity | lia].
Qed.

Lemma realtime_history_bounded_fifo_witness :
  let samples := [Ref 0; Ref 1; Ref 2; Ref 3; Ref 4]%nat in
  let running := fold_left record_sample samples (fst (start demo_config __init__)) in
  deque_items (_realtime_history running) = [Ref 2; Ref 3; Ref 4]%nat /\
  deque_items (_realtime_history (record_sample running (Ref 5%nat))) = [Ref 3; Ref 4; Ref 5]%nat.
Proof.
  pose proof (realtime_history_bounded_fifo demo_config __init__
                (fst (start demo_config __init__))
                [Ref 0; Ref 1; Ref 2; Ref 3; Ref 4]%nat eq_refl eq_refl) as [_ [Hkept Hfifo]].
  split; [exact Hkept | exact (Hfifo (Ref 5%nat) eq_refl)].
Defined.
(** ** The analyzer *)

Lemma bind_ok {E A B} (m : result E A) (f : A -> result E B) (b : B) :
  (m ≫= f) = Ok b <-> exists a, m = Ok a /\ f a = Ok b.
Proof.
  destruct m as [a | e]; simpl; split.
  - intros Hf. exists a. split; [reflexivity | exact Hf].
  - intros (a' & [= <-] & Hf). exact Hf.
  - discriminate.
  - intros (a' & Hm & _). discriminate.
Qed.

(** Peels the binds of a computation known to return. *)
Ltac ok_inv H :=
  repeat match type of H with
         | (_ ≫= _) = Ok _ =>
             let x := fresh "x" in
             let Hx := fresh "Hx" in
             apply bind_ok in H as (x & Hx & H)
         end.

Lemma for_each_app {E X S} (body : X -> S -> result E S) (xs ys : list X) (st : S) :
  for_each body (xs ++ ys) st = (for_each body xs st ≫= for_each body ys).
Proof.
  revert st. induction xs as [| x xs IH]; intros st; simpl; [reflexivity |].
  destruct (body x st) as [st' | e]; simpl; [apply IH | reflexivity].
Qed.

Lemma escalates_refl a : escalates a a.
Proof. destruct a; simpl; auto. Qed.

Lemma escalates_trans a b c : escalates a b -> escalates b c -> escalates a c.
Proof. destruct a, b; simpl; intuition (subst; simpl in *; intuition congruence). Qed.

Lemma escalates_warn a : escalates a (warn_if_healthy a).
Proof. destruct a; simpl; auto. Qed.

Lemma escalates_failed a : escalates a FAILED.
Proof. destruct a; simpl; auto. Qed.

Create HintDb smart discriminated.
#[local] Hint Resolve escalates_refl escalates_warn escalates_failed : smart.

(** Splits a returning computation along its binds and branches. *)
Ltac ok_cases H :=
  repeat first
    [ progress ok_inv H
    | match type of H with
      | (if ?c then _ else _) = Ok _ => destruct c eqn:?
      | (match ?x with _ => _ end) = Ok _ => destruct x eqn:?
      | (let '(_, _) := ?p in _) = Ok _ => destruct p eqn:?
      end ];
  try discriminate H.

Section Analyzer.
Context `{PyBuiltins}.

Lemma self_test_rule_escalates raw st st' :
  self_test_rule raw st = Ok st' -> escalates (status st) (status st').
Proof.
  unfold self_test_rule. intros Hr.
  ok_cases Hr; injection Hr as <-; simpl; auto with smart.
Qed.

Lemma nvme_critical_rule_escalates log st st' :
  nvme_critical_rule log st = Ok st' -> escalates (status st) (status st').
Proof.
  unfold nvme_critical_rule. intros Hr.
  ok_cases Hr; injection Hr as <-; simpl; auto with smart.
Qed.

Lemma nvme_life_rule_escalates log st st' :
  nvme_life_rule log st = Ok st' -> escalates (status st) (status st').
Proof.
  unfold nvme_life_rule. intros Hr.
  ok_cases Hr; injection Hr as <-; simpl; auto with smart.
Qed.

Lemma ata_attribute_rule_escalates attr st st' :
  ata_attribute_rule attr st = Ok st' -> escalates (status st) (status st').
Proof.
  unfold ata_attribute_rule. intros Hr.
  ok_cases Hr; injection Hr as <-; simpl; auto with smart.
Qed.

Lemma temperature_rule_escalates raw st st' :
  temperature_rule raw st = Ok st' -> escalates (status st) (status st').
Proof.
  unfold temperature_rule. intros Hr.
  ok_cases Hr; injection Hr as <-; simpl; auto with smart.
Qed.

Lemma fire_escalates r st st' :
  fire r st = Ok st' -> escalates (status st) (status st').
Proof.
  destruct r; simpl.
  - apply self_test_rule_escalates.
  - apply nvme_critical_rule_escalates.
  - apply nvme_life_rule_escalates.
  - apply ata_attribute_rule_escalates.
  - apply temperature_rule_escalates.
Qed.

Lemma fire_all_escalates rules : forall st st',
  fire_all rules st = Ok st' -> escalates (status st) (status st').
Proof.
  unfold fire_all. induction rules as [| r rules IH]; intros st st' Hrun; simpl in Hrun.
  - injection Hrun as <-. apply escalates_refl.
  - ok_inv Hrun. eapply escalates_trans; [eapply fire_escalates | eapply IH]; eassumption.
Qed.

Lemma nvme_block_as_rules raw nvme st :
  nvme_rules raw = Ok nvme -> nvme_block raw st = fire_all nvme st.
Proof.
  unfold nvme_rules, nvme_block, fire_all. intros Hr.
  ok_cases Hr; injection Hr as <-; simpl.
  - repeat match goal with Hx : ?e = Ok _ |- context [?e] => rewrite Hx; simpl end.
    destruct (nvme_critical_rule _ st); simpl; [| reflexivity].
    destruct (nvme_life_rule _ _); reflexivity.
  - repeat match goal with Hx : ?e = Ok _ |- context [?e] => rewrite Hx; simpl end.
    reflexivity.
Qed.

Lemma for_each_ata_rules attrs : forall st,
  for_each fire (map AtaAttribute attrs) st = for_each ata_attribute_rule attrs st.
Proof.
  induction attrs as [| attr attrs IH]; intros st; simpl; [reflexivity |].
  destruct (ata_attribute_rule attr st); simpl; [apply IH | reflexivity].
Qed.

Lemma ata_block_as_rules raw ata st :
  ata_rules raw = Ok ata -> ata_block raw st = fire_all ata st.
Proof.
  unfold ata_rules, ata_block, fire_all. intros Hr.
  ok_cases Hr; injection Hr as <-; simpl.
  - repeat match goal with Hx : ?e = Ok _ |- context [?e] => rewrite Hx; simpl end.
    symmetry. apply for_each_ata_rules.
  - repeat match goal with Hx : ?e = Ok _ |- context [?e] => rewrite Hx; simpl end.
    reflexivity.
Qed.

(** The body of the analyzer is the firing of [pass_rules] in order. *)
Lemma analyze_as_pass raw rules :
  truthy raw = true -> pass_rules raw = Ok rules ->
  _analyze_smart_data raw = (fire_all rules initial_locals ≫= fun fin => Ok (conclude fin)).
Proof.
  intros Hraw Hrules. unfold _analyze_smart_data. rewrite Hraw. simpl.
  unfold pass_rules in Hrules.
  apply bind_ok in Hrules as (nvme & Hnvme & Hrules).
  apply bind_ok in Hrules as (ata & Hata & Hrules).
  injection Hrules as <-.
  unfold fire_all. simpl.
  destruct (self_test_rule raw initial_locals) as [st0 | e]; simpl; [| reflexivity].
  rewrite (nvme_block_as_rules raw nvme st0 Hnvme). unfold fire_all.
  rewrite for_each_app.
  destruct (for_each fire nvme st0) as [st1 | e]; simpl; [| reflexivity].
  rewrite (ata_block_as_rules raw ata st1 Hata). unfold fire_all.
  rewrite for_each_app.
  destruct (for_each fire ata st1) as [st2 | e]; simpl; [| reflexivity].
  destruct (temperature_rule raw st2); reflexivity.
Qed.

End Analyzer.

(** C2. Take the rules one analysis pass fires on a payload, in any order.
    If the status is FAILED after some of them have fired, it is FAILED at
    the end; if it is WARNING, it ends as WARNING or FAILED.  In source
    order, the end of the firing is what [_analyze_smart_data] returns. *)
Theorem smart_status_only_escalates `{PyBuiltins}
    (raw_data : json) (rules order fired later : list rule) (mid fin : locals) :
  truthy raw_data = true ->
  pass_rules raw_data = Ok rules ->
  Permutation rules order ->
  order = fired ++ later ->
  fire_all fired initial_locals = Ok mid ->
  fire_all later mid = Ok fin ->
  (status mid = FAILED -> health_status (conclude fin) = HealthStatus_name FAILED) /\
  (status mid = WARNING ->
     health_status (conclude fin) = HealthStatus_name WARNING \/
     health_status (conclude fin) = HealthStatus_name FAILED) /\
  (order = rules -> _analyze_smart_data raw_data = Ok (conclude fin)).
Proof.
  intros Hraw Hrules Hperm Horder Hfired Hlater.
  pose proof (fire_all_escalates later mid fin Hlater) as Hesc.
  repeat split.
  - intros Hmid. rewrite Hmid in Hesc. simpl in *. rewrite Hesc. reflexivity.
  - intros Hmid. rewrite Hmid in Hesc. simpl in *.
    destruct Hesc as [-> | ->]; [left | right]; reflexivity.
  - intros Hsame. rewrite (analyze_as_pass raw_data rules Hraw Hrules).
    rewrite <- Hsame, Horder. unfold fire_all in *. rewrite for_each_app, Hfired. simpl.
    rewrite Hlater. reflexivity.
Qed.

Lemma smart_status_only_escalates_witness :
  match @_analyze_smart_data example_builtins failing_drive with
  | Ok r => health_status r = HealthStatus_name FAILED
  | Raise _ => False
  end.
Proof.
  pose proof (@smart_status_only_escalates example_builtins failing_drive
                [SelfTest failing_drive; AtaAttribute (ata_row 5 3); Temperature failing_drive]
                [SelfTest failing_drive; AtaAttribute (ata_row 5 3); Temperature failing_drive]
                [SelfTest failing_drive]
                [AtaAttribute (ata_row 5 3); Temperature failing_drive]
                _ _ eq_refl eq_refl (Permutation_refl _) eq_refl eq_refl eq_refl)
    as (Hfailed & _ & Hsource).
  rewrite (Hsource eq_refl). exact (Hfailed eq_refl).
Defined.

(** ** What a rule may change *)

Lemma continues_refl st : continues st st.
Proof. split; exists []; rewrite app_nil_r; reflexivity. Qed.

Lemma continues_trans a b c : continues a b -> continues b c -> continues a c.
Proof.
  intros [[s1 Hs1] [r1 Hr1] [f1 Hf1]] [[s2 Hs2] [r2 Hr2] [f2 Hf2]].
  split; [exists (s1 ++ s2) | exists (r1 ++ r2) | exists (f1 ++ f2)];
    rewrite app_assoc; congruence.
Qed.

Lemma continues_append st s r f :
  continues st {| status := s; summary := summary st ++ r;
                  recommendations := recommendations st ++ f;
                  critical_attributes := critical_attributes st |}.
Proof. split; simpl; eauto. exists []. rewrite app_nil_r. reflexivity. Qed.

Lemma for_each_preserves {E X S} (R : S -> S -> Prop) (body : X -> S -> result E S) :
  (forall s, R s s) ->
  (forall a b c, R a b -> R b c -> R a c) ->
  (forall x s s', body x s = Ok s' -> R s s') ->
  forall xs s s', for_each body xs s = Ok s' -> R s s'.
Proof.
  intros Hrefl Htrans Hbody. induction xs as [| x xs IH]; intros s s' Hrun; simpl in Hrun.
  - injection Hrun as <-. apply Hrefl.
  - apply bind_ok in Hrun as (mid & Hx & Hrest).
    eapply Htrans; [eapply Hbody | eapply IH]; eassumption.
Qed.

Section Accumulation.
Context `{PyBuiltins}.

Lemma self_test_rule_continues raw st st' :
  self_test_rule raw st = Ok st' -> continues st st'.
Proof.
  unfold self_test_rule. intros Hr. ok_cases Hr; injection Hr as <-.
  - apply continues_append.
  - split; simpl; eauto; exists []; rewrite app_nil_r; reflexivity.
Qed.

Lemma nvme_critical_rule_continues log st st' :
  nvme_critical_rule log st = Ok st' -> continues st st'.
Proof.
  unfold nvme_critical_rule. intros Hr. ok_cases Hr; injection Hr as <-.
  - apply continues_append.
  - apply continues_refl.
Qed.

Lemma nvme_life_rule_continues log st st' :
  nvme_life_rule log st = Ok st' -> continues st st'.
Proof.
  unfold nvme_life_rule. intros Hr. ok_cases Hr; injection Hr as <-.
  - apply continues_append.
  - apply continues_refl.
Qed.

Lemma ata_attribute_rule_continues attr st st' :
  ata_attribute_rule attr st = Ok st' -> continues st st'.
Proof.
  unfold ata_attribute_rule. intros Hr. ok_cases Hr; injection Hr as <-;
    try apply continues_refl.
  split; simpl; eauto.
Qed.

Lemma temperature_rule_continues raw st st' :
  temperature_rule raw st = Ok st' -> continues st st'.
Proof.
  unfold temperature_rule. intros Hr. ok_cases Hr; injection Hr as <-;
    try apply continues_refl; apply continues_append.
Qed.

Lemma nvme_block_continues raw st st' :
  nvme_block raw st = Ok st' -> continues st st'.
Proof.
  unfold nvme_block. intros Hr. ok_cases Hr.
  - eapply continues_trans;
      [eapply nvme_critical_rule_continues | eapply nvme_life_rule_continues]; eassumption.
  - injection Hr as <-. apply continues_refl.
Qed.

Lemma ata_block_continues raw st st' :
  ata_block raw st = Ok st' -> continues st st'.
Proof.
  unfold ata_block. intros Hr. ok_cases Hr.
  - eapply (for_each_preserves continues); [| | | eassumption].
    + apply continues_refl.
    + apply continues_trans.
    + intros attr. apply ata_attribute_rule_continues.
  - injection Hr as <-. apply continues_refl.
Qed.

Lemma nvme_block_escalates raw st st' :
  nvme_block raw st = Ok st' -> escalates (status st) (status st').
Proof.
  unfold nvme_block. intros Hr. ok_cases Hr.
  - eapply escalates_trans;
      [eapply nvme_critical_rule_escalates | eapply nvme_life_rule_escalates]; eassumption.
  - injection Hr as <-. apply escalates_refl.
Qed.

Lemma ata_block_escalates raw st st' :
  ata_block raw st = Ok st' -> escalates (status st) (status st').
Proof.
  unfold ata_block. intros Hr. ok_cases Hr.
  - eapply (for_each_preserves (fun a b => escalates (status a) (status b)));
      [| | | eassumption].
    + intros s. apply escalates_refl.
    + intros a b c. apply escalates_trans.
    + intros attr. apply ata_attribute_rule_escalates.
  - injection Hr as <-. apply escalates_refl.
Qed.

(** The analyzer on a present payload, block by block. *)
Lemma analyze_blocks raw r :
  truthy raw = true -> _analyze_smart_data raw = Ok r ->
  exists st0 st1 st2 st3,
    self_test_rule raw initial_locals = Ok st0 /\
    nvme_block raw st0 = Ok st1 /\
    ata_block raw st1 = Ok st2 /\
    temperature_rule raw st2 = Ok st3 /\
    r = conclude st3.
Proof.
  intros Hraw Hr. unfold _analyze_smart_data in Hr. rewrite Hraw in Hr. simpl in Hr.
  apply bind_ok in Hr as (st0 & H0 & Hr). apply bind_ok in Hr as (st1 & H1 & Hr).
  apply bind_ok in Hr as (st2 & H2 & Hr). apply bind_ok in Hr as (st3 & H3 & Hr).
  injection Hr as <-. exists st0, st1, st2, st3. auto.
Qed.

Lemma conclude_status st : health_status (conclude st) = HealthStatus_name (status st).
Proof. reflexivity. Qed.

Lemma conclude_findings st :
  analysis_critical_attributes (conclude st) = critical_attributes st.
Proof. reflexivity. Qed.

Lemma conclude_keeps_summary st line :
  In line (summary st) -> In line (analysis_summary (conclude st)).
Proof.
  intros Hin. unfold conclude. simpl.
  destruct (match summary st with [first] => str_contains "✅" first | _ => false end);
    [apply in_or_app; left |]; assumption.
Qed.

Lemma conclude_keeps_recommendations st line :
  In line (recommendations st) -> In line (analysis_recommendations (conclude st)).
Proof.
  intros Hin. unfold conclude. simpl.
  destruct (match summary st with [first] => str_contains "✅" first | _ => false end);
    [apply in_or_app; left |]; assumption.
Qed.

Lemma continues_summary st st' line :
  continues st st' -> In line (summary st) -> In line (summary st').
Proof. intros [[more ->] _ _] Hin. apply in_or_app. left. assumption. Qed.

Lemma continues_recommendations st st' line :
  continues st st' -> In line (recommendations st) -> In line (recommendations st').
Proof. intros [_ [more ->] _] Hin. apply in_or_app. left. assumption. Qed.

Lemma continues_findings st st' f :
  continues st st' -> In f (critical_attributes st) -> In f (critical_attributes st').
Proof. intros [_ _ [more ->]] Hin. apply in_or_app. left. assumption. Qed.

Lemma at_most_warns_refl a : at_most_warns a a.
Proof. left. reflexivity. Qed.

Lemma at_most_warns_trans a b c : at_most_warns a b -> at_most_warns b c -> at_most_warns a c.
Proof. unfold at_most_warns. destruct a; intros [-> | ->] [-> | ->]; simpl; auto. Qed.

Lemma nvme_life_rule_at_most_warns log st st' :
  nvme_life_rule log st = Ok st' -> at_most_warns (status st) (status st').
Proof.
  unfold nvme_life_rule, at_most_warns. intros Hr.
  ok_cases Hr; injection Hr as <-; simpl; auto.
Qed.

Lemma ata_attribute_rule_at_most_warns attr st st' :
  ata_attribute_rule attr st = Ok st' -> at_most_warns (status st) (status st').
Proof.
  unfold ata_attribute_rule, at_most_warns. intros Hr.
  ok_cases Hr; injection Hr as <-; simpl; auto.
Qed.

Lemma temperature_rule_at_most_warns raw st st' :
  temperature_rule raw st = Ok st' -> at_most_warns (status st) (status st').
Proof.
  unfold temperature_rule, at_most_warns. intros Hr.
  ok_cases Hr; injection Hr as <-; simpl; auto.
Qed.

Lemma ata_block_at_most_warns raw st st' :
  ata_block raw st = Ok st' -> at_most_warns (status st) (status st').
Proof.
  unfold ata_block. intros Hr. ok_cases Hr.
  - eapply (for_each_preserves (fun a b => at_most_warns (status a) (status b)));
      [| | | eassumption].
    + intros s. apply at_most_warns_refl.
    + intros a b c. apply at_most_warns_trans.
    + intros attr. apply ata_attribute_rule_at_most_warns.
  - injection Hr as <-. apply at_most_warns_refl.
Qed.

Lemma py_getitem_object raw k v :
  py_getitem raw k = Ok v -> exists fields, raw = JObj fields /\ dict_get k fields = Some v.
Proof.
  destruct raw; simpl; try discriminate. intros Hget. exists fields. split; [reflexivity |].
  destruct (dict_get k fields); [congruence | discriminate].
Qed.

Lemma py_getitem_in raw k v : py_getitem raw k = Ok v -> py_in k raw = Ok true.
Proof.
  intros Hget. apply py_getitem_object in Hget as (fields & -> & Hk). simpl.
  rewrite Hk. reflexivity.
Qed.

Lemma reports_passed_truthy raw : reports_passed raw = true -> truthy raw = true.
Proof.
  destruct raw as [| | | | | fields]; simpl; try discriminate.
  destruct fields; [discriminate | reflexivity].
Qed.

(** The self-test rule decides by [reports_passed]. *)
Lemma self_test_rule_status raw st st' :
  self_test_rule raw st = Ok st' ->
  status st' = (if reports_passed raw then status st else FAILED) /\
  critical_attributes st' = critical_attributes st.
Proof.
  unfold self_test_rule. intros Hr.
  destruct raw as [| | | | | fields]; simpl in Hr; try discriminate.
  unfold reports_passed.
  destruct (dict_get "smart_status" fields) as [smart_status |]; simpl in Hr.
  - destruct smart_status as [| | | | | inner]; simpl in Hr; try discriminate.
    destruct (dict_get "passed" inner) as [passed |]; simpl in Hr.
    + destruct (truthy passed); injection Hr as <-; auto.
    + injection Hr as <-; auto.
  - injection Hr as <-; auto.
Qed.

Lemma nvme_critical_rule_findings log st st' :
  nvme_critical_rule log st = Ok st' -> critical_attributes st' = critical_attributes st.
Proof.
  unfold nvme_critical_rule. intros Hr. ok_cases Hr; injection Hr as <-; reflexivity.
Qed.

Lemma nvme_life_rule_findings log st st' :
  nvme_life_rule log st = Ok st' -> critical_attributes st' = critical_attributes st.
Proof.
  unfold nvme_life_rule. intros Hr. ok_cases Hr; injection Hr as <-; reflexivity.
Qed.

Lemma nvme_block_findings raw st st' :
  nvme_block raw st = Ok st' -> critical_attributes st' = critical_attributes st.
Proof.
  unfold nvme_block. intros Hr.
  apply bind_ok in Hr as (present & Hin & Hr). destruct present.
  - apply bind_ok in Hr as (log & Hlog & Hr). apply bind_ok in Hr as (mid & Hcrit & Hr).
    apply nvme_life_rule_findings in Hr. apply nvme_critical_rule_findings in Hcrit.
    congruence.
  - injection Hr as <-. reflexivity.
Qed.

Lemma nvme_block_without_warning raw st st' :
  nvme_critical_warning raw = false -> nvme_block raw st = Ok st' ->
  at_most_warns (status st) (status st').
Proof.
  unfold nvme_critical_warning, nvme_block. intros Hquiet Hr.
  apply bind_ok in Hr as (present & Hin & Hr). destruct present.
  - apply bind_ok in Hr as (log & Hlog & Hr). apply bind_ok in Hr as (mid & Hcrit & Hr).
    rewrite Hlog in Hquiet. simpl in Hquiet.
    unfold nvme_critical_rule in Hcrit.
    apply bind_ok in Hcrit as (cw & Hcw & Hcrit). apply bind_ok in Hcrit as (fired & Hgt & Hcrit).
    rewrite Hcw in Hquiet. simpl in Hquiet. rewrite Hgt in Hquiet. subst fired.
    injection Hcrit as <-. eapply nvme_life_rule_at_most_warns. eassumption.
  - injection Hr as <-. apply at_most_warns_refl.
Qed.

End Accumulation.

(** C10. A present payload that has no [smart_status] mapping with a true
    [passed] field is classified FAILED whenever the analysis returns. *)
Theorem missing_self_test_is_failed `{PyBuiltins} (raw_data : json) (r : SmartAnalysis) :
  truthy raw_data = true ->
  reports_passed raw_data = false ->
  _analyze_smart_data raw_data = Ok r ->
  health_status r = HealthStatus_name FAILED /\
  health_status_description r = HealthStatus_value FAILED.
Proof.
  intros Hraw Hmissing Hr.
  destruct (analyze_blocks raw_data r Hraw Hr) as (st0 & st1 & st2 & st3 & H0 & H1 & H2 & H3 & ->).
  apply self_test_rule_status in H0 as [H0 _]. rewrite Hmissing in H0.
  apply nvme_block_escalates in H1. apply ata_block_escalates in H2.
  apply temperature_rule_escalates in H3.
  rewrite H0 in H1. simpl in H1. rewrite H1 in H2. simpl in H2. rewrite H2 in H3. simpl in H3.
  unfold conclude. simpl. rewrite H3. split; reflexivity.
Qed.

Lemma missing_self_test_is_failed_witness :
  match @_analyze_smart_data example_builtins
          (JObj [("temperature", JObj [("current", JInt 30)])]) with
  | Ok r => health_status r = "FAILED" /\ health_status_description r = "危险 (FAILED)"
  | Raise _ => False
  end.
Proof.
  exact (@missing_self_test_is_failed example_builtins
           (JObj [("temperature", JObj [("current", JInt 30)])]) _
           eq_refl eq_refl eq_refl).
Defined.

(** ** Equal payloads get equal analyses *)

Lemma json_eq_refl : forall v, json_eq v v.
Proof.
  fix IH 1. intros [| b | n | s | l | d]; constructor.
  - induction l as [| x l IHl]; constructor; [apply IH | exact IHl].
  - intros k. induction d as [| [k' x] d IHd]; simpl; [constructor |].
    destruct (String.eqb k k'); [constructor; apply IH | exact IHd].
Qed.

Lemma same_outcome_bind {E A B} (R : A -> A -> Prop) (S : B -> B -> Prop)
    (m1 m2 : result E A) (f1 f2 : A -> result E B) :
  same_outcome R m1 m2 ->
  (forall a b, R a b -> same_outcome S (f1 a) (f2 b)) ->
  same_outcome S (m1 ≫= f1) (m2 ≫= f2).
Proof.
  destruct m1 as [a | e1], m2 as [b | e2]; simpl; intros Hm Hf; try contradiction.
  - apply Hf. exact Hm.
  - exact Hm.
Qed.

Lemma json_eq_empty (d1 d2 : list (string * json)) :
  (forall k, option_Forall2 json_eq (dict_get k d1) (dict_get k d2)) ->
  (d1 = [] <-> d2 = []).
Proof.
  intros Hsame. split; intros ->.
  - destruct d2 as [| [k v] d2]; [reflexivity |].
    specialize (Hsame k). simpl in Hsame. rewrite String.eqb_refl in Hsame. inversion Hsame.
  - destruct d1 as [| [k v] d1]; [reflexivity |].
    specialize (Hsame k). simpl in Hsame. rewrite String.eqb_refl in Hsame. inversion Hsame.
Qed.

Lemma json_eq_truthy (a b : json) : json_eq a b -> truthy a = truthy b.
Proof.
  intros [| | | | l1 l2 Hl | d1 d2 Hd]; try reflexivity; simpl.
  - destruct Hl; reflexivity.
  - pose proof (json_eq_empty d1 d2 Hd) as [Hto Hfrom].
    destruct d1, d2; try reflexivity; [discriminate Hto | discriminate Hfrom]; reflexivity.
Qed.

Lemma json_eq_get (a b : json) (k : string) (da db : json) :
  json_eq a b -> json_eq da db -> same_outcome json_eq (py_get a k da) (py_get b k db).
Proof.
  intros [| | | | l1 l2 Hl | d1 d2 Hd] Hdefault; simpl; try reflexivity.
  destruct (Hd k); assumption.
Qed.

Lemma json_eq_getitem (a b : json) (k : string) :
  json_eq a b -> same_outcome json_eq (py_getitem a k) (py_getitem b k).
Proof.
  intros [| | | | l1 l2 Hl | d1 d2 Hd]; simpl; try reflexivity.
  destruct (Hd k); simpl; [assumption | reflexivity].
Qed.

Lemma json_eq_in (k : string) (a b : json) : json_eq a b -> py_in k a = py_in k b.
Proof.
  intros [| | | | l1 l2 Hl | d1 d2 Hd]; simpl; try reflexivity.
  - f_equal. induction Hl as [| x y l1 l2 Hxy Hl IH]; simpl; [reflexivity |].
    rewrite IH. destruct Hxy; reflexivity.
  - destruct (Hd k); reflexivity.
Qed.

Lemma json_eq_num (a b : json) : json_eq a b -> py_num a = py_num b.
Proof. intros []; reflexivity. Qed.

Lemma json_eq_gt (a b : json) (k : Z) : json_eq a b -> py_gt a k = py_gt b k.
Proof. intros Hab. unfold py_gt. rewrite (json_eq_num a b Hab). reflexivity. Qed.

Lemma json_eq_format (a b : json) : json_eq a b -> py_format a = py_format b.
Proof. intros []; reflexivity. Qed.

Lemma json_eq_critical_lookup (a b : json) :
  json_eq a b -> critical_lookup a = critical_lookup b.
Proof. intros []; reflexivity. Qed.

Lemma json_eq_iter (a b : json) :
  json_eq a b -> same_outcome same_visits (py_iter a) (py_iter b).
Proof.
  intros [| | | s | l1 l2 Hl | d1 d2 Hd]; simpl; try reflexivity.
  - left. induction (list_ascii_of_string s); constructor; [constructor | assumption].
  - left. exact Hl.
  - pose proof (json_eq_empty d1 d2 Hd) as [Hto Hfrom].
    destruct d1 as [| [k1 v1] d1], d2 as [| [k2 v2] d2].
    + left. constructor.
    + discriminate Hto; reflexivity.
    + discriminate Hfrom; reflexivity.
    + right. simpl. eauto 8.
Qed.

Lemma locals_eq_refl (st : locals) : locals_eq st st.
Proof.
  repeat split.
  induction (critical_attributes st); constructor; [| assumption].
  repeat split; apply json_eq_refl.
Qed.

Section SameAnalysis.
Context `{PyBuiltins}.

Lemma json_eq_int_value (a b : json) : json_eq a b -> py_int a = py_int b.
Proof. intros []; reflexivity. Qed.

Lemma self_test_rule_same (a b : json) (s t : locals) :
  json_eq a b -> locals_eq s t ->
  same_outcome locals_eq (self_test_rule a s) (self_test_rule b t).
Proof.
  intros Hab (Hstatus & Hsummary & Hadvice & Hfound). unfold self_test_rule.
  apply (same_outcome_bind json_eq);
    [apply json_eq_get; [exact Hab | constructor; intros k; constructor] |].
  intros smart1 smart2 Hsmart.
  apply (same_outcome_bind json_eq); [apply json_eq_get; [exact Hsmart | constructor] |].
  intros passed1 passed2 Hpassed. rewrite (json_eq_truthy _ _ Hpassed).
  destruct (truthy passed2); simpl; repeat split; simpl; congruence.
Qed.

Lemma nvme_critical_rule_same (a b : json) (s t : locals) :
  json_eq a b -> locals_eq s t ->
  same_outcome locals_eq (nvme_critical_rule a s) (nvme_critical_rule b t).
Proof.
  intros Hab Hst. pose proof Hst as (Hstatus & Hsummary & Hadvice & Hfound).
  unfold nvme_critical_rule.
  apply (same_outcome_bind json_eq); [apply json_eq_get; [exact Hab | constructor] |].
  intros warning1 warning2 Hwarning. rewrite (json_eq_gt _ _ 0 Hwarning).
  destruct (py_gt warning2 0) as [[|] | e]; simpl; [| exact Hst | reflexivity].
  repeat split; simpl; congruence.
Qed.

Lemma nvme_life_rule_same (a b : json) (s t : locals) :
  json_eq a b -> locals_eq s t ->
  same_outcome locals_eq (nvme_life_rule a s) (nvme_life_rule b t).
Proof.
  intros Hab Hst. pose proof Hst as (Hstatus & Hsummary & Hadvice & Hfound).
  unfold nvme_life_rule.
  apply (same_outcome_bind json_eq); [apply json_eq_get; [exact Hab | constructor] |].
  intros used1 used2 Hused. rewrite (json_eq_gt _ _ 85 Hused).
  destruct (py_gt used2 85) as [[|] | e]; simpl; [| exact Hst | reflexivity].
  unfold nvme_life_line. rewrite (json_eq_format _ _ Hused).
  repeat split; simpl; congruence.
Qed.

Lemma raw_value_of_same (a b : json) : json_eq a b -> raw_value_of a = raw_value_of b.
Proof.
  intros Hab. unfold raw_value_of.
  pose proof (json_eq_get a b "raw" (JObj []) (JObj []) Hab
                (json_eq_obj [] [] (fun k => None_Forall2 json_eq))) as Hraw.
  destruct (py_get a "raw" (JObj [])) as [raw1 | e1], (py_get b "raw" (JObj [])) as [raw2 | e2];
    simpl in Hraw |- *; try contradiction; [| congruence].
  pose proof (json_eq_get raw1 raw2 "value" (JInt 0) (JInt 0) Hraw (json_eq_int 0)) as Hvalue.
  destruct (py_get raw1 "value" (JInt 0)) as [v1 | e1],
           (py_get raw2 "value" (JInt 0)) as [v2 | e2];
    simpl in Hvalue |- *; try contradiction; [| congruence].
  apply json_eq_int_value. exact Hvalue.
Qed.

Lemma ata_attribute_rule_same (a b : json) (s t : locals) :
  json_eq a b -> locals_eq s t ->
  same_outcome locals_eq (ata_attribute_rule a s) (ata_attribute_rule b t).
Proof.
  intros Hab Hst. pose proof Hst as (Hstatus & Hsummary & Hadvice & Hfound).
  unfold ata_attribute_rule.
  apply (same_outcome_bind json_eq); [apply json_eq_getitem; exact Hab |].
  intros id1 id2 Hid. rewrite (json_eq_critical_lookup _ _ Hid).
  destruct (critical_lookup id2) as [[[[name desc] check_raw] |] | e]; simpl;
    [| exact Hst | reflexivity].
  rewrite (raw_value_of_same _ _ Hab).
  destruct (raw_value_of b) as [raw_value | e]; simpl; [| reflexivity].
  apply (same_outcome_bind json_eq); [apply json_eq_get; [exact Hab | constructor] |].
  intros value1 value2 Hvalue.
  apply (same_outcome_bind json_eq); [apply json_eq_get; [exact Hab | constructor] |].
  intros worst1 worst2 Hworst.
  apply (same_outcome_bind json_eq); [apply json_eq_get; [exact Hab | constructor] |].
  intros thresh1 thresh2 Hthresh.
  destruct (check_raw && (0 <? raw_value)%Z); simpl; [| exact Hst].
  unfold ata_summary_line. rewrite (json_eq_format _ _ Hid).
  repeat split; simpl; try congruence.
  apply Forall2_app; [exact Hfound |]. constructor; [| constructor].
  repeat split; simpl; assumption.
Qed.

Lemma ata_rows_same (rows1 rows2 : list json) :
  Forall2 json_eq rows1 rows2 ->
  forall s t, locals_eq s t ->
  same_outcome locals_eq (for_each ata_attribute_rule rows1 s)
                         (for_each ata_attribute_rule rows2 t).
Proof.
  induction 1 as [| a b rows1 rows2 Hab Hrows IH]; intros s t Hst; cbn [for_each].
  - exact Hst.
  - apply (same_outcome_bind locals_eq); [apply ata_attribute_rule_same; assumption |].
    exact IH.
Qed.

Lemma ata_visits_same (rows1 rows2 : list json) (s t : locals) :
  same_visits rows1 rows2 -> locals_eq s t ->
  same_outcome locals_eq (for_each ata_attribute_rule rows1 s)
                         (for_each ata_attribute_rule rows2 t).
Proof.
  intros [Hrows | (s1 & r1 & s2 & r2 & -> & ->)] Hst.
  - apply ata_rows_same; assumption.
  - reflexivity.
Qed.

Lemma nvme_block_same (a b : json) (s t : locals) :
  json_eq a b -> locals_eq s t ->
  same_outcome locals_eq (nvme_block a s) (nvme_block b t).
Proof.
  intros Hab Hst. unfold nvme_block. rewrite (json_eq_in _ _ _ Hab).
  destruct (py_in _ b) as [[|] | e]; simpl; [| exact Hst | reflexivity].
  apply (same_outcome_bind json_eq); [apply json_eq_getitem; exact Hab |].
  intros log1 log2 Hlog.
  apply (same_outcome_bind locals_eq); [apply nvme_critical_rule_same; assumption |].
  intros s' t' Hst'. apply nvme_life_rule_same; assumption.
Qed.

Lemma ata_block_same (a b : json) (s t : locals) :
  json_eq a b -> locals_eq s t ->
  same_outcome locals_eq (ata_block a s) (ata_block b t).
Proof.
  intros Hab Hst. unfold ata_block. rewrite (json_eq_in _ _ _ Hab).
  destruct (py_in _ b) as [[|] | e]; simpl; [| exact Hst | reflexivity].
  apply (same_outcome_bind json_eq); [apply json_eq_getitem; exact Hab |].
  intros ata1 ata2 Hata.
  apply (same_outcome_bind json_eq); [apply json_eq_getitem; exact Hata |].
  intros table1 table2 Htable.
  apply (same_outcome_bind same_visits); [apply json_eq_iter; exact Htable |].
  intros rows1 rows2 Hrows. apply ata_visits_same; assumption.
Qed.

Lemma temperature_rule_same (a b : json) (s t : locals) :
  json_eq a b -> locals_eq s t ->
  same_outcome locals_eq (temperature_rule a s) (temperature_rule b t).
Proof.
  intros Hab Hst. pose proof Hst as (Hstatus & Hsummary & Hadvice & Hfound).
  unfold temperature_rule.
  apply (same_outcome_bind json_eq);
    [apply json_eq_get; [exact Hab | constructor; intros k; constructor] |].
  intros temperature1 temperature2 Htemperature.
  apply (same_outcome_bind json_eq); [apply json_eq_get; [exact Htemperature | constructor] |].
  intros temp1 temp2 Htemp.
  destruct Htemp as [| flag | n | text | l1 l2 Hl | d1 d2 Hd]; try exact Hst;
    try reflexivity.
  - destruct (py_gt (JBool flag) 55) as [[|] | e]; simpl; [| exact Hst | reflexivity].
    repeat split; simpl; congruence.
  - destruct (py_gt (JInt n) 55) as [[|] | e]; simpl; [| exact Hst | reflexivity].
    repeat split; simpl; congruence.
Qed.

Lemma conclude_same (s t : locals) : locals_eq s t -> analysis_eq (conclude s) (conclude t).
Proof.
  intros (Hstatus & Hsummary & Hadvice & Hfound). unfold conclude, analysis_eq. simpl.
  rewrite Hstatus, Hsummary, Hadvice. repeat split. exact Hfound.
Qed.

End SameAnalysis.

(** C3. Two calls of the analyzer on equal payloads end the same way.
    The payloads of the two calls need not be one object: they hold the
    same document, their dicts possibly built in different orders.  Then
    either both calls raise the same exception, or both return, with the
    same status and description, the same summary lines and
    recommendations, and findings that agree entry by entry.  The
    analyzer's only other inputs are the constant attribute table and the
    enum: it reads no field of the service, and looks into a dict by key
    only, never in iteration order. *)
Theorem analysis_is_deterministic `{PyBuiltins} (first second : json) :
  json_eq first second ->
  same_outcome analysis_eq (_analyze_smart_data first) (_analyze_smart_data second).
Proof.
  intros Hsame. unfold _analyze_smart_data. rewrite (json_eq_truthy _ _ Hsame).
  destruct (truthy second); simpl.
  - apply (same_outcome_bind locals_eq);
      [apply self_test_rule_same; [exact Hsame | apply locals_eq_refl] |].
    intros s0 t0 H0.
    apply (same_outcome_bind locals_eq); [apply nvme_block_same; assumption |].
    intros s1 t1 H1.
    apply (same_outcome_bind locals_eq); [apply ata_block_same; assumption |].
    intros s2 t2 H2.
    apply (same_outcome_bind locals_eq); [apply temperature_rule_same; assumption |].
    intros s3 t3 H3. apply conclude_same. exact H3.
  - repeat split. constructor.
Qed.

(** Lookup by key in two concrete dicts with the same members. *)
Ltac same_members :=
  intros k; simpl;
  repeat match goal with
         | |- context [String.eqb k ?key] =>
             destruct (String.eqb_spec k key) as [-> | ?]; simpl
         end;
  try congruence; constructor.

Lemma failing_drive_same_document : json_eq failing_drive failing_drive_reordered.
Proof.
  constructor. same_members.
  - constructor. same_members. constructor.
  - constructor. same_members. constructor. constructor; [| constructor].
    constructor. same_members; try constructor.
    same_members. constructor.
  - constructor. same_members. constructor.
Qed.

Lemma analysis_is_deterministic_witness :
  json_eq failing_drive failing_drive_reordered /\
  failing_drive <> failing_drive_reordered /\
  same_outcome analysis_eq (@_analyze_smart_data example_builtins failing_drive)
                           (@_analyze_smart_data example_builtins failing_drive_reordered) /\
  exists a, @_analyze_smart_data example_builtins failing_drive = Ok a.
Proof.
  split; [exact failing_drive_same_document |]. split; [discriminate |].
  split; [| eexists; reflexivity].
  exact (@analysis_is_deterministic example_builtins failing_drive failing_drive_reordered
           failing_drive_same_document).
Defined.

(** C6 as stated fails: without a passed self-test the drive is FAILED,
    although the SSD-life line is in the summary. *)
Lemma worn_nvme_without_self_test_is_failed :
  exists raw_data nvme_log,
    py_getitem raw_data "nvme_smart_health_information_log" = Ok nvme_log /\
    py_get nvme_log "percentage_used" (JInt 0) = Ok (JInt 90) /\
    py_get nvme_log "critical_warning" (JInt 0) = Ok (JInt 0) /\
    forall B : PyBuiltins,
      @_analyze_smart_data B raw_data =
        Ok {| health_status := "FAILED";
              health_status_description := "危险 (FAILED)";
              analysis_summary := ["❌ 整体S.M.A.R.T.自检状态为失败！";
                                   "⚠️ NVMe SSD 已用寿命达到 90%。"];
              analysis_critical_attributes := [];
              analysis_recommendations := ["立即备份所有重要数据并准备更换此硬盘！";
                                           "考虑在不久的将来更换此SSD。"] |}.
Proof.
  exists worn_nvme_only. eexists. repeat split; reflexivity.
Qed.

(** C6, amended. When the self-test is reported as passed, an NVMe log
    with 90% of life used and no critical warning gives WARNING, and the
    summary cites the SSD life usage. *)
Theorem worn_nvme_warns `{PyBuiltins} (raw_data nvme_log : json) (r : SmartAnalysis) :
  reports_passed raw_data = true ->
  py_getitem raw_data "nvme_smart_health_information_log" = Ok nvme_log ->
  py_get nvme_log "percentage_used" (JInt 0) = Ok (JInt 90) ->
  py_get nvme_log "critical_warning" (JInt 0) = Ok (JInt 0) ->
  _analyze_smart_data raw_data = Ok r ->
  health_status r = HealthStatus_name WARNING /\
  In "⚠️ NVMe SSD 已用寿命达到 90%。" (analysis_summary r).
Proof.
  intros Hpassed Hlog Hused Hcw Hr.
  pose proof (reports_passed_truthy raw_data Hpassed) as Hraw.
  destruct (analyze_blocks raw_data r Hraw Hr) as (st0 & st1 & st2 & st3 & H0 & H1 & H2 & H3 & ->).
  apply self_test_rule_status in H0 as [H0 _]. rewrite Hpassed in H0. simpl in H0.
  assert (Hst1 : status st1 = WARNING /\ In "⚠️ NVMe SSD 已用寿命达到 90%。" (summary st1)).
  { unfold nvme_block in H1. rewrite (py_getitem_in _ _ _ Hlog) in H1. simpl in H1.
    rewrite Hlog in H1. simpl in H1.
    unfold nvme_critical_rule, nvme_life_rule in H1. rewrite Hcw in H1. simpl in H1.
    rewrite Hused in H1. simpl in H1. injection H1 as <-. simpl. rewrite H0.
    split; [reflexivity |]. apply in_or_app. right. left. reflexivity. }
  destruct Hst1 as [Hwarn Hline].
  pose proof (ata_block_at_most_warns _ _ _ H2) as Hs2.
  pose proof (temperature_rule_at_most_warns _ _ _ H3) as Hs3.
  pose proof (ata_block_continues _ _ _ H2) as Hc2.
  pose proof (temperature_rule_continues _ _ _ H3) as Hc3.
  rewrite Hwarn in Hs2. destruct Hs2 as [Hs2 | Hs2]; simpl in Hs2;
    rewrite Hs2 in Hs3; destruct Hs3 as [Hs3 | Hs3]; simpl in Hs3;
    (split; [rewrite conclude_status, Hs3; reflexivity |
             apply conclude_keeps_summary;
             eapply continues_summary; [exact Hc3 |];
             eapply continues_summary; [exact Hc2 |]; exact Hline]).
Qed.

Lemma worn_nvme_warns_witness :
  match @_analyze_smart_data example_builtins worn_nvme_passed with
  | Ok r => health_status r = "WARNING" /\
            In "⚠️ NVMe SSD 已用寿命达到 90%。" (analysis_summary r)
  | Raise _ => False
  end.
Proof.
  exact (@worn_nvme_warns example_builtins worn_nvme_passed _ _
           eq_refl eq_refl eq_refl eq_refl eq_refl).
Defined.

Section AtaRows.
Context `{PyBuiltins}.

Lemma ata_attribute_rule_quiet attr st st' :
  alarming attr = false -> ata_attribute_rule attr st = Ok st' -> st' = st.
Proof.
  unfold alarming, ata_attribute_rule. intros Hquiet Hr.
  apply bind_ok in Hr as (attr_id & Hid & Hr). apply bind_ok in Hr as (entry & Hentry & Hr).
  rewrite Hid in Hquiet. simpl in Hquiet. rewrite Hentry in Hquiet. simpl in Hquiet.
  destruct entry as [[[name desc] check_raw] |]; [| injection Hr as <-; reflexivity].
  apply bind_ok in Hr as (raw_value & Hvalue & Hr).
  rewrite Hvalue in Hquiet. simpl in Hquiet. rewrite Hquiet in Hr.
  ok_cases Hr. injection Hr as <-. reflexivity.
Qed.

Lemma ata_attribute_rule_fires attr st st' attr_id name desc raw_value :
  ata_attribute_rule attr st = Ok st' ->
  py_getitem attr "id" = Ok attr_id ->
  critical_lookup attr_id = Ok (Some (name, desc, true)) ->
  raw_value_of attr = Ok raw_value ->
  (0 < raw_value)%Z ->
  exists value worst thresh,
    py_get attr "value" JNull = Ok value /\
    py_get attr "worst" JNull = Ok worst /\
    py_get attr "thresh" JNull = Ok thresh /\
    st' = {| status := warn_if_healthy (status st);
             summary := summary st ++ [ata_summary_line name attr_id raw_value];
             recommendations := recommendations st ++ [ata_recommendation name];
             critical_attributes := critical_attributes st ++
               [ {| finding_id := attr_id; finding_name := name;
                    finding_raw_value := raw_value; finding_description := desc;
                    finding_value := value; finding_worst := worst;
                    finding_thresh := thresh |} ] |}.
Proof.
  unfold ata_attribute_rule. intros Hr Hid Hentry Hvalue Hpos.
  rewrite Hid in Hr. simpl in Hr. rewrite Hentry in Hr. simpl in Hr.
  rewrite Hvalue in Hr. simpl in Hr.
  apply bind_ok in Hr as (value & Hv & Hr). apply bind_ok in Hr as (worst & Hw & Hr).
  apply bind_ok in Hr as (thresh & Ht & Hr).
  assert (Hfire : (0 <? raw_value)%Z = true) by (apply Z.ltb_lt; assumption).
  rewrite Hfire in Hr. injection Hr as <-.
  exists value, worst, thresh. auto.
Qed.

Lemma for_each_quiet rows : forall st st',
  existsb alarming rows = false ->
  for_each ata_attribute_rule rows st = Ok st' -> st' = st.
Proof.
  induction rows as [| row rows IH]; intros st st' Hquiet Hrun; simpl in *.
  - injection Hrun as <-. reflexivity.
  - apply orb_false_elim in Hquiet as [Hrow Hrest].
    apply bind_ok in Hrun as (mid & Hmid & Hrun).
    apply (ata_attribute_rule_quiet _ _ _ Hrow) in Hmid. subst mid.
    apply IH; assumption.
Qed.

(** Where in the loop a given row is handled. *)
Lemma for_each_member {X S} (R : S -> S -> Prop) (body : X -> S -> result py_exn S) :
  (forall s, R s s) ->
  (forall a b c, R a b -> R b c -> R a c) ->
  (forall x s s', body x s = Ok s' -> R s s') ->
  forall xs x s s', for_each body xs s = Ok s' -> In x xs ->
  exists before after, R s before /\ body x before = Ok after /\ R after s'.
Proof.
  intros Hrefl Htrans Hbody. induction xs as [| y xs IH]; intros x s s' Hrun Hin.
  - destruct Hin.
  - simpl in Hrun. apply bind_ok in Hrun as (mid & Hy & Hrun). destruct Hin as [-> | Hin].
    + exists s, mid. repeat split; [apply Hrefl | assumption |].
      eapply for_each_preserves; eassumption.
    + destruct (IH x mid s' Hrun Hin) as (before & after & Hb & Hx & Ha).
      exists before, after. repeat split; [| assumption | assumption].
      eapply Htrans; [eapply Hbody; eassumption | assumption].
Qed.

End AtaRows.

(** C5 as stated fails: a second critical attribute adds a second finding. *)
Lemma reallocated_sectors_with_pending_sectors :
  exists raw_data ata table row temperature,
    reports_passed raw_data = true /\
    py_getitem raw_data "ata_smart_attributes" = Ok ata /\
    py_getitem ata "table" = Ok (JArr table) /\
    In row table /\
    py_getitem row "id" = Ok (JInt 5) /\
    py_get raw_data "temperature" (JObj []) = Ok temperature /\
    py_get temperature "current" JNull = Ok (JInt 40) /\
    forall B : PyBuiltins,
      @raw_value_of B row = Ok 3%Z /\
      exists r, @_analyze_smart_data B raw_data = Ok r /\
                map finding_id (analysis_critical_attributes r) = [JInt 5; JInt 197].
Proof.
  exists two_alarms, (JObj [("table", JArr [ata_row 5 3; ata_row 197 1])]),
    [ata_row 5 3; ata_row 197 1], (ata_row 5 3), (JObj [("current", JInt 40)]).
  repeat split; try reflexivity.
  - left. reflexivity.
  - eexists. split; reflexivity.
Qed.

(** C5, amended. Self-test passed, no NVMe critical warning, temperature
    40, and an ATA table in which the row of attribute 5 has raw value 3
    and no other row is a critical attribute with a raw value above zero:
    the status is WARNING and the one finding is that of attribute 5, with
    its raw, normalized, worst and threshold values. *)
Theorem reallocated_sectors_warn `{PyBuiltins}
    (raw_data ata row temperature : json) (before after : list json) (r : SmartAnalysis) :
  reports_passed raw_data = true ->
  nvme_critical_warning raw_data = false ->
  py_getitem raw_data "ata_smart_attributes" = Ok ata ->
  py_getitem ata "table" = Ok (JArr (before ++ row :: after)) ->
  py_getitem row "id" = Ok (JInt 5) ->
  raw_value_of row = Ok 3%Z ->
  existsb alarming (before ++ after) = false ->
  py_get raw_data "temperature" (JObj []) = Ok temperature ->
  py_get temperature "current" JNull = Ok (JInt 40) ->
  _analyze_smart_data raw_data = Ok r ->
  health_status r = HealthStatus_name WARNING /\
  exists value worst thresh,
    py_get row "value" JNull = Ok value /\
    py_get row "worst" JNull = Ok worst /\
    py_get row "thresh" JNull = Ok thresh /\
    analysis_critical_attributes r =
      [ {| finding_id := JInt 5;
           finding_name := "Reallocated_Sector_Ct";
           finding_raw_value := 3;
           finding_description := "已重映射扇区数。当硬盘发现读/写/校验错误时，会将该扇区标记为“已重映射”并使用备用扇区替换。非零值是磁盘表面退化的明确信号。";
           finding_value := value; finding_worst := worst; finding_thresh := thresh |} ].
Proof.
  intros Hpassed Hnvme Hata Htable Hid Hvalue Hquiet Htemp Hcurrent Hr.
  pose proof (reports_passed_truthy raw_data Hpassed) as Hraw.
  destruct (analyze_blocks raw_data r Hraw Hr) as (st0 & st1 & st2 & st3 & H0 & H1 & H2 & H3 & ->).
  apply self_test_rule_status in H0 as [Hs0 Hf0]. rewrite Hpassed in Hs0. simpl in Hs0, Hf0.
  pose proof (nvme_block_without_warning _ _ _ Hnvme H1) as Hs1.
  pose proof (nvme_block_findings _ _ _ H1) as Hf1.
  rewrite Hs0 in Hs1. rewrite Hf0 in Hf1.
  (* the loop over the table *)
  unfold ata_block in H2. rewrite (py_getitem_in _ _ _ Hata) in H2. simpl in H2.
  rewrite Hata in H2. simpl in H2. rewrite Htable in H2. simpl in H2.
  rewrite for_each_app in H2. apply bind_ok in H2 as (sb & Hbefore & H2).
  rewrite existsb_app in Hquiet. apply orb_false_elim in Hquiet as [Hqb Hqa].
  apply (for_each_quiet _ _ _ Hqb) in Hbefore. subst sb.
  simpl in H2. apply bind_ok in H2 as (sr & Hrow & Hafter).
  apply (for_each_quiet _ _ _ Hqa) in Hafter. subst st2.
  destruct (ata_attribute_rule_fires row st1 sr (JInt 5) _ _ 3 Hrow Hid eq_refl Hvalue)
    as (value & worst & thresh & Hv & Hw & Ht & ->); [lia |].
  (* the temperature rule stays silent *)
  unfold temperature_rule in H3. rewrite Htemp in H3. simpl in H3.
  rewrite Hcurrent in H3. simpl in H3. injection H3 as <-.
  split.
  - rewrite conclude_status. simpl.
    destruct Hs1 as [-> | ->]; reflexivity.
  - exists value, worst, thresh. repeat split; try assumption.
    rewrite conclude_findings. simpl. rewrite Hf1. reflexivity.
Qed.

Lemma reallocated_sectors_warn_witness :
  match @_analyze_smart_data example_builtins scenario_a with
  | Ok r => health_status r = "WARNING" /\
            map finding_id (analysis_critical_attributes r) = [JInt 5] /\
            map finding_raw_value (analysis_critical_attributes r) = [3%Z]
  | Raise _ => False
  end.
Proof.
  destruct (@reallocated_sectors_warn example_builtins scenario_a
              (JObj [("table", JArr [ata_row 9 1200; ata_row 5 3; ata_row 197 0])])
              (ata_row 5 3) (JObj [("current", JInt 40)])
              [ata_row 9 1200] [ata_row 197 0] _
              eq_refl eq_refl eq_refl eq_refl eq_refl eq_refl eq_refl eq_refl eq_refl eq_refl)
    as (Hstatus & value & worst & thresh & _ & _ & _ & Hfindings).
  split; [exact Hstatus |]. split; reflexivity.
Defined.

Section Marks.
Context `{PyBuiltins}.

Lemma nvme_block_marks raw st st' nvme_log percentage_used :
  nvme_block raw st = Ok st' ->
  py_getitem raw "nvme_smart_health_information_log" = Ok nvme_log ->
  py_get nvme_log "percentage_used" (JInt 0) = Ok percentage_used ->
  py_gt percentage_used 85 = Ok true ->
  In (nvme_life_line percentage_used) (summary st') /\
  In "考虑在不久的将来更换此SSD。" (recommendations st').
Proof.
  intros Hblock Hlog Hused Hfired.
  unfold nvme_block in Hblock. rewrite (py_getitem_in _ _ _ Hlog) in Hblock. simpl in Hblock.
  rewrite Hlog in Hblock. simpl in Hblock. apply bind_ok in Hblock as (mid & _ & Hlife).
  unfold nvme_life_rule in Hlife. rewrite Hused in Hlife. simpl in Hlife.
  rewrite Hfired in Hlife. simpl in Hlife. injection Hlife as <-. simpl.
  split; apply in_or_app; right; left; reflexivity.
Qed.

Lemma ata_block_marks raw st st' ata table rows row attr_id name desc raw_value :
  ata_block raw st = Ok st' ->
  py_getitem raw "ata_smart_attributes" = Ok ata ->
  py_getitem ata "table" = Ok table ->
  py_iter table = Ok rows ->
  In row rows ->
  py_getitem row "id" = Ok attr_id ->
  critical_lookup attr_id = Ok (Some (name, desc, true)) ->
  raw_value_of row = Ok raw_value ->
  (0 < raw_value)%Z ->
  In (ata_summary_line name attr_id raw_value) (summary st') /\
  In (ata_recommendation name) (recommendations st') /\
  exists value worst thresh,
    py_get row "value" JNull = Ok value /\
    py_get row "worst" JNull = Ok worst /\
    py_get row "thresh" JNull = Ok thresh /\
    In {| finding_id := attr_id; finding_name := name;
          finding_raw_value := raw_value; finding_description := desc;
          finding_value := value; finding_worst := worst;
          finding_thresh := thresh |} (critical_attributes st').
Proof.
  intros Hblock Hata Htable Hrows Hin Hid Hentry Hvalue Hpos.
  unfold ata_block in Hblock. rewrite (py_getitem_in _ _ _ Hata) in Hblock. simpl in Hblock.
  rewrite Hata in Hblock. simpl in Hblock. rewrite Htable in Hblock. simpl in Hblock.
  rewrite Hrows in Hblock. simpl in Hblock.
  destruct (for_each_member continues ata_attribute_rule continues_refl continues_trans
              ata_attribute_rule_continues rows row st st' Hblock Hin)
    as (sa & sb & _ & Hrow & Hrest).
  destruct (ata_attribute_rule_fires row sa sb attr_id name desc raw_value
              Hrow Hid Hentry Hvalue Hpos)
    as (value & worst & thresh & Hv & Hw & Ht & ->).
  split; [| split].
  - eapply continues_summary; [exact Hrest |]. simpl. apply in_or_app. right. left. reflexivity.
  - eapply continues_recommendations; [exact Hrest |]. simpl.
    apply in_or_app. right. left. reflexivity.
  - exists value, worst, thresh. repeat split; try assumption.
    eapply continues_findings; [exact Hrest |]. simpl. apply in_or_app. right. left. reflexivity.
Qed.

Lemma temperature_rule_marks raw st st' temperature temp :
  temperature_rule raw st = Ok st' ->
  py_get raw "temperature" (JObj []) = Ok temperature ->
  py_get temperature "current" JNull = Ok temp ->
  py_gt temp 55 = Ok true ->
  In (temperature_line temp) (summary st') /\
  In "检查机箱通风和散热情况。" (recommendations st').
Proof.
  intros Hrule Htemp Hcurrent Hfired.
  unfold temperature_rule in Hrule. rewrite Htemp in Hrule. simpl in Hrule.
  rewrite Hcurrent in Hrule. simpl in Hrule.
  destruct temp; try discriminate Hfired; rewrite Hfired in Hrule; simpl in Hrule;
    injection Hrule as <-; simpl; split; apply in_or_app; right; left; reflexivity.
Qed.

End Marks.

(** C9. Whatever the status has become, every warning condition leaves its
    marks: NVMe life usage above 85 and a temperature above 55 each add
    their summary line and recommendation, and every critical ATA
    attribute with a raw value above zero adds its line, recommendation
    and finding. *)
Theorem findings_not_gated_by_severity `{PyBuiltins} (raw_data : json) (r : SmartAnalysis) :
  truthy raw_data = true ->
  _analyze_smart_data raw_data = Ok r ->
  (forall nvme_log percentage_used,
     py_getitem raw_data "nvme_smart_health_information_log" = Ok nvme_log ->
     py_get nvme_log "percentage_used" (JInt 0) = Ok percentage_used ->
     py_gt percentage_used 85 = Ok true ->
     In (nvme_life_line percentage_used) (analysis_summary r) /\
     In "考虑在不久的将来更换此SSD。" (analysis_recommendations r)) /\
  (forall ata table rows row attr_id name desc raw_value,
     py_getitem raw_data "ata_smart_attributes" = Ok ata ->
     py_getitem ata "table" = Ok table ->
     py_iter table = Ok rows ->
     In row rows ->
     py_getitem row "id" = Ok attr_id ->
     critical_lookup attr_id = Ok (Some (name, desc, true)) ->
     raw_value_of row = Ok raw_value ->
     (0 < raw_value)%Z ->
     In (ata_summary_line name attr_id raw_value) (analysis_summary r) /\
     In (ata_recommendation name) (analysis_recommendations r) /\
     exists value worst thresh,
       py_get row "value" JNull = Ok value /\
       py_get row "worst" JNull = Ok worst /\
       py_get row "thresh" JNull = Ok thresh /\
       In {| finding_id := attr_id; finding_name := name;
             finding_raw_value := raw_value; finding_description := desc;
             finding_value := value; finding_worst := worst;
             finding_thresh := thresh |} (analysis_critical_attributes r)) /\
  (forall temperature temp,
     py_get raw_data "temperature" (JObj []) = Ok temperature ->
     py_get temperature "current" JNull = Ok temp ->
     py_gt temp 55 = Ok true ->
     In (temperature_line temp) (analysis_summary r) /\
     In "检查机箱通风和散热情况。" (analysis_recommendations r)).
Proof.
  intros Hraw Hr.
  destruct (analyze_blocks raw_data r Hraw Hr) as (st0 & st1 & st2 & st3 & H0 & H1 & H2 & H3 & ->).
  pose proof (ata_block_continues _ _ _ H2) as Hc2.
  pose proof (temperature_rule_continues _ _ _ H3) as Hc3.
  split; [| split].
  - intros nvme_log percentage_used Hlog Hused Hfired.
    destruct (nvme_block_marks _ _ _ _ _ H1 Hlog Hused Hfired) as [Hline Hrec].
    split.
    + apply conclude_keeps_summary.
      eapply continues_summary; [exact Hc3 |]. eapply continues_summary; [exact Hc2 |].
      exact Hline.
    + apply conclude_keeps_recommendations.
      eapply continues_recommendations; [exact Hc3 |].
      eapply continues_recommendations; [exact Hc2 |]. exact Hrec.
  - intros ata table rows row attr_id name desc raw_value
      Hata Htable Hrows Hin Hid Hentry Hvalue Hpos.
    destruct (ata_block_marks _ _ _ _ _ _ _ _ _ _ _
                H2 Hata Htable Hrows Hin Hid Hentry Hvalue Hpos)
      as (Hline & Hrec & value & worst & thresh & Hv & Hw & Ht & Hfinding).
    split; [| split].
    + apply conclude_keeps_summary. eapply continues_summary; [exact Hc3 |]. exact Hline.
    + apply conclude_keeps_recommendations.
      eapply continues_recommendations; [exact Hc3 |]. exact Hrec.
    + exists value, worst, thresh. repeat split; try assumption.
      rewrite conclude_findings. eapply continues_findings; [exact Hc3 |]. exact Hfinding.
  - intros temperature temp Htemp Hcurrent Hfired.
    destruct (temperature_rule_marks _ _ _ _ _ H3 Htemp Hcurrent Hfired) as [Hline Hrec].
    split; [apply conclude_keeps_summary | apply conclude_keeps_recommendations]; assumption.
Qed.

Lemma findings_not_gated_by_severity_witness :
  match @_analyze_smart_data example_builtins everything_wrong with
  | Ok r =>
      health_status r = "FAILED" /\
      (In "⚠️ NVMe SSD 已用寿命达到 90%。" (analysis_summary r) /\
       In "考虑在不久的将来更换此SSD。" (analysis_recommendations r)) /\
      In "⚠️ 发现关键属性异常：Reallocated_Sector_Ct (ID 5) 的值为 3。" (analysis_summary r) /\
      (In "🔥 温度偏高 (60°C)！" (analysis_summary r) /\
       In "检查机箱通风和散热情况。" (analysis_recommendations r))
  | Raise _ => False
  end.
Proof.
  destruct (@findings_not_gated_by_severity example_builtins everything_wrong _
              eq_refl eq_refl) as (Hnvme & Hata & Htemp).
  split; [reflexivity |]. split; [| split].
  - exact (Hnvme _ _ eq_refl eq_refl eq_refl).
  - exact (proj1 (Hata _ _ _ (ata_row 5 3) _ _ _ 3%Z
                    eq_refl eq_refl eq_refl (or_introl eq_refl) eq_refl eq_refl eq_refl eq_refl)).
  - exact (Htemp _ _ eq_refl eq_refl eq_refl).
Defined.

(** ** The command executor *)

(** C4. [_run_command] returns a pair for every command, elevation flag
    and behaviour of the child process (the time limit is the constant 60
    of the source): success with the stripped output on exit code 0, and
    otherwise [False] with a text that names the missing program, or the
    command, its output and its exit code, or the command that timed out. *)
Theorem run_command_never_raises `{PyBuiltins}
    (spawn : list string -> Z -> run_outcome) (command : list string) (use_sudo : bool) :
  let full_command := if use_sudo then "sudo" :: command else command in
  exists (success : bool) (payload : string),
    _run_command spawn command use_sudo = Ok (success, payload) /\
    match spawn full_command 60 with
    | Exited returncode stdout stderr =>
        if (returncode =? 0)%Z then success = true /\ payload = str_strip stdout
        else
          success = false /\
          payload =
            ("命令 '" ++ String.concat " " full_command ++ "' 执行失败: " ++
             (if negb (String.eqb stderr "") then str_strip stderr else str_strip stdout) ++
             " (Exit Code: " ++ str_of_int returncode ++ ")")%string
    | NotFound filename =>
        success = false /\
        payload = ("命令未找到: " ++ filename ++ "。请确保相关工具已安装。")%string
    | TimedOut =>
        success = false /\
        payload = ("命令 '" ++ String.concat " " full_command ++ "' 执行超时。")%string
    | Crashed text =>
        success = false /\ payload = ("执行命令时发生未知错误: " ++ text)%string
    end.
Proof.
  intros full_command. unfold _run_command, subprocess_run, try_except. fold full_command.
  destruct (spawn full_command 60) as [returncode stdout stderr | filename | | text]; simpl.
  - destruct (returncode =? 0)%Z; simpl; eauto.
  - eauto.
  - eauto.
  - eauto.
Qed.

(** ** The S.M.A.R.T. cycle *)

Lemma dict_get_set_eq {V} (k : string) (v : V) (d : list (string * V)) :
  dict_get k (dict_set k v d) = Some v.
Proof.
  induction d as [| [k' v'] d IH]; simpl.
  - rewrite String.eqb_refl. reflexivity.
  - destruct (String.eqb_spec k k') as [-> | Hne]; simpl.
    + rewrite String.eqb_refl. reflexivity.
    + destruct (String.eqb_spec k k'); [contradiction | exact IH].
Qed.

Lemma dict_get_set_ne {V} (k k' : string) (v : V) (d : list (string * V)) :
  k <> k' -> dict_get k' (dict_set k v d) = dict_get k' d.
Proof.
  intros Hne. induction d as [| [k'' v''] d IH]; simpl.
  - destruct (String.eqb_spec k' k); [congruence | reflexivity].
  - destruct (String.eqb_spec k k'') as [-> | Hne']; simpl.
    + destruct (String.eqb_spec k' k''); [congruence | reflexivity].
    + destruct (String.eqb_spec k' k''); [reflexivity | exact IH].
Qed.

Section Cycle.
Context `{PyBuiltins}.

Lemma run_command_returns spawn command use_sudo :
  exists success output, _run_command spawn command use_sudo = Ok (success, output).
Proof.
  unfold _run_command, subprocess_run, try_except.
  destruct (spawn _ 60) as [returncode stdout stderr | filename | | text]; simpl; eauto.
  destruct (returncode =? 0)%Z; simpl; eauto.
Qed.

Lemma absent_payload_unknown raw :
  truthy raw = false -> _analyze_smart_data raw = Ok unknown_analysis.
Proof. intros Hraw. unfold _analyze_smart_data. rewrite Hraw. reflexivity. Qed.

Lemma fetch_returns spawn device :
  exists raw_data error_msg,
    _get_raw_smart_data_for_device spawn device = Ok (raw_data, error_msg) /\
    (message_set error_msg = true -> raw_data = JNull).
Proof.
  unfold _get_raw_smart_data_for_device.
  destruct (run_command_returns spawn
              (["smartctl"; "-a"; "-j"] ++ type_args device ++ [path device]) true)
    as (success & output & Hrun).
  rewrite Hrun. simpl. destruct success; simpl.
  - destruct (json_loads output); eauto. do 2 eexists. split; [reflexivity |].
    simpl. discriminate.
  - eauto.
Qed.

Lemma collect_device_failed spawn device info log :
  fetch_fails spawn device = true ->
  exists log',
    collect_device spawn device (info, log) =
      Ok (dict_set (path device) unknown_entry info, log').
Proof.
  unfold fetch_fails, collect_device. intros Hfails.
  destruct (fetch_returns spawn device) as (raw_data & error_msg & Hfetch & Hnull).
  rewrite Hfetch in Hfails |- *. simpl. rewrite Hfails.
  rewrite (Hnull Hfails). simpl. eauto.
Qed.

Lemma collect_device_sets spawn device info log info1 log1 :
  collect_device spawn device (info, log) = Ok (info1, log1) ->
  exists entry, info1 = dict_set (path device) entry info.
Proof.
  unfold collect_device. intros Hrun.
  apply bind_ok in Hrun as ([raw_data error_msg] & Hfetch & Hrun).
  destruct (message_set error_msg);
    apply bind_ok in Hrun as (analysis_data & Hanalysis & Hrun);
    injection Hrun as <- <-; eauto.
Qed.

(** With the same fetch result, the same entry is stored. *)
Lemma collect_device_same_fetch spawn spawn' device info log info1 log1 info' log' :
  _get_raw_smart_data_for_device spawn' device = _get_raw_smart_data_for_device spawn device ->
  collect_device spawn device (info, log) = Ok (info1, log1) ->
  exists entry log1',
    info1 = dict_set (path device) entry info /\
    collect_device spawn' device (info', log') = Ok (dict_set (path device) entry info', log1').
Proof.
  unfold collect_device. intros Hsame Hrun. rewrite Hsame.
  apply bind_ok in Hrun as ([raw_data error_msg] & Hfetch & Hrun). rewrite Hfetch.
  unfold mbind at 1, result_bind at 1.
  destruct (message_set error_msg);
    apply bind_ok in Hrun as (analysis_data & Hanalysis & Hrun);
    injection Hrun as <- <-; rewrite Hanalysis; simpl; eauto.
Qed.

Lemma cycle_isolated spawn spawn' (d : device_info) devices :
  (forall x, In x devices -> path x = path d -> fetch_fails spawn' x = true) ->
  (forall x, In x devices -> path x <> path d ->
     _get_raw_smart_data_for_device spawn' x = _get_raw_smart_data_for_device spawn x) ->
  forall info log info' log' info1 log1,
    (forall p, p <> path d -> dict_get p info' = dict_get p info) ->
    for_each (collect_device spawn) devices (info, log) = Ok (info1, log1) ->
    exists info1' log1',
      for_each (collect_device spawn') devices (info', log') = Ok (info1', log1') /\
      (forall p, p <> path d -> dict_get p info1' = dict_get p info1).
Proof.
  induction devices as [| x devices IH]; intros Hfail Hsame info log info' log' info1 log1
    Hagree Hrun; cbn [for_each] in Hrun |- *.
  - injection Hrun as <- <-. eauto.
  - apply bind_ok in Hrun as ([infom logm] & Hx & Hrun).
    assert (Hfail' : forall y, In y devices -> path y = path d -> fetch_fails spawn' y = true)
      by (intros y Hy; apply Hfail; right; exact Hy).
    assert (Hsame' : forall y, In y devices -> path y <> path d ->
              _get_raw_smart_data_for_device spawn' y = _get_raw_smart_data_for_device spawn y)
      by (intros y Hy; apply Hsame; right; exact Hy).
    destruct (String.eqb_spec (path x) (path d)) as [Heq | Hne].
    + destruct (collect_device_failed spawn' x info' log' (Hfail x (or_introl eq_refl) Heq))
        as (logm' & Hx').
      rewrite Hx'. simpl.
      apply collect_device_sets in Hx as (entry & ->).
      eapply IH; try eassumption.
      intros p Hp. rewrite !dict_get_set_ne by congruence. apply Hagree. exact Hp.
    + destruct (collect_device_same_fetch spawn spawn' x info log infom logm info' log'
                  (Hsame x (or_introl eq_refl) Hne) Hx) as (entry & logm' & -> & Hx').
      rewrite Hx'. simpl.
      eapply IH; try eassumption.
      intros p Hp. destruct (String.eqb_spec (path x) p) as [<- | Hxp].
      * rewrite !dict_get_set_eq. reflexivity.
      * rewrite !dict_get_set_ne by assumption. apply Hagree. exact Hp.
Qed.

Lemma cycle_unknown spawn (d : device_info) devices :
  (forall x, In x devices -> path x = path d -> fetch_fails spawn x = true) ->
  forall info log info1 log1,
    for_each (collect_device spawn) devices (info, log) = Ok (info1, log1) ->
    In d devices \/ dict_get (path d) info = Some unknown_entry ->
    dict_get (path d) info1 = Some unknown_entry.
Proof.
  induction devices as [| x devices IH]; intros Hfail info log info1 log1 Hrun Hseen;
    cbn [for_each] in Hrun.
  - injection Hrun as <- <-. destruct Hseen as [[] | Hseen]. exact Hseen.
  - apply bind_ok in Hrun as ([infom logm] & Hx & Hrun).
    assert (Hfail' : forall y, In y devices -> path y = path d -> fetch_fails spawn y = true)
      by (intros y Hy; apply Hfail; right; exact Hy).
    destruct (String.eqb_spec (path x) (path d)) as [Heq | Hne].
    + destruct (collect_device_failed spawn x info log (Hfail x (or_introl eq_refl) Heq))
        as (logm' & Hx').
      rewrite Hx' in Hx. injection Hx as <- <-.
      eapply IH; try eassumption. right. rewrite Heq. apply dict_get_set_eq.
    + apply collect_device_sets in Hx as (entry & ->).
      eapply IH; try eassumption.
      destruct Hseen as [[-> | Hin] | Hseen].
      * contradiction.
      * left. exact Hin.
      * right. rewrite dict_get_set_ne by assumption. exact Hseen.
Qed.

End Cycle.

(** C7. In a cycle where the fetch of the device at some path fails, the
    report holds for it no payload and the UNKNOWN analysis with its single
    summary line; every device at another path has the entry it has in
    the cycle that differs only by that fetch. *)
Theorem absent_payload_is_unknown_and_isolated `{PyBuiltins}
    (spawn spawn' : list string -> Z -> run_outcome)
    (devices : list device_info) (d : device_info)
    (report : smart_report) (log : list string) :
  In d devices ->
  (forall x, In x devices -> path x = path d -> fetch_fails spawn' x = true) ->
  (forall x, In x devices -> path x <> path d ->
     _get_raw_smart_data_for_device spawn' x = _get_raw_smart_data_for_device spawn x) ->
  _collect_all_smart_info spawn (inr devices) = Ok (report, log) ->
  exists report' log',
    _collect_all_smart_info spawn' (inr devices) = Ok (report', log') /\
    (exists entry,
       dict_get (path d) (disk_info report') = Some entry /\
       raw_smart_data entry = JNull /\
       health_status (analysis entry) = HealthStatus_name UNKNOWN /\
       analysis_summary (analysis entry) = ["无法获取S.M.A.R.T.数据。"]) /\
    (forall p, p <> path d ->
       dict_get p (disk_info report') = dict_get p (disk_info report)).
Proof.
  intros Hin Hfail Hsame Hrun. unfold _collect_all_smart_info in Hrun |- *.
  apply bind_ok in Hrun as ([info1 log1] & Hloop & Hrun). injection Hrun as <- <-.
  destruct (cycle_isolated spawn spawn' d devices Hfail Hsame [] [] [] [] info1 log1
              (fun p _ => eq_refl) Hloop) as (info1' & log1' & Hloop' & Hagree).
  rewrite Hloop'. simpl. do 2 eexists. split; [reflexivity |]. simpl. split.
  - exists unknown_entry. split; [| repeat split].
    eapply cycle_unknown; [exact Hfail | exact Hloop' | left; exact Hin].
  - exact Hagree.
Qed.

Lemma run_command_exit_code_example :
  @_run_command example_builtins (fun _ _ => Exited 2 "" "Permission denied")
    ["smartctl"; "--scan-open"; "-j"] true =
  Ok (false, "命令 'sudo smartctl --scan-open -j' 执行失败: Permission denied (Exit Code: 2)").
Proof. reflexivity. Qed.

Lemma absent_payload_is_unknown_and_isolated_witness :
  match @_collect_all_smart_info example_builtins sda_refused (inr [sda; sdb]),
        @_collect_all_smart_info example_builtins all_drives_answer (inr [sda; sdb]) with
  | Ok (refused, _), Ok (answered, _) =>
      (exists entry,
         dict_get "/dev/sda" (disk_info refused) = Some entry /\
         raw_smart_data entry = JNull /\
         health_status (analysis entry) = "UNKNOWN" /\
         analysis_summary (analysis entry) = ["无法获取S.M.A.R.T.数据。"]) /\
      dict_get "/dev/sdb" (disk_info refused) = dict_get "/dev/sdb" (disk_info answered)
  | _, _ => False
  end.
Proof.
  assert (Hfail : forall x, In x [sda; sdb] -> path x = path sda ->
            @fetch_fails example_builtins sda_refused x = true).
  { intros x [<- | [<- | []]] Hpath; [reflexivity | discriminate Hpath]. }
  assert (Hsame : forall x, In x [sda; sdb] -> path x <> path sda ->
            @_get_raw_smart_data_for_device example_builtins sda_refused x =
            @_get_raw_smart_data_for_device example_builtins all_drives_answer x).
  { intros x [<- | [<- | []]] Hpath; [contradiction Hpath; reflexivity | reflexivity]. }
  destruct (@absent_payload_is_unknown_and_isolated example_builtins
              all_drives_answer sda_refused [sda; sdb] sda _ _
              (or_introl eq_refl) Hfail Hsame eq_refl)
    as (report' & log' & Hrun & Hunknown & Hothers).
  rewrite Hrun. simpl. split; [exact Hunknown |].
  apply (Hothers "/dev/sdb"). discriminate.
Defined.

(** ** The read accessors *)

Lemma call_allocates acc self h : call acc self h = alloc h (held acc self).
Proof. destruct acc; reflexivity. Qed.

Lemma mapM_agree {A B} (f g : A -> option B) (l : list A) :
  (forall x, In x l -> f x = g x) -> mapM f l = mapM g l.
Proof.
  induction l as [| x l IH]; intros Hfg; simpl; [reflexivity |].
  rewrite (Hfg x (or_introl eq_refl)), IH; [reflexivity |].
  intros y Hy. apply Hfg. right. exact Hy.
Qed.

(** A walk from a value that points below [n], in a heap whose objects
    below [n] point below [n], never looks at an address from [n] on. *)
Lemma deep_read_frame (n : nat) (h h' : heap) :
  (forall a o, (a < n)%nat -> h !! a = Some o -> obj_closed n o = true) ->
  (forall a, (a < n)%nat -> h' !! a = h !! a) ->
  forall fuel v, val_closed n v = true -> deep_read fuel h' v = deep_read fuel h v.
Proof.
  intros Hclosed Hagree. induction fuel as [| fuel IH]; intros v Hv.
  - destruct v; reflexivity.
  - destruct v as [s | a]; [reflexivity |]. simpl in Hv. apply Nat.ltb_lt in Hv.
    cbn [deep_read]. rewrite (Hagree a Hv).
    destruct (h !! a) as [o |] eqn:Ho; [| reflexivity].
    pose proof (Hclosed a o Hv Ho) as Hobj.
    destruct o as [d | l]; simpl in Hobj; f_equal; apply mapM_agree.
    + intros kv Hkv. rewrite forallb_forall in Hobj. rewrite (IH _ (Hobj kv Hkv)). reflexivity.
    + intros x Hx. rewrite forallb_forall in Hobj. apply IH, Hobj, Hx.
Qed.

Lemma heap_closed_lookup (h : heap) (a : addr) (o : pyobj) :
  heap_closed h = true -> h !! a = Some o -> obj_closed (length h) o = true.
Proof.
  unfold heap_closed. rewrite forallb_forall. intros Hclosed Ho.
  apply Hclosed. apply list_elem_of_In. eapply list_elem_of_lookup_2. exact Ho.
Qed.

Lemma mutate_length h a m : length (mutate h a m) = length h.
Proof. unfold mutate. destruct (h !! a); [apply length_insert | reflexivity]. Qed.

Lemma mutate_other h a m b : a <> b -> mutate h a m !! b = h !! b.
Proof.
  intros Hne. unfold mutate. destruct (h !! a); [| reflexivity].
  apply list_lookup_insert_ne. exact Hne.
Qed.

Lemma mutations_elsewhere (a : addr) (ms : list mutation) : forall h,
  length (fold_left (fun heap m => mutate heap a m) ms h) = length h /\
  forall b, a <> b -> fold_left (fun heap m => mutate heap a m) ms h !! b = h !! b.
Proof.
  induction ms as [| m ms IH]; intros h; simpl; [auto |].
  destruct (IH (mutate h a m)) as [Hlen Hother]. split.
  - rewrite Hlen. apply mutate_length.
  - intros b Hne. rewrite (Hother b Hne). apply mutate_other. exact Hne.
Qed.

Lemma held_closed acc self h :
  store_closed h self = true -> obj_closed (length h) (held acc self) = true.
Proof.
  unfold store_closed. intros Hstore.
  apply andb_prop in Hstore as [Hstore Hsmart]. apply andb_prop in Hstore as [Hstore Hdisk].
  apply andb_prop in Hstore as [Hhw Hrt]. destruct acc; assumption.
Qed.

(** Reading the copy an accessor has just made, in a heap that agrees
    with [h] below its length. *)
Lemma deep_read_copy (h h' : heap) (o : pyobj) (a : addr) (fuel : nat) :
  heap_closed h = true ->
  obj_closed (length h) o = true ->
  (forall b, (b < length h)%nat -> h' !! b = h !! b) ->
  h' !! a = Some o ->
  deep_read (S fuel) h' (Ref a) =
    match o with
    | DictObj d =>
        TDict <$> mapM (fun kv => t ← deep_read fuel h (snd kv); Some (fst kv, t)) d
    | ListObj l => TList <$> mapM (deep_read fuel h) l
    end.
Proof.
  intros Hheap Hobj Hagree Ha. cbn [deep_read]. rewrite Ha.
  assert (Hframe : forall v, val_closed (length h) v = true ->
                             deep_read fuel h' v = deep_read fuel h v).
  { apply deep_read_frame; [| exact Hagree].
    intros b ob _ Hb. eapply heap_closed_lookup; eassumption. }
  destruct o as [d | l]; simpl in Hobj; rewrite forallb_forall in Hobj;
    f_equal; apply mapM_agree.
  - intros kv Hkv. rewrite (Hframe _ (Hobj kv Hkv)). reflexivity.
  - intros x Hx. apply Hframe, Hobj, Hx.
Qed.

(** C8, amended. Whatever a caller does to the collection an accessor
    returned (setting, deleting, appending, clearing its entries), the
    next call of the accessor shows what the first call showed. *)
Theorem returned_collection_is_a_copy
    (acc : accessor) (self : SystemInfoService) (h : heap)
    (ms : list mutation) (fuel : nat) :
  heap_closed h = true ->
  store_closed h self = true ->
  let returned := call acc self h in
  let mutated := fold_left (fun heap m => mutate heap (snd returned) m) ms (fst returned) in
  let again := call acc self mutated in
  deep_read fuel (fst again) (Ref (snd again)) =
  deep_read fuel (fst returned) (Ref (snd returned)).
Proof.
  intros Hheap Hstore returned mutated again.
  destruct fuel as [| fuel]; [reflexivity |].
  pose proof (held_closed acc self h Hstore) as Hobj.
  subst again mutated returned. rewrite !call_allocates. unfold alloc. cbn [fst snd].
  destruct (mutations_elsewhere (length h) ms (h ++ [held acc self])) as [Hlen Hother].
  rewrite (deep_read_copy h _ (held acc self) _ fuel Hheap Hobj).
  - rewrite (deep_read_copy h _ (held acc self) _ fuel Hheap Hobj); [reflexivity | |].
    + intros b Hb. apply lookup_app_l. exact Hb.
    + rewrite lookup_app_r by lia. rewrite Nat.sub_diag. reflexivity.
  - intros b Hb. rewrite lookup_app_l.
    + rewrite Hother by lia. apply lookup_app_l. exact Hb.
    + rewrite Hlen, length_app. simpl. lia.
  - rewrite lookup_app_r by lia. rewrite Nat.sub_diag. reflexivity.
Qed.

Lemma returned_collection_is_a_copy_witness :
  let returned := get_hardware_info probed_service probed_heap in
  let mutated :=
    fold_left (fun heap m => mutate heap (snd returned) m)
      [DictSet "data" (Imm SNone); DictDel "timestamp"; Clear] (fst returned) in
  let again := get_hardware_info probed_service mutated in
  deep_read 2 (fst again) (Ref (snd again)) =
    Some (TDict [("timestamp", TImm (SStr "2025-01-01T00:00:00+00:00"));
                 ("data", TDict [("os", TImm (SStr "Linux"))])]) /\
  deep_read 2 mutated (Ref (snd returned)) = Some (TDict []).
Proof.
  split; [| reflexivity].
  exact (eq_trans
           (returned_collection_is_a_copy HardwareInfo probed_service probed_heap
              [DictSet "data" (Imm SNone); DictDel "timestamp"; Clear] 2 eq_refl eq_refl)
           eq_refl).
Defined.

(** C8 as stated fails: the copy is shallow.  The caller writes into the
    ["data"] dict of the returned inventory, and the next snapshot shows
    the change. *)
Lemma nested_member_is_shared :
  let returned := get_hardware_info probed_service probed_heap in
  let tampered := mutate (fst returned) 0 (DictSet "os" (Imm (SStr "tampered"))) in
  let again := get_hardware_info probed_service tampered in
  fst returned !! snd returned =
    Some (DictObj [("timestamp", Imm (SStr "2025-01-01T00:00:00+00:00"));
                   ("data", Ref 0%nat)]) /\
  deep_read 2 (fst returned) (Ref (snd returned)) =
    Some (TDict [("timestamp", TImm (SStr "2025-01-01T00:00:00+00:00"));
                 ("data", TDict [("os", TImm (SStr "Linux"))])]) /\
  deep_read 2 (fst again) (Ref (snd again)) =
    Some (TDict [("timestamp", TImm (SStr "2025-01-01T00:00:00+00:00"));
                 ("data", TDict [("os", TImm (SStr "tampered"))])]).
Proof. repeat split. Qed.

(** * Further properties of the code *)
(** ** The verdict as a function of the payload *)

Section Verdict.
Context `{PyBuiltins}.

Lemma py_in_false_getitem k raw :
  py_in k raw = Ok false -> exists e, py_getitem raw k = Raise e.
Proof.
  destruct raw; simpl; try discriminate; eauto.
  destruct (dict_get k fields); [discriminate | eauto].
Qed.

Lemma nvme_block_status raw st st' :
  nvme_block raw st = Ok st' ->
  status st' =
    if nvme_critical_warning raw then FAILED
    else if nvme_worn raw then warn_if_healthy (status st) else status st.
Proof.
  unfold nvme_block, nvme_critical_warning, nvme_worn. intros Hblock.
  apply bind_ok in Hblock as (present & Hin & Hblock). destruct present.
  - apply bind_ok in Hblock as (nvme_log & Hlog & Hblock).
    apply bind_ok in Hblock as (mid & Hcrit & Hlife).
    rewrite Hlog. simpl.
    unfold nvme_critical_rule in Hcrit.
    apply bind_ok in Hcrit as (cw & Hcw & Hcrit). apply bind_ok in Hcrit as (b1 & Hb1 & Hcrit).
    unfold nvme_life_rule in Hlife.
    apply bind_ok in Hlife as (pu & Hpu & Hlife). apply bind_ok in Hlife as (b2 & Hb2 & Hlife).
    rewrite Hcw, Hpu. simpl. rewrite Hb1, Hb2.
    destruct b1, b2; injection Hcrit as <-; injection Hlife as <-; reflexivity.
  - injection Hblock as <-.
    destruct (py_in_false_getitem _ _ Hin) as (e & ->). reflexivity.
Qed.

Lemma alarming_fires row st st' :
  ata_attribute_rule row st = Ok st' -> alarming row = true ->
  exists f,
    finding_of_row f row /\
    st' = {| status := warn_if_healthy (status st);
             summary := summary st ++
               [ata_summary_line (finding_name f) (finding_id f) (finding_raw_value f)];
             recommendations := recommendations st ++ [ata_recommendation (finding_name f)];
             critical_attributes := critical_attributes st ++ [f] |}.
Proof.
  unfold alarming, ata_attribute_rule. intros Hrule Halarm.
  apply bind_ok in Hrule as (attr_id & Hid & Hrule).
  apply bind_ok in Hrule as (entry & Hentry & Hrule).
  rewrite Hid in Halarm. simpl in Halarm. rewrite Hentry in Halarm. simpl in Halarm.
  destruct entry as [[[name desc] check_raw] |]; [| discriminate].
  apply bind_ok in Hrule as (raw_value & Hvalue & Hrule).
  rewrite Hvalue in Halarm. simpl in Halarm. rewrite Halarm in Hrule.
  apply andb_prop in Halarm as [-> Hpos]. apply Z.ltb_lt in Hpos.
  apply bind_ok in Hrule as (value & Hv & Hrule). apply bind_ok in Hrule as (worst & Hw & Hrule).
  apply bind_ok in Hrule as (thresh & Ht & Hrule). injection Hrule as <-.
  eexists {| finding_id := attr_id; finding_name := name; finding_raw_value := raw_value;
             finding_description := desc; finding_value := value; finding_worst := worst;
             finding_thresh := thresh |}.
  split; [| reflexivity]. unfold finding_of_row. simpl. auto 10.
Qed.

(** The loop over the table: the status, and one finding per alarming row. *)
Lemma ata_rows_effect rows : forall st st',
  for_each ata_attribute_rule rows st = Ok st' ->
  status st' = (if existsb alarming rows then warn_if_healthy (status st) else status st) /\
  exists fs, critical_attributes st' = critical_attributes st ++ fs /\
             Forall2 finding_of_row fs (List.filter alarming rows).
Proof.
  induction rows as [| row rows IH]; intros st st' Hrun; cbn [for_each] in Hrun.
  - injection Hrun as <-. split; [reflexivity |]. exists []. rewrite app_nil_r. auto.
  - apply bind_ok in Hrun as (mid & Hrow & Hrest).
    destruct (IH _ _ Hrest) as (Hstatus & fs & Hfs & Hall). simpl.
    destruct (alarming row) eqn:Halarm; simpl.
    + destruct (alarming_fires _ _ _ Hrow Halarm) as (f & Hf & ->). simpl in *.
      split.
      * rewrite Hstatus. destruct (existsb alarming rows), (status st); reflexivity.
      * exists (f :: fs). rewrite Hfs, <- app_assoc. split; [reflexivity |].
        constructor; assumption.
    + apply (ata_attribute_rule_quiet _ _ _ Halarm) in Hrow. subst mid.
      split; [exact Hstatus |]. exists fs. auto.
Qed.

Lemma ata_block_effect raw st st' :
  ata_block raw st = Ok st' ->
  status st' =
    (if existsb alarming (ata_rows raw) then warn_if_healthy (status st) else status st) /\
  exists fs, critical_attributes st' = critical_attributes st ++ fs /\
             Forall2 finding_of_row fs (List.filter alarming (ata_rows raw)).
Proof.
  unfold ata_block, ata_rows. intros Hblock.
  apply bind_ok in Hblock as (present & Hin & Hblock). destruct present.
  - apply bind_ok in Hblock as (ata & Hata & Hblock).
    apply bind_ok in Hblock as (table & Htable & Hblock).
    apply bind_ok in Hblock as (rows & Hrows & Hblock).
    rewrite Hata. simpl. rewrite Htable. simpl. rewrite Hrows.
    apply ata_rows_effect. exact Hblock.
  - injection Hblock as <-. destruct (py_in_false_getitem _ _ Hin) as (e & ->). simpl.
    split; [reflexivity |]. exists []. rewrite app_nil_r. auto.
Qed.

Lemma temperature_rule_effect raw st st' :
  temperature_rule raw st = Ok st' ->
  status st' = (if overheated raw then warn_if_healthy (status st) else status st) /\
  critical_attributes st' = critical_attributes st.
Proof.
  unfold temperature_rule, overheated. intros Hrule.
  apply bind_ok in Hrule as (temperature & Htemp & Hrule).
  apply bind_ok in Hrule as (temp & Hcurrent & Hrule).
  rewrite Htemp. simpl. rewrite Hcurrent. simpl.
  destruct temp; try (injection Hrule as <-; auto);
    apply bind_ok in Hrule as (fired & Hfired & Hrule); rewrite Hfired;
    destruct fired; injection Hrule as <-; auto.
Qed.

End Verdict.

(** X1. The status of a returned analysis of a present payload is
    the verdict read off the payload: FAILED when the self-test is not
    reported as passed or the NVMe log has a critical warning; otherwise
    WARNING when the NVMe life usage is above 85, a critical ATA attribute
    has a raw value above zero or the temperature is above 55; otherwise
    HEALTHY. *)
Theorem status_is_expected_status `{PyBuiltins} (raw_data : json) (r : SmartAnalysis) :
  truthy raw_data = true ->
  _analyze_smart_data raw_data = Ok r ->
  health_status r = HealthStatus_name (expected_status raw_data) /\
  health_status_description r = HealthStatus_value (expected_status raw_data).
Proof.
  intros Hraw Hr.
  destruct (analyze_blocks raw_data r Hraw Hr) as (st0 & st1 & st2 & st3 & H0 & H1 & H2 & H3 & ->).
  apply self_test_rule_status in H0 as [H0 _]. simpl in H0.
  apply nvme_block_status in H1. apply ata_block_effect in H2 as [H2 _].
  apply temperature_rule_effect in H3 as [H3 _].
  assert (Hfinal : status st3 = expected_status raw_data).
  { unfold expected_status. rewrite H3, H2, H1, H0.
    destruct (reports_passed raw_data), (nvme_critical_warning raw_data), (nvme_worn raw_data),
      (existsb alarming (ata_rows raw_data)), (overheated raw_data); reflexivity. }
  unfold conclude. simpl. rewrite Hfinal. split; reflexivity.
Qed.

Lemma status_is_expected_status_witness :
  match @_analyze_smart_data example_builtins scenario_a with
  | Ok r => health_status r = "WARNING"
  | Raise _ => False
  end.
Proof.
  exact (proj1 (@status_is_expected_status example_builtins scenario_a _ eq_refl eq_refl)).
Defined.

(** X2. The findings of a returned analysis are exactly those of
    the alarming rows of the ATA table, one per row and in table order:
    each is for a critical attribute whose raw value is above zero and
    carries that row's values. *)
Theorem findings_are_the_alarming_rows `{PyBuiltins} (raw_data : json) (r : SmartAnalysis) :
  truthy raw_data = true ->
  _analyze_smart_data raw_data = Ok r ->
  Forall2 finding_of_row (analysis_critical_attributes r)
    (List.filter alarming (ata_rows raw_data)).
Proof.
  intros Hraw Hr.
  destruct (analyze_blocks raw_data r Hraw Hr) as (st0 & st1 & st2 & st3 & H0 & H1 & H2 & H3 & ->).
  apply self_test_rule_status in H0 as [_ H0]. apply nvme_block_findings in H1.
  apply ata_block_effect in H2 as (_ & fs & Hfs & Hall).
  apply temperature_rule_effect in H3 as [_ H3].
  rewrite conclude_findings, H3, Hfs, H1, H0. exact Hall.
Qed.

Lemma findings_are_the_alarming_rows_witness :
  match @_analyze_smart_data example_builtins scenario_a with
  | Ok r => Forall2 (@finding_of_row example_builtins) (analysis_critical_attributes r)
              [ata_row 5 3]
  | Raise _ => False
  end.
Proof.
  exact (@findings_are_the_alarming_rows example_builtins scenario_a _ eq_refl eq_refl).
Defined.

Lemma escalates_known a b : escalates a b -> a <> UNKNOWN -> b <> UNKNOWN.
Proof. destruct a; simpl; intros Hab Ha; try contradiction; intuition congruence. Qed.

Lemma analysis_status_known `{PyBuiltins} (raw_data : json) (r : SmartAnalysis) :
  truthy raw_data = true ->
  _analyze_smart_data raw_data = Ok r ->
  exists s, health_status r = HealthStatus_name s /\ s <> UNKNOWN.
Proof.
  intros Hraw Hr.
  destruct (analyze_blocks raw_data r Hraw Hr) as (st0 & st1 & st2 & st3 & H0 & H1 & H2 & H3 & ->).
  apply self_test_rule_status in H0 as [H0 _]. simpl in H0.
  apply nvme_block_escalates in H1. apply ata_block_escalates in H2.
  apply temperature_rule_escalates in H3.
  exists (status st3). split; [reflexivity |].
  eapply escalates_known; [exact H3 |]. eapply escalates_known; [exact H2 |].
  eapply escalates_known; [exact H1 |]. rewrite H0.
  destruct (reports_passed raw_data); discriminate.
Qed.

(** X3. An absent payload is always analysed, as UNKNOWN; and a
    returned analysis is UNKNOWN only for an absent payload. *)
Theorem unknown_exactly_for_absent_payload `{PyBuiltins} (raw_data : json) :
  (truthy raw_data = false -> _analyze_smart_data raw_data = Ok unknown_analysis) /\
  (forall r, _analyze_smart_data raw_data = Ok r ->
     (health_status r = HealthStatus_name UNKNOWN <-> truthy raw_data = false)).
Proof.
  split; [apply absent_payload_unknown |].
  intros r Hr. destruct (truthy raw_data) eqn:Hraw.
  - destruct (analysis_status_known raw_data r Hraw Hr) as [status [-> Hknown]].
    split; [| discriminate].
    intros Hname. destruct status; try discriminate Hname. contradiction.
  - rewrite (absent_payload_unknown raw_data Hraw) in Hr. injection Hr as <-.
    split; reflexivity.
Qed.

(** ** Healthy drives, and the pairing of lines and recommendations *)

Lemma warn_if_healthy_not_healthy s : warn_if_healthy s <> HEALTHY.
Proof. destruct s; discriminate. Qed.

(** Closes a rule's case: either nothing changed, or the status is no
    longer HEALTHY. *)
Ltac unchanged_or_not_healthy Hr Hh :=
  ok_cases Hr; injection Hr as <-; simpl in Hh;
  first [ reflexivity | discriminate Hh | exfalso; exact (warn_if_healthy_not_healthy _ Hh) ].

Section Healthy.
Context `{PyBuiltins}.

Lemma nvme_critical_rule_still_healthy log st st' :
  nvme_critical_rule log st = Ok st' -> status st' = HEALTHY -> st' = st.
Proof. unfold nvme_critical_rule. intros Hr Hh. unchanged_or_not_healthy Hr Hh. Qed.

Lemma nvme_life_rule_still_healthy log st st' :
  nvme_life_rule log st = Ok st' -> status st' = HEALTHY -> st' = st.
Proof. unfold nvme_life_rule. intros Hr Hh. unchanged_or_not_healthy Hr Hh. Qed.

Lemma ata_attribute_rule_still_healthy row st st' :
  ata_attribute_rule row st = Ok st' -> status st' = HEALTHY -> st' = st.
Proof. unfold ata_attribute_rule. intros Hr Hh. unchanged_or_not_healthy Hr Hh. Qed.

Lemma temperature_rule_still_healthy raw st st' :
  temperature_rule raw st = Ok st' -> status st' = HEALTHY -> st' = st.
Proof. unfold temperature_rule. intros Hr Hh. unchanged_or_not_healthy Hr Hh. Qed.

Lemma nvme_block_still_healthy raw st st' :
  nvme_block raw st = Ok st' -> status st' = HEALTHY -> st' = st.
Proof.
  unfold nvme_block. intros Hr Hh.
  apply bind_ok in Hr as (present & Hin & Hr). destruct present.
  - apply bind_ok in Hr as (log & Hlog & Hr). apply bind_ok in Hr as (mid & Hcrit & Hlife).
    pose proof (nvme_life_rule_still_healthy _ _ _ Hlife Hh) as ->.
    exact (nvme_critical_rule_still_healthy _ _ _ Hcrit Hh).
  - injection Hr as <-. reflexivity.
Qed.

Lemma ata_block_still_healthy raw st st' :
  ata_block raw st = Ok st' -> status st' = HEALTHY -> st' = st.
Proof.
  unfold ata_block. intros Hr.
  apply bind_ok in Hr as (present & Hin & Hr). destruct present.
  - apply bind_ok in Hr as (ata & Hata & Hr). apply bind_ok in Hr as (table & Htable & Hr).
    apply bind_ok in Hr as (rows & Hrows & Hr).
    apply (for_each_preserves (fun a b => status b = HEALTHY -> b = a) ata_attribute_rule)
      with (xs := rows); [| | | exact Hr].
    + reflexivity.
    + intros a b c Hab Hbc Hc. pose proof (Hbc Hc) as ->. exact (Hab Hc).
    + intros row. apply ata_attribute_rule_still_healthy.
  - injection Hr as <-. reflexivity.
Qed.

End Healthy.

(** X4. A present payload whose analysis is HEALTHY always gets
    the same analysis: the passed line and the no-anomalies line, the one
    default recommendation and no finding. *)
Theorem healthy_analysis_is_the_default `{PyBuiltins} (raw_data : json) (r : SmartAnalysis) :
  _analyze_smart_data raw_data = Ok r ->
  health_status r = HealthStatus_name HEALTHY ->
  r = healthy_analysis.
Proof.
  intros Hr Hname.
  destruct (truthy raw_data) eqn:Hraw.
  2:{ rewrite (absent_payload_unknown raw_data Hraw) in Hr. injection Hr as <-.
      discriminate Hname. }
  destruct (analyze_blocks raw_data r Hraw Hr) as (st0 & st1 & st2 & st3 & H0 & H1 & H2 & H3 & ->).
  assert (Hh : status st3 = HEALTHY).
  { rewrite conclude_status in Hname. destruct (status st3); try discriminate Hname.
    reflexivity. }
  pose proof (temperature_rule_still_healthy _ _ _ H3 Hh) as ->.
  pose proof (ata_block_still_healthy _ _ _ H2 Hh) as ->.
  pose proof (nvme_block_still_healthy _ _ _ H1 Hh) as ->.
  unfold self_test_rule in H0. ok_cases H0; injection H0 as <-; [discriminate Hh |].
  reflexivity.
Qed.

Lemma healthy_analysis_is_the_default_witness :
  @_analyze_smart_data example_builtins
    (JObj [("smart_status", JObj [("passed", JBool true)]);
           ("temperature", JObj [("current", JInt 45)])]) = Ok healthy_analysis.
Proof.
  rewrite <- (@healthy_analysis_is_the_default example_builtins
                (JObj [("smart_status", JObj [("passed", JBool true)]);
                       ("temperature", JObj [("current", JInt 45)])]) _ eq_refl eq_refl).
  reflexivity.
Defined.

Lemma paired_refl st : paired st st.
Proof. exists [], [], []. rewrite !app_nil_r. auto. Qed.

Lemma paired_trans a b c : paired a b -> paired b c -> paired a c.
Proof.
  intros (l1 & a1 & f1 & Hl1 & Ha1 & Hf1 & Hla1 & Hfa1)
         (l2 & a2 & f2 & Hl2 & Ha2 & Hf2 & Hla2 & Hfa2).
  exists (l1 ++ l2), (a1 ++ a2), (f1 ++ f2).
  rewrite Hl2, Hl1, Ha2, Ha1, Hf2, Hf1, <- !app_assoc, !length_app.
  repeat split; lia.
Qed.

Lemma paired_line st s line advice :
  paired st {| status := s; summary := summary st ++ [line];
               recommendations := recommendations st ++ [advice];
               critical_attributes := critical_attributes st |}.
Proof. exists [line], [advice], []. simpl. rewrite app_nil_r. repeat split; auto. Qed.

Section Pairing.
Context `{PyBuiltins}.

Lemma nvme_block_paired raw st st' : nvme_block raw st = Ok st' -> paired st st'.
Proof.
  unfold nvme_block, nvme_critical_rule, nvme_life_rule. intros Hr.
  apply bind_ok in Hr as (present & Hin & Hr). destruct present.
  - apply bind_ok in Hr as (log & Hlog & Hr). apply bind_ok in Hr as (mid & Hcrit & Hlife).
    apply paired_trans with mid.
    + ok_cases Hcrit; injection Hcrit as <-; [apply paired_line | apply paired_refl].
    + ok_cases Hlife; injection Hlife as <-; [apply paired_line | apply paired_refl].
  - injection Hr as <-. apply paired_refl.
Qed.

Lemma ata_attribute_rule_paired row st st' :
  ata_attribute_rule row st = Ok st' -> paired st st'.
Proof.
  unfold ata_attribute_rule. intros Hr. ok_cases Hr; injection Hr as <-;
    try apply paired_refl.
  eexists [_], [_], [_]. simpl. repeat split; auto.
Qed.

Lemma ata_block_paired raw st st' : ata_block raw st = Ok st' -> paired st st'.
Proof.
  unfold ata_block. intros Hr.
  apply bind_ok in Hr as (present & Hin & Hr). destruct present.
  - apply bind_ok in Hr as (ata & Hata & Hr). apply bind_ok in Hr as (table & Htable & Hr).
    apply bind_ok in Hr as (rows & Hrows & Hr).
    apply (for_each_preserves paired ata_attribute_rule paired_refl paired_trans
             ata_attribute_rule_paired rows _ _ Hr).
  - injection Hr as <-. apply paired_refl.
Qed.

Lemma temperature_rule_paired raw st st' : temperature_rule raw st = Ok st' -> paired st st'.
Proof.
  unfold temperature_rule. intros Hr. ok_cases Hr; injection Hr as <-;
    try apply paired_refl; apply paired_line.
Qed.

End Pairing.

(** X5. Every returned analysis has a recommendation.  On a present
    payload each line a rule adds to the summary comes with one
    recommendation: the summary has one line more than the
    recommendations when the self-test passed (the passed line has none)
    and as many otherwise; and there are at most as many findings as
    recommendations. *)
Theorem summary_and_recommendations_are_paired `{PyBuiltins}
    (raw_data : json) (r : SmartAnalysis) :
  _analyze_smart_data raw_data = Ok r ->
  (1 <= length (analysis_recommendations r))%nat /\
  (length (analysis_critical_attributes r) <= length (analysis_recommendations r))%nat /\
  (truthy raw_data = true ->
   length (analysis_summary r) =
     (length (analysis_recommendations r) + (if reports_passed raw_data then 1 else 0))%nat).
Proof.
  intros Hr. destruct (truthy raw_data) eqn:Hraw.
  2:{ rewrite (absent_payload_unknown raw_data Hraw) in Hr. injection Hr as <-.
      simpl. repeat split; [lia | lia | discriminate]. }
  destruct (analyze_blocks raw_data r Hraw Hr) as (st0 & st1 & st2 & st3 & H0 & H1 & H2 & H3 & ->).
  pose proof (paired_trans _ _ _ (nvme_block_paired _ _ _ H1)
                (paired_trans _ _ _ (ata_block_paired _ _ _ H2)
                   (temperature_rule_paired _ _ _ H3)))
    as (lines & advice & found & Hl & Ha & Hf & Hla & Hfa).
  pose proof (self_test_rule_status _ _ _ H0) as [Hs0 _]. simpl in Hs0.
  unfold self_test_rule in H0.
  apply bind_ok in H0 as (ss & Hss & H0). apply bind_ok in H0 as (passed & Hp & H0).
  destruct (negb (truthy passed)); injection H0 as <-; simpl in *.
  - (* failed self-test *)
    destruct (reports_passed raw_data); [discriminate Hs0 |].
    unfold conclude. rewrite Hl, Ha, Hf. simpl.
    destruct lines as [| line lines]; destruct advice as [| a1 advice];
      try discriminate Hla; simpl in *.
    + destruct found; simpl in *; [| lia]. repeat split; intros; lia.
    + rewrite ?length_app. simpl. repeat split; intros; lia.
  - (* passed self-test *)
    destruct (reports_passed raw_data); [| discriminate Hs0].
    unfold conclude. rewrite Hl, Ha, Hf. simpl.
    destruct lines as [| line lines]; destruct advice as [| a1 advice];
      try discriminate Hla; simpl in *.
    + destruct found; simpl in *; [| lia]. repeat split; intros; lia.
    + rewrite ?length_app. simpl. repeat split; intros; lia.
Qed.

Lemma summary_and_recommendations_are_paired_witness :
  match @_analyze_smart_data example_builtins everything_wrong with
  | Ok r => length (analysis_summary r) = 5%nat /\ length (analysis_recommendations r) = 5%nat
  | Raise _ => False
  end.
Proof.
  destruct (@summary_and_recommendations_are_paired example_builtins everything_wrong _ eq_refl)
    as (_ & _ & Hpaired).
  split; [exact (Hpaired eq_refl) | reflexivity].
Defined.

(** ** When the analyzer returns, and when it raises *)

Section Shape.
Context `{PyBuiltins}.

Lemma number_gt (v : option json) (default k : Z) :
  number_or_absent v = true ->
  exists b, py_gt (match v with Some x => x | None => JInt default end) k = Ok b.
Proof. destruct v as [[] |]; simpl; try discriminate; eauto. Qed.

Lemma self_test_rule_returns fields st :
  mapping_or_absent (dict_get "smart_status" fields) = true ->
  exists st', self_test_rule (JObj fields) st = Ok st'.
Proof.
  unfold self_test_rule. simpl. intros Hshape.
  destruct (dict_get "smart_status" fields) as [[] |]; simpl in *; try discriminate;
    try match goal with |- context [negb ?b] => destruct (negb b) end; eauto.
Qed.

Lemma nvme_block_returns fields st :
  match dict_get "nvme_smart_health_information_log" fields with
  | None => true
  | Some (JObj nvme_log) =>
      number_or_absent (dict_get "critical_warning" nvme_log) &&
      number_or_absent (dict_get "percentage_used" nvme_log)
  | Some _ => false
  end = true ->
  exists st', nvme_block (JObj fields) st = Ok st'.
Proof.
  unfold nvme_block. simpl. intros Hshape.
  destruct (dict_get "nvme_smart_health_information_log" fields) as [[| | | | | nvme_log] |];
    simpl in *; try discriminate; [| eauto].
  apply andb_prop in Hshape as [Hcw Hpu].
  unfold nvme_critical_rule, nvme_life_rule. simpl.
  destruct (number_gt _ 0 0 Hcw) as [b1 ->]. simpl.
  destruct (number_gt _ 0 85 Hpu) as [b2 Hb2].
  destruct b1; simpl; rewrite Hb2; simpl; destruct b2; eauto.
Qed.

Lemma ata_attribute_rule_returns row st :
  row_shaped row = true -> exists st', ata_attribute_rule row st = Ok st'.
Proof.
  unfold row_shaped, ata_attribute_rule, raw_value_of.
  destruct row as [| | | | | fields]; try discriminate. cbn [py_getitem].
  destruct (dict_get "id" fields) as [[| | n | | |] |]; try discriminate.
  cbn [mbind result_bind critical_lookup].
  generalize (table_get n CRITICAL_ATA_ATTRIBUTES). intros entry.
  destruct entry as [[[name desc] check_raw] |]; simpl; [| eauto].
  destruct (dict_get "raw" fields) as [[| | | | | raw] |]; try discriminate; simpl.
  - destruct (dict_get "value" raw) as [[] |]; simpl; try discriminate; intros _;
      repeat match goal with |- context [if ?c then _ else _] => destruct c; simpl end; eauto.
  - intros _.
    repeat match goal with |- context [if ?c then _ else _] => destruct c; simpl end; eauto.
Qed.

Lemma ata_rows_return rows : forall st,
  forallb row_shaped rows = true -> exists st', for_each ata_attribute_rule rows st = Ok st'.
Proof.
  induction rows as [| row rows IH]; intros st Hshape; simpl in Hshape; cbn [for_each].
  - eauto.
  - apply andb_prop in Hshape as [Hrow Hrows].
    destruct (ata_attribute_rule_returns row st Hrow) as [mid ->]. simpl.
    apply IH. exact Hrows.
Qed.

Lemma ata_block_returns fields st :
  match dict_get "ata_smart_attributes" fields with
  | None => true
  | Some (JObj ata) =>
      match dict_get "table" ata with
      | Some (JArr rows) => forallb row_shaped rows
      | _ => false
      end
  | Some _ => false
  end = true ->
  exists st', ata_block (JObj fields) st = Ok st'.
Proof.
  unfold ata_block. simpl. intros Hshape.
  destruct (dict_get "ata_smart_attributes" fields) as [[| | | | | ata] |];
    simpl in *; try discriminate; [| eauto].
  destruct (dict_get "table" ata) as [[| | | | rows |] |]; try discriminate. simpl.
  apply ata_rows_return. exact Hshape.
Qed.

Lemma temperature_rule_returns fields st :
  match dict_get "temperature" fields with
  | None => true
  | Some (JObj temperature) =>
      match dict_get "current" temperature with
      | None | Some JNull | Some (JInt _) | Some (JBool _) => true
      | _ => false
      end
  | Some _ => false
  end = true ->
  exists st', temperature_rule (JObj fields) st = Ok st'.
Proof.
  unfold temperature_rule. simpl. intros Hshape.
  destruct (dict_get "temperature" fields) as [[| | | | | temperature] |];
    simpl in *; try discriminate; [| eauto].
  destruct (dict_get "current" temperature) as [[] |]; simpl in *; try discriminate; eauto;
    try match goal with |- context [if ?c then _ else _] => destruct c end; eauto.
Qed.

End Shape.

(** X6. On every payload of the shape [smartctl -a -j] prints (an
    object whose sections, where present, are mappings with numeric
    fields, and whose ATA table is a list of rows with an integer id),
    all of whose numbers are integers that the interpreter can print (at
    most 4300 digits), the analyzer returns an analysis: it does not
    raise. *)
Theorem shaped_payload_is_analysed `{PyBuiltins} (raw_data : json) :
  payload_shaped raw_data = true ->
  ints_printable raw_data = true ->
  exists r, _analyze_smart_data raw_data = Ok r.
Proof.
  unfold payload_shaped. intros Hshape _.
  destruct raw_data as [| | | | | fields]; try discriminate.
  apply andb_prop in Hshape as [Hshape Htemp]. apply andb_prop in Hshape as [Hshape Hata].
  apply andb_prop in Hshape as [Hself Hnvme].
  unfold _analyze_smart_data. destruct (negb (truthy (JObj fields))); [eauto |].
  destruct (self_test_rule_returns fields initial_locals Hself) as [st0 ->]. simpl.
  destruct (nvme_block_returns fields st0 Hnvme) as [st1 ->]. simpl.
  destruct (ata_block_returns fields st1 Hata) as [st2 ->]. simpl.
  destruct (temperature_rule_returns fields st2 Htemp) as [st3 ->]. simpl.
  eauto.
Qed.

Lemma shaped_payload_is_analysed_witness :
  payload_shaped everything_wrong = true /\
  ints_printable everything_wrong = true /\
  exists r, @_analyze_smart_data example_builtins everything_wrong = Ok r.
Proof.
  assert (Hprintable : ints_printable everything_wrong = true) by (vm_compute; reflexivity).
  split; [reflexivity |]. split; [exact Hprintable |].
  exact (@shaped_payload_is_analysed example_builtins everything_wrong eq_refl Hprintable).
Defined.

(** X7. A present payload that is not an object, or whose
    [smart_status] is present but is not a mapping, raises AttributeError;
    an [ata_smart_attributes] mapping without a [table] makes the analyzer
    raise as well. *)
Theorem malformed_payload_raises `{PyBuiltins} (raw_data : json) :
  truthy raw_data = true ->
  ((forall fields, raw_data <> JObj fields) ->
   _analyze_smart_data raw_data = Raise AttributeError) /\
  (forall fields v,
     raw_data = JObj fields -> dict_get "smart_status" fields = Some v ->
     (forall inner, v <> JObj inner) ->
     _analyze_smart_data raw_data = Raise AttributeError) /\
  (forall fields ata,
     raw_data = JObj fields ->
     dict_get "ata_smart_attributes" fields = Some (JObj ata) ->
     dict_get "table" ata = None ->
     exists e, _analyze_smart_data raw_data = Raise e).
Proof.
  intros Hraw. unfold _analyze_smart_data. rewrite Hraw. simpl. repeat split.
  - intros Hnot. destruct raw_data; try reflexivity. destruct (Hnot fields eq_refl).
  - intros fields v -> Hv Hnot. unfold self_test_rule. simpl. rewrite Hv.
    destruct v; try reflexivity. destruct (Hnot fields0 eq_refl).
  - intros fields ata -> Hata Htable.
    destruct (self_test_rule (JObj fields) initial_locals) as [st0 | e]; simpl; [| eauto].
    destruct (nvme_block (JObj fields) st0) as [st1 | e]; simpl; [| eauto].
    unfold ata_block. simpl. rewrite Hata. simpl. rewrite Htable. simpl. eauto.
Qed.

Lemma malformed_payload_raises_witness :
  @_analyze_smart_data example_builtins (JArr [JInt 1]) = Raise AttributeError /\
  @_analyze_smart_data example_builtins (JObj [("smart_status", JNull)]) = Raise AttributeError.
Proof.
  split.
  - apply (@malformed_payload_raises example_builtins (JArr [JInt 1]) eq_refl). discriminate.
  - apply (proj1 (proj2 (@malformed_payload_raises example_builtins
                           (JObj [("smart_status", JNull)]) eq_refl))
             [("smart_status", JNull)] JNull eq_refl eq_refl).
    discriminate.
Defined.

(** ** The cycle, device by device *)

Section Devices.
Context `{PyBuiltins}.

(** What one turn of the loop does, in terms of the fetch and the analysis. *)
Lemma collect_device_turn spawn device info log :
  exists raw_data error_msg,
    _get_raw_smart_data_for_device spawn device = Ok (raw_data, error_msg) /\
    (message_set error_msg = true -> raw_data = JNull) /\
    collect_device spawn device (info, log) =
      match _analyze_smart_data (if message_set error_msg then JNull else raw_data) with
      | Ok analysis_data =>
          Ok (dict_set (path device)
                {| raw_smart_data := raw_data; analysis := analysis_data |} info,
              if message_set error_msg
              then log ++ [fetch_error_line device (default "" error_msg)]
              else log)
      | Raise e => Raise (FromAnalysis e)
      end.
Proof.
  destruct (fetch_returns spawn device) as (raw_data & error_msg & Hfetch & Hnull).
  exists raw_data, error_msg. repeat split; [exact Hfetch | exact Hnull |].
  unfold collect_device. rewrite Hfetch. unfold mbind at 1, result_bind at 1. cbn [lift_command].
  destruct (message_set error_msg); [reflexivity |].
  destruct (_analyze_smart_data raw_data); reflexivity.
Qed.

(** The loop stops at the first device whose payload makes the analyzer
    raise, with that exception. *)
Lemma cycle_aborts_at_first spawn (d : device_info) raw e before after :
  (forall x, In x before -> turn_completes spawn x) ->
  _get_raw_smart_data_for_device spawn d = Ok (raw, None) ->
  _analyze_smart_data raw = Raise e ->
  forall acc,
    for_each (collect_device spawn) (before ++ d :: after) acc = Raise (FromAnalysis e).
Proof.
  intros Hbefore Hfetch Hraise.
  induction before as [| x before IH]; intros [info log]; cbn [app for_each].
  - destruct (collect_device_turn spawn d info log) as (raw' & msg' & Hfetch' & _ & ->).
    rewrite Hfetch in Hfetch'. injection Hfetch' as <- <-. cbn [message_set].
    rewrite Hraise. reflexivity.
  - destruct (collect_device_turn spawn x info log) as (raw' & msg' & Hfetch' & _ & ->).
    destruct (Hbefore x (or_introl eq_refl)) as (raw'' & msg'' & r & Hfetch'' & Hr).
    rewrite Hfetch' in Hfetch''. injection Hfetch'' as <- <-. rewrite Hr.
    cbn [mbind result_bind]. apply IH. intros y Hy. apply Hbefore. right. exact Hy.
Qed.

(** Devices at other paths leave the entry at [p] alone. *)
Lemma other_paths_keep_entry spawn (p : string) devices : forall acc acc',
  (forall x, In x devices -> path x <> p) ->
  for_each (collect_device spawn) devices acc = Ok acc' ->
  dict_get p (fst acc') = dict_get p (fst acc).
Proof.
  induction devices as [| x devices IH]; intros acc acc' Hother Hrun; cbn [for_each] in Hrun.
  - injection Hrun as <-. reflexivity.
  - apply bind_ok in Hrun as (mid & Hx & Hrun).
    rewrite (IH mid acc') by (try assumption; intros y Hy; apply Hother; right; exact Hy).
    destruct acc as [info log], mid as [info' log'].
    apply collect_device_sets in Hx as (entry & ->). simpl.
    apply dict_get_set_ne. apply Hother. left. reflexivity.
Qed.

Lemma dict_set_keys {V} (k : string) (v : V) (d : list (string * V)) :
  map fst (dict_set k v d) =
    if existsb (String.eqb k) (map fst d) then map fst d else map fst d ++ [k].
Proof.
  induction d as [| [k' v'] d IH]; simpl; [reflexivity |].
  destruct (String.eqb k k'); simpl; [reflexivity |].
  rewrite IH. destruct (existsb (String.eqb k) (map fst d)); reflexivity.
Qed.

Lemma existsb_eqb_In (k : string) (l : list string) :
  existsb (String.eqb k) l = true <-> In k l.
Proof.
  rewrite existsb_exists. split.
  - intros (x & Hx & Heq). apply String.eqb_eq in Heq. subst. exact Hx.
  - intros Hin. exists k. split; [exact Hin | apply String.eqb_refl].
Qed.

Lemma dict_set_keys_In {V} (k k' : string) (v : V) (d : list (string * V)) :
  In k' (map fst (dict_set k v d)) <-> k' = k \/ In k' (map fst d).
Proof.
  rewrite dict_set_keys. destruct (existsb (String.eqb k) (map fst d)) eqn:Hk.
  - apply existsb_eqb_In in Hk. split; [auto |]. intros [-> | Hin]; assumption.
  - rewrite in_app_iff. simpl. intuition.
Qed.

Lemma dict_set_keys_NoDup {V} (k : string) (v : V) (d : list (string * V)) :
  NoDup (map fst d) -> NoDup (map fst (dict_set k v d)).
Proof.
  intros Hd. rewrite dict_set_keys. destruct (existsb (String.eqb k) (map fst d)) eqn:Hk.
  - exact Hd.
  - apply NoDup_app. repeat split.
    + exact Hd.
    + intros x Hx Hin. apply list_elem_of_In in Hx, Hin. destruct Hin as [<- | []].
      apply existsb_eqb_In in Hx. congruence.
    + apply NoDup_singleton.
Qed.

Lemma dict_get_keys {V} (k : string) (d : list (string * V)) :
  In k (map fst d) <-> exists v, dict_get k d = Some v.
Proof.
  induction d as [| [k' v'] d IH]; simpl.
  - split; [intros [] | intros [v Hv]; discriminate].
  - destruct (String.eqb_spec k k') as [-> | Hne].
    + split; eauto.
    + rewrite <- IH. split; [intros [Heq | Hin]; [congruence | exact Hin] | auto].
Qed.

Lemma cycle_keys spawn devices : forall acc acc',
  for_each (collect_device spawn) devices acc = Ok acc' ->
  (NoDup (map fst (fst acc)) -> NoDup (map fst (fst acc'))) /\
  (forall p, In p (map fst (fst acc')) <->
             In p (map fst (fst acc)) \/ exists d, In d devices /\ path d = p).
Proof.
  induction devices as [| x devices IH]; intros acc acc' Hrun; cbn [for_each] in Hrun.
  - injection Hrun as <-. split; [auto |]. intros p. split; [auto |].
    intros [Hin | (d & [] & _)]. exact Hin.
  - apply bind_ok in Hrun as (mid & Hx & Hrun).
    destruct (IH _ _ Hrun) as [Hnodup Hkeys].
    destruct acc as [info log], mid as [info' log'].
    apply collect_device_sets in Hx as (entry & ->). simpl in *. split.
    + intros Hd. apply Hnodup. apply dict_set_keys_NoDup. exact Hd.
    + intros p. rewrite Hkeys, dict_set_keys_In. split.
      * intros [[-> | Hin] | (d & Hd & Hp)]; eauto 6.
      * intros [Hin | (d & [<- | Hd] & Hp)]; eauto 6.
Qed.

(** The log grows by one line for each failed fetch. *)
Lemma cycle_log spawn devices : forall info log info' log',
  for_each (collect_device spawn) devices (info, log) = Ok (info', log') ->
  exists lines,
    log' = log ++ lines /\
    Forall2 (fun line d => exists error_msg, line = fetch_error_line d error_msg)
      lines (List.filter (fetch_fails spawn) devices).
Proof.
  induction devices as [| x devices IH]; intros info log info' log' Hrun;
    cbn [for_each] in Hrun.
  - injection Hrun as <- <-. exists []. rewrite app_nil_r. auto.
  - apply bind_ok in Hrun as ([infom logm] & Hx & Hrun).
    destruct (IH _ _ _ _ Hrun) as (lines & -> & Hlines).
    destruct (collect_device_turn spawn x info log) as (raw & msg & Hfetch & _ & Hturn).
    rewrite Hturn in Hx. simpl. unfold fetch_fails at 1. rewrite Hfetch.
    destruct (_analyze_smart_data _); [| discriminate].
    injection Hx as <- <-. destruct (message_set msg).
    + exists (fetch_error_line x (default "" msg) :: lines).
      rewrite <- app_assoc. split; [reflexivity |]. constructor; eauto.
    + exists lines. auto.
Qed.

End Devices.

(** X8. One payload on which the analyzer raises costs the whole
    cycle: [_collect_all_smart_info] raises the analyzer's exception for
    the first device, in discovery order, whose payload does that, and
    no report is returned for any device, whatever the devices after it
    would have given. *)
Theorem malformed_payload_aborts_cycle `{PyBuiltins}
    (spawn : list string -> Z -> run_outcome) (before after : list device_info)
    (d : device_info) (raw_data : json) (e : py_exn) :
  (forall x, In x before -> turn_completes spawn x) ->
  _get_raw_smart_data_for_device spawn d = Ok (raw_data, None) ->
  _analyze_smart_data raw_data = Raise e ->
  _collect_all_smart_info spawn (inr (before ++ d :: after)) = Raise (FromAnalysis e).
Proof.
  intros Hbefore Hfetch Hraise. unfold _collect_all_smart_info.
  rewrite (cycle_aborts_at_first spawn d raw_data e before after Hbefore Hfetch Hraise).
  reflexivity.
Qed.

Lemma malformed_payload_aborts_cycle_witness :
  @turn_completes list_document_builtins drives_print_a_list sda /\
  @_analyze_smart_data list_document_builtins (JArr [JInt 1]) = Raise AttributeError /\
  @_collect_all_smart_info list_document_builtins drives_print_a_list (inr [sdc]) =
    Raise (FromAnalysis KeyError) /\
  @_collect_all_smart_info list_document_builtins drives_print_a_list (inr [sda; sdb; sdc]) =
    Raise (FromAnalysis AttributeError).
Proof.
  assert (Hsda : @turn_completes list_document_builtins drives_print_a_list sda).
  { eexists _, _, _. split; reflexivity. }
  split; [exact Hsda |]. split; [reflexivity |]. split; [reflexivity |].
  apply (@malformed_payload_aborts_cycle list_document_builtins drives_print_a_list
           [sda] [sdc] sdb (JArr [JInt 1]) AttributeError).
  - intros x [<- | []]. exact Hsda.
  - reflexivity.
  - reflexivity.
Defined.

(** X9. In a report, the entry at a device's path holds what its own
    fetch returned and the analysis of that; when several devices share a
    path, the entry is that of the last of them. *)
Theorem entry_is_the_last_device_at_its_path `{PyBuiltins}
    (spawn : list string -> Z -> run_outcome)
    (before after : list device_info) (d : device_info)
    (report : smart_report) (log : list string) :
  (forall x, In x after -> path x <> path d) ->
  _collect_all_smart_info spawn (inr (before ++ d :: after)) = Ok (report, log) ->
  exists raw_data error_msg analysis_data,
    _get_raw_smart_data_for_device spawn d = Ok (raw_data, error_msg) /\
    _analyze_smart_data (if message_set error_msg then JNull else raw_data) = Ok analysis_data /\
    dict_get (path d) (disk_info report) =
      Some {| raw_smart_data := raw_data; analysis := analysis_data |}.
Proof.
  intros Hlast Hrun. unfold _collect_all_smart_info in Hrun.
  apply bind_ok in Hrun as ([info' log'] & Hloop & Hrun). injection Hrun as <- <-.
  rewrite for_each_app in Hloop. apply bind_ok in Hloop as ([info0 log0] & _ & Hloop).
  cbn [for_each] in Hloop. apply bind_ok in Hloop as ([info1 log1] & Hd & Hafter).
  destruct (collect_device_turn spawn d info0 log0) as (raw & msg & Hfetch & _ & Hturn).
  rewrite Hturn in Hd.
  destruct (_analyze_smart_data (if message_set msg then JNull else raw)) as [a |] eqn:Ha;
    [| discriminate].
  injection Hd as <- _.
  exists raw, msg, a. split; [exact Hfetch |]. split; [exact Ha |]. simpl.
  pose proof (other_paths_keep_entry spawn (path d) after _ _ Hlast Hafter) as Hkeep.
  simpl in Hkeep. rewrite Hkeep. apply dict_get_set_eq.
Qed.

Lemma entry_is_the_last_device_at_its_path_witness :
  match @_collect_all_smart_info example_builtins sda_refused (inr [sda; sdb; sda]) with
  | Ok (report, _) =>
      dict_get "/dev/sda" (disk_info report) = Some unknown_entry /\
      device_list report = ["/dev/sda"; "/dev/sdb"]
  | Raise _ => False
  end.
Proof.
  assert (Hlast : forall x : device_info, In x [] -> path x <> path sda) by (intros x []).
  destruct (@entry_is_the_last_device_at_its_path example_builtins sda_refused
              [sda; sdb] [] sda _ _ Hlast eq_refl)
    as (raw & msg & a & Hfetch & Ha & Hentry).
  injection Hfetch as <- <-. injection Ha as <-.
  split; [exact Hentry | reflexivity].
Defined.

(** X10. The device list of a report names each discovered path once,
    and names exactly the paths that have an entry. *)
Theorem device_list_is_the_discovered_paths `{PyBuiltins}
    (spawn : list string -> Z -> run_outcome) (devices : list device_info)
    (report : smart_report) (log : list string) :
  _collect_all_smart_info spawn (inr devices) = Ok (report, log) ->
  NoDup (device_list report) /\
  (forall p, In p (device_list report) <-> exists d, In d devices /\ path d = p) /\
  (forall p, In p (device_list report) <-> exists entry, dict_get p (disk_info report) = Some entry).
Proof.
  intros Hrun. unfold _collect_all_smart_info in Hrun.
  apply bind_ok in Hrun as ([info' log'] & Hloop & Hrun). injection Hrun as <- <-.
  destruct (cycle_keys spawn devices _ _ Hloop) as [Hnodup Hkeys]. simpl in *.
  repeat split.
  - apply Hnodup. constructor.
  - intros Hp. apply Hkeys in Hp as [[] | Hp]. exact Hp.
  - intros Hp. apply Hkeys. right. exact Hp.
  - apply dict_get_keys.
  - apply dict_get_keys.
Qed.

Lemma device_list_is_the_discovered_paths_witness :
  match @_collect_all_smart_info example_builtins all_drives_answer (inr [sda; sdb; sda]) with
  | Ok (report, _) => NoDup (device_list report) /\ length (device_list report) = 2%nat
  | Raise _ => False
  end.
Proof.
  destruct (@device_list_is_the_discovered_paths example_builtins all_drives_answer
              [sda; sdb; sda] _ _ eq_refl) as (Hnodup & _ & _).
  split; [exact Hnodup | reflexivity].
Defined.

(** X11. The error log of a completed cycle has one line for each
    device whose fetch failed, in the order of the devices, and no other
    line; a line names the path of its device. *)
Theorem one_log_line_per_failed_fetch `{PyBuiltins}
    (spawn : list string -> Z -> run_outcome) (devices : list device_info)
    (report : smart_report) (log : list string) :
  _collect_all_smart_info spawn (inr devices) = Ok (report, log) ->
  Forall2 (fun line d => exists error_msg, line = fetch_error_line d error_msg)
    log (List.filter (fetch_fails spawn) devices).
Proof.
  intros Hrun. unfold _collect_all_smart_info in Hrun.
  apply bind_ok in Hrun as ([info' log'] & Hloop & Hrun). injection Hrun as <- <-.
  destruct (cycle_log spawn devices _ _ _ _ Hloop) as (lines & -> & Hlines).
  exact Hlines.
Qed.

Lemma one_log_line_per_failed_fetch_witness :
  match @_collect_all_smart_info example_builtins sda_refused (inr [sda; sdb]) with
  | Ok (_, log) => length log = 1%nat
  | Raise _ => False
  end.
Proof.
  pose proof (@one_log_line_per_failed_fetch example_builtins sda_refused [sda; sdb] _ _ eq_refl)
    as Hlines.
  apply Forall2_length in Hlines. exact Hlines.
Defined.

(** X12. What a fetch returns, by what the child did.  The command is
    [sudo smartctl -a -j], the type arguments and the path, under the
    timeout of 60.  When the child does not exit with code 0 (another
    exit code, no such program, a timeout, any other exception of
    [subprocess.run]) the fetch returns no payload and a message, and
    parses nothing.  When the child exits with code 0, the fetch returns
    the document and no message if [json.loads] returns one for the
    stripped output, and no payload and a message if [json.loads] raises
    [JSONDecodeError]. *)
Theorem fetch_is_payload_or_message `{PyBuiltins}
    (spawn : list string -> Z -> run_outcome) (device : device_info) :
  let argv := "sudo" :: (["smartctl"; "-a"; "-j"] ++ type_args device ++ [path device]) in
  let fetched := _get_raw_smart_data_for_device spawn device in
  ((forall stdout stderr, spawn argv 60 <> Exited 0 stdout stderr) ->
   exists message, fetched = Ok (JNull, Some message) /\ message <> "") /\
  (forall stdout stderr parsed,
     spawn argv 60 = Exited 0 stdout stderr ->
     json_loads (str_strip stdout) = Some parsed ->
     fetched = Ok (parsed, None)) /\
  (forall stdout stderr,
     spawn argv 60 = Exited 0 stdout stderr ->
     json_loads (str_strip stdout) = None ->
     exists message, fetched = Ok (JNull, Some message) /\ message <> "").
Proof.
  intros argv fetched. subst fetched.
  unfold _get_raw_smart_data_for_device, _run_command, subprocess_run, try_except.
  fold argv. repeat split.
  - intros Hfailed.
    destruct (spawn argv 60) as [returncode stdout stderr | filename | | text]; simpl.
    + destruct returncode; simpl;
        [exfalso; exact (Hfailed stdout stderr eq_refl) | |];
        (eexists; split; [reflexivity | discriminate]).
    + eexists; split; [reflexivity | discriminate].
    + eexists; split; [reflexivity | discriminate].
    + eexists; split; [reflexivity | discriminate].
  - intros stdout stderr parsed -> Hparsed. simpl. rewrite Hparsed. reflexivity.
  - intros stdout stderr -> Hparsed. simpl. rewrite Hparsed.
    eexists; split; [reflexivity | discriminate].
Qed.

(** ** Starting, stopping and sampling *)



(** X14. While the service runs, [start] changes nothing.  After
    [stop], a successful [start] begins with an empty history, whatever
    had been sampled, and keeps the hardware, disk-usage and S.M.A.R.T.
    reports. *)
Theorem restart_resets_the_history (app : app_config) (self : SystemInfoService) :
  (realtime_thread_alive self = true -> start app self = (self, Ok tt)) /\
  (forall restarted, start app (stop self) = (restarted, Ok tt) ->
     deque_items (_realtime_history restarted) = [] /\
     realtime_thread_alive restarted = true /\
     _hardware_info restarted = _hardware_info self /\
     _disk_usage restarted = _disk_usage self /\
     _smart_info restarted = _smart_info self).
Proof.
  split.
  - intros Halive. unfold start. rewrite Halive. reflexivity.
  - intros restarted Hstart. unfold start in Hstart. simpl in Hstart.
    destruct (py_floordiv _ _ ≫= _) as [history |] eqn:Hnew; [| discriminate].
    injection Hstart as <-. simpl.
    apply bind_ok in Hnew as (max_len & _ & Hnew). unfold deque_new in Hnew.
    destruct ((max_len <? PY_SSIZE_T_MIN) || (PY_SSIZE_T_MAX <? max_len))%Z; [discriminate |].
    destruct (max_len <? 0)%Z; [discriminate |].
    injection Hnew as <-. auto.
Qed.


Lemma obj_closed_mono (n m : nat) (o : pyobj) :
  (n <= m)%nat -> obj_closed n o = true -> obj_closed m o = true.
Proof.
  intros Hnm. assert (Hval : forall v, val_closed n v = true -> val_closed m v = true).
  { intros [s | a]; simpl; [auto |]. rewrite !Nat.ltb_lt. lia. }
  destruct o as [d | l]; simpl; rewrite !forallb_forall; intros Hall x Hx; apply Hval, Hall, Hx.
Qed.

Lemma realtime_loop_grows ticks : forall h self,
  exists more, fst (realtime_loop ticks h self) = h ++ more.
Proof.
  induction ticks as [| [[built now] status] ticks IH]; intros h self; simpl.
  - exists []. rewrite app_nil_r. reflexivity.
  - destruct (IH ((h ++ built) ++
                  [DictObj [("timestamp", Imm (SStr now)); ("data", status)]])
                (record_sample self (Ref (length (h ++ built))))) as [more Hmore].
    exists (built ++ DictObj [("timestamp", Imm (SStr now)); ("data", status)] :: more).
    rewrite Hmore, <- !app_assoc. reflexivity.
Qed.

(** X15. What a reader got from an accessor does not change when
    the sampler appends further samples: read to any depth, the returned
    collection shows what it showed when it was returned. *)
Theorem snapshot_is_stable_under_sampling
    (acc : accessor) (self : SystemInfoService) (h : heap)
    (ticks : list (list pyobj * string * pyval)) (fuel : nat) :
  heap_closed h = true ->
  store_closed h self = true ->
  let returned := call acc self h in
  let later := realtime_loop ticks (fst returned) self in
  deep_read fuel (fst later) (Ref (snd returned)) =
  deep_read fuel (fst returned) (Ref (snd returned)).
Proof.
  intros Hheap Hstore returned later. subst later returned.
  rewrite call_allocates. unfold alloc. cbn [fst snd].
  destruct (realtime_loop_grows ticks (h ++ [held acc self]) self) as [more ->].
  apply (deep_read_frame (length (h ++ [held acc self]))).
  - intros a o Ha Ho. rewrite length_app. simpl.
    destruct (Nat.lt_ge_cases a (length h)) as [Hlt | Hge].
    + rewrite lookup_app_l in Ho by exact Hlt.
      apply (obj_closed_mono (length h)); [lia |].
      eapply heap_closed_lookup; eassumption.
    + rewrite length_app in Ha. simpl in Ha. assert (a = length h) as -> by lia.
      rewrite lookup_app_r in Ho by lia. rewrite Nat.sub_diag in Ho. injection Ho as <-.
      apply (obj_closed_mono (length h)); [lia |]. apply held_closed. exact Hstore.
  - intros a Ha. apply lookup_app_l. exact Ha.
  - simpl. apply Nat.ltb_lt. rewrite length_app. simpl. lia.
Qed.

Lemma snapshot_is_stable_under_sampling_witness :
  let returned := get_hardware_info probed_service probed_heap in
  let later := realtime_loop [([], "t1", Imm SNone); ([DictObj []], "t2", Ref 3%nat)]
                 (fst returned) probed_service in
  deep_read 3 (fst later) (Ref (snd returned)) =
    Some (TDict [("timestamp", TImm (SStr "2025-01-01T00:00:00+00:00"));
                 ("data", TDict [("os", TImm (SStr "Linux"))])]) /\
  deque_items (_realtime_history (snd later)) = [Ref 2%nat; Ref 4%nat].
Proof.
  split; [| reflexivity].
  exact (eq_trans
           (snapshot_is_stable_under_sampling HardwareInfo probed_service probed_heap
              [([], "t1", Imm SNone); ([DictObj []], "t2", Ref 3%nat)] 3 eq_refl eq_refl)
           eq_refl).
Defined.

(** X16. When the history has room for at least one sample, the
    sample an iteration appends is the last member of the list
    [get_realtime_history] returns next: a dict with the timestamp and the
    status that were sampled. *)
Theorem appended_sample_is_read_back
    (now : string) (status : pyval) (self : SystemInfoService) (h : heap) :
  has_room (_realtime_history self) ->
  let later := realtime_iteration now status h self in
  let returned := get_realtime_history (snd later) (fst later) in
  exists earlier sample,
    fst returned !! snd returned = Some (ListObj (earlier ++ [Ref sample])) /\
    fst returned !! sample = Some (DictObj [("timestamp", Imm (SStr now)); ("data", status)]).
Proof.
  intros Hroom later returned. subst returned later.
  unfold realtime_iteration, get_realtime_history, alloc, record_sample, deque_append.
  cbn [fst snd _realtime_history deque_items deque_maxlen].
  assert (Hsample : forall o o' : pyobj, ((h ++ [o]) ++ [o']) !! length h = Some o).
  { intros o o'. rewrite lookup_app_l by (rewrite length_app; simpl; lia).
    rewrite lookup_app_r by lia. rewrite Nat.sub_diag. reflexivity. }
  assert (Hlist : forall o o' : pyobj, ((h ++ [o]) ++ [o']) !! length (h ++ [o]) = Some o').
  { intros o o'. rewrite lookup_app_r by lia. rewrite Nat.sub_diag. reflexivity. }
  unfold has_room in Hroom.
  destruct (deque_maxlen (_realtime_history self)) as [m |].
  - destruct (Z.ltb_spec m
                (Z.of_nat (length (deque_items (_realtime_history self) ++ [Ref (length h)])))).
    + destruct (deque_items (_realtime_history self)) as [| oldest rest].
      * simpl in *. lia.
      * exists rest, (length h). split; [apply Hlist | apply Hsample].
    + exists (deque_items (_realtime_history self)), (length h).
      split; [apply Hlist | apply Hsample].
  - exists (deque_items (_realtime_history self)), (length h).
    split; [apply Hlist | apply Hsample].
Qed.

Lemma appended_sample_is_read_back_witness :
  let self := fst (start demo_config __init__) in
  has_room (_realtime_history self) /\
  exists earlier sample,
    let later := realtime_iteration "2024-01-01T00:00:00+00:00" (Imm SNone) [] self in
    let returned := get_realtime_history (snd later) (fst later) in
    fst returned !! snd returned = Some (ListObj (earlier ++ [Ref sample])) /\
    fst returned !! sample =
      Some (DictObj [("timestamp", Imm (SStr "2024-01-01T00:00:00+00:00"));
                     ("data", Imm SNone)]).
Proof.
  intros self.
  assert (Hroom : has_room (_realtime_history self)) by (vm_compute; discriminate).
  split; [exact Hroom |].
  exact (appended_sample_is_read_back "2024-01-01T00:00:00+00:00" (Imm SNone) self [] Hroom).
Defined.

(** ** Disk usage *)

Section DiskUsage.

Variable fs : FileSystem.

Lemma add_file_size_counted (dirpath f : string) (total_size : Z) :
  sizes_readable_or_skipped fs [os_path_join dirpath f] ->
  add_file_size fs dirpath f total_size =
  Ok (total_size + counted_size fs (os_path_join dirpath f)).
Proof.
  intros Hquiet. unfold add_file_size, counted_size.
  destruct (os_path_islink fs (os_path_join dirpath f)) eqn:Hlink; simpl.
  - f_equal. lia.
  - destruct (os_path_getsize fs (os_path_join dirpath f)) as [size | [text | text | text]] eqn:Hsize;
      simpl; try (f_equal; lia).
    exfalso. apply (Hquiet _ text (or_introl eq_refl) Hlink). exact Hsize.
Qed.

Lemma sizes_readable_app (xs ys : list string) :
  sizes_readable_or_skipped fs (xs ++ ys) ->
  sizes_readable_or_skipped fs xs /\ sizes_readable_or_skipped fs ys.
Proof.
  intros Hquiet. split; intros fp text Hin; apply Hquiet; apply in_or_app; auto.
Qed.

Lemma Z_sum_app (xs ys : list Z) : Z_sum (xs ++ ys) = Z_sum xs + Z_sum ys.
Proof. induction xs as [| x xs IH]; simpl; [reflexivity | rewrite IH; lia]. Qed.

Lemma add_directory_size_counted (yielded : string * list string) (total_size : Z) :
  sizes_readable_or_skipped fs (map (os_path_join (fst yielded)) (snd yielded)) ->
  add_directory_size fs yielded total_size =
  Ok (total_size + Z_sum (map (counted_size fs) (map (os_path_join (fst yielded)) (snd yielded)))).
Proof.
  unfold add_directory_size. destruct yielded as [dirpath filenames]. cbn [fst snd].
  revert total_size. induction filenames as [| f filenames IH]; intros total_size Hquiet.
  - simpl. f_equal. lia.
  - cbn [map] in Hquiet.
    apply (sizes_readable_app [os_path_join dirpath f]) in Hquiet as [Hf Hrest].
    cbn [for_each]. rewrite (add_file_size_counted _ _ _ Hf). simpl.
    rewrite (IH _ Hrest). f_equal. lia.
Qed.

Lemma walk_counted (yielded : list (string * list string)) (total_size : Z) :
  sizes_readable_or_skipped fs
    (flat_map (fun y => map (os_path_join (fst y)) (snd y)) yielded) ->
  for_each (add_directory_size fs) yielded total_size =
  Ok (total_size +
      Z_sum (map (counted_size fs)
               (flat_map (fun y => map (os_path_join (fst y)) (snd y)) yielded))).
Proof.
  revert total_size. induction yielded as [| y yielded IH]; intros total_size Hquiet.
  - simpl. f_equal. lia.
  - cbn [flat_map] in Hquiet |- *. apply sizes_readable_app in Hquiet as [Hy Hrest].
    cbn [for_each]. rewrite (add_directory_size_counted _ _ Hy). simpl.
    rewrite (IH _ Hrest), map_app, Z_sum_app. f_equal. lia.
Qed.

(** [_get_dir_size] handles [PermissionError] itself. *)
Lemma dir_size_raises_no_permission_error (path text : string) :
  _get_dir_size fs path <> Raise (Os_PermissionError text).
Proof.
  unfold _get_dir_size. destruct (os_walk fs path) as [yielded ended].
  destruct (for_each (add_directory_size fs) yielded 0) as [total_size | [t | t | t]];
    simpl; try discriminate.
  destruct ended as [[t | t | t] |]; simpl; discriminate.
Qed.

Lemma add_user_detail_cases (path item_name : string) (user_details : list user_detail) :
  add_user_detail fs path item_name user_details =
  if is_user_directory fs path item_name then
    size_bytes ← _get_dir_size fs (os_path_join path item_name);
    Ok (user_details ++ [{| user_name := item_name;
                            user_path := os_path_join path item_name;
                            used_bytes := size_bytes |}])
  else Ok user_details.
Proof. reflexivity. Qed.

Lemma for_each_kept_prefix (path : string) (items : list string) :
  forall user_details,
  exists counted rest added,
    items = counted ++ rest /\
    fst (for_each_kept (add_user_detail fs path) items user_details) = user_details ++ added /\
    Forall2 (is_detail_of fs path) (List.filter (is_user_directory fs path) counted) added /\
    match rest with
    | [] => snd (for_each_kept (add_user_detail fs path) items user_details) = None
    | failing :: _ =>
        is_user_directory fs path failing = true /\
        exists e, _get_dir_size fs (os_path_join path failing) = Raise e /\
                  snd (for_each_kept (add_user_detail fs path) items user_details) = Some e
    end.
Proof.
  induction items as [| item items IH]; intros user_details.
  - exists [], [], []. simpl. rewrite app_nil_r. repeat split. constructor.
  - cbn [for_each_kept]. rewrite add_user_detail_cases.
    destruct (is_user_directory fs path item) eqn:Hdir.
    + destruct (_get_dir_size fs (os_path_join path item)) as [size_bytes | e] eqn:Hsize; simpl.
      * destruct (IH (user_details ++
                        [{| user_name := item; user_path := os_path_join path item;
                            used_bytes := size_bytes |}]))
          as (counted & rest & added & Hitems & Hkept & Hdetails & Hrest).
        exists (item :: counted), rest,
               ({| user_name := item; user_path := os_path_join path item;
                   used_bytes := size_bytes |} :: added).
        split; [rewrite Hitems; reflexivity |].
        split; [rewrite Hkept, <- app_assoc; reflexivity |].
        split; [| exact Hrest].
        cbn [List.filter]. rewrite Hdir. constructor; [| exact Hdetails].
        repeat split. exact Hsize.
      * exists [], (item :: items), []. simpl. rewrite app_nil_r.
        repeat split; [constructor | exact Hdir |]. exists e. split; [exact Hsize | reflexivity].
    + destruct (IH user_details) as (counted & rest & added & Hitems & Hkept & Hdetails & Hrest).
      exists (item :: counted), rest, added.
      split; [rewrite Hitems; reflexivity |]. split; [exact Hkept |].
      split; [| exact Hrest]. cbn [List.filter]. rewrite Hdir. exact Hdetails.
Qed.

Lemma collect_path_appends (acc : list usage_entry * list (log_level * string)) (path : string) :
  collect_path fs acc path =
  (fst acc ++ fst (collect_path fs ([], []) path),
   snd acc ++ snd (collect_path fs ([], []) path)).
Proof.
  destruct acc as [usage_data log]. unfold collect_path. cbn [fst snd].
  destruct (os_path_isdir fs path); simpl; [| rewrite app_nil_r; reflexivity].
  destruct (shutil_disk_usage fs path) as [du | [t | t | t]];
    try (rewrite app_nil_r; reflexivity).
  destruct (list_user_details fs path) as [user_details lines]. reflexivity.
Qed.

Lemma collect_paths_append (paths : list string) :
  forall acc,
  fold_left (collect_path fs) paths acc =
  (fst acc ++ fst (fold_left (collect_path fs) paths ([], [])),
   snd acc ++ snd (fold_left (collect_path fs) paths ([], []))).
Proof.
  induction paths as [| path paths IH]; intros acc.
  - simpl. rewrite !app_nil_r. destruct acc; reflexivity.
  - cbn [fold_left]. rewrite IH. rewrite (IH (collect_path fs ([], []) path)).
    rewrite (collect_path_appends acc). cbn [fst snd]. rewrite !app_assoc. reflexivity.
Qed.

Lemma collect_paths_cons (path : string) (paths : list string) :
  fold_left (collect_path fs) (path :: paths) ([], []) =
  (fst (collect_path fs ([], []) path) ++ fst (fold_left (collect_path fs) paths ([], [])),
   snd (collect_path fs ([], []) path) ++ snd (fold_left (collect_path fs) paths ([], []))).
Proof. cbn [fold_left]. apply collect_paths_append. Qed.

Lemma collect_path_entry (path : string) :
  (is_reported fs path = false /\ fst (collect_path fs ([], []) path) = []) \/
  (is_reported fs path = true /\
   exists disk_partition_usage,
     shutil_disk_usage fs path = Ok disk_partition_usage /\
     fst (collect_path fs ([], []) path) =
       [{| usage_path := path;
           partition_total_bytes := usage_total disk_partition_usage;
           partition_used_bytes := usage_used disk_partition_usage;
           users := fst (list_user_details fs path) |}]).
Proof.
  unfold is_reported, collect_path.
  destruct (os_path_isdir fs path); simpl; [| left; split; reflexivity].
  destruct (shutil_disk_usage fs path) as [du | [t | t | t]];
    try (left; split; reflexivity).
  right. split; [reflexivity |]. exists du. split; [reflexivity |].
  destruct (list_user_details fs path) as [user_details lines]. reflexivity.
Qed.

End DiskUsage.

(** X17. When the walk of a directory ends normally and no file
    fails [getsize] with anything else than [FileNotFoundError] or
    [PermissionError], [_get_dir_size] returns the sum of the sizes of the
    walked files that are not symbolic links and whose size could be read. *)
Theorem dir_size_is_the_sum_of_the_readable_files (fs : FileSystem) (path : string) :
  snd (os_walk fs path) = None ->
  sizes_readable_or_skipped fs (walked_files fs path) ->
  _get_dir_size fs path = Ok (Z_sum (map (counted_size fs) (walked_files fs path))).
Proof.
  unfold _get_dir_size, walked_files. destruct (os_walk fs path) as [yielded ended].
  cbn [fst snd]. intros -> Hquiet. rewrite (walk_counted fs _ _ Hquiet). reflexivity.
Qed.

Lemma dir_size_is_the_sum_of_the_readable_files_witness :
  snd (os_walk example_fs "/data/alice") = None /\
  sizes_readable_or_skipped example_fs (walked_files example_fs "/data/alice") /\
  walked_files example_fs "/data/alice" =
    ["/data/alice/a.bin"; "/data/alice/link"; "/data/alice/sub/b.bin"; "/data/alice/sub/gone"] /\
  _get_dir_size example_fs "/data/alice" = Ok 120.
Proof.
  assert (Hquiet : sizes_readable_or_skipped example_fs (walked_files example_fs "/data/alice")).
  { intros fp text Hin _. vm_compute in Hin.
    destruct Hin as [<- | [<- | [<- | [<- | []]]]]; vm_compute; discriminate. }
  split; [reflexivity |]. split; [exact Hquiet |]. split; [reflexivity |].
  exact (dir_size_is_the_sum_of_the_readable_files example_fs "/data/alice" eq_refl Hquiet).
Defined.

(** X19. [usage_data] has one entry for each configured path that
    is a directory and whose partition information could be read, in the
    configured order; each entry carries the partition's total and used
    bytes and the user details listed for its path.  Whether the listing
    of the path failed plays no part in this. *)
Theorem usage_entries_are_the_reported_paths (fs : FileSystem) (self : SystemInfoService) :
  let usage_data := fst (_collect_daily_data fs self) in
  map usage_path usage_data = List.filter (is_reported fs) (paths_to_check self) /\
  Forall (fun entry =>
            users entry = fst (list_user_details fs (usage_path entry)) /\
            exists disk_partition_usage,
              shutil_disk_usage fs (usage_path entry) = Ok disk_partition_usage /\
              partition_total_bytes entry = usage_total disk_partition_usage /\
              partition_used_bytes entry = usage_used disk_partition_usage)
         usage_data.
Proof.
  unfold _collect_daily_data. cbv zeta.
  induction (paths_to_check self) as [| path paths [IHpaths IHentries]].
  - split; [reflexivity | constructor].
  - rewrite collect_paths_cons. cbn [fst]. rewrite map_app, Forall_app, IHpaths.
    cbn [List.filter].
    destruct (collect_path_entry fs path) as [[-> ->] | (-> & du & Hdu & ->)].
    + split; [reflexivity | split; [constructor | exact IHentries]].
    + split; [reflexivity |]. split; [| exact IHentries].
      constructor; [| constructor]. cbn [users usage_path partition_total_bytes
                                         partition_used_bytes].
      split; [reflexivity |]. exists du. split; [exact Hdu | split; reflexivity].
Qed.

(** X20. A configured path that gets no entry leaves a line in the
    log that names it: a warning when it is not a directory, an error when
    its partition information could not be read. *)
Theorem skipped_path_is_logged (fs : FileSystem) (self : SystemInfoService) (path : string) :
  In path (paths_to_check self) ->
  is_reported fs path = false ->
  let log := snd (_collect_daily_data fs self) in
  In (LogWarning, ("Disk usage path '" ++ path ++ "' does not exist or is not a directory.")%string)
     log \/
  In (LogError, ("Partition information for '" ++ path ++ "' not found.")%string) log \/
  exists text,
    In (LogError, ("Error getting partition info for '" ++ path ++ "': " ++ text)%string) log.
Proof.
  unfold _collect_daily_data. cbv zeta.
  induction (paths_to_check self) as [| first paths IH]; intros Hin Hskipped; [destruct Hin |].
  rewrite collect_paths_cons. cbn [snd].
  destruct Hin as [-> | Hin].
  - unfold is_reported in Hskipped. unfold collect_path.
    destruct (os_path_isdir fs path); simpl in *.
    + destruct (shutil_disk_usage fs path) as [du | [t | t | t]]; [discriminate | | |]; simpl.
      * right. left. left. reflexivity.
      * right. right. exists t. left. reflexivity.
      * right. right. exists t. left. reflexivity.
    + left. left. reflexivity.
  - destruct (IH Hin Hskipped) as [Hlog | [Hlog | [text Hlog]]].
    + left. apply in_or_app. right. exact Hlog.
    + right. left. apply in_or_app. right. exact Hlog.
    + right. right. exists text. apply in_or_app. right. exact Hlog.
Qed.

Lemma skipped_path_is_logged_witness :
  In "/backup" (paths_to_check example_service) /\
  is_reported example_fs "/backup" = false /\
  In (LogError, "Error getting partition info for '/backup': [Errno 5] Input/output error")
     (snd (_collect_daily_data example_fs example_service)).
Proof.
  assert (Hin : In "/backup" (paths_to_check example_service)) by (vm_compute; tauto).
  split; [exact Hin |]. split; [reflexivity |].
  destruct (skipped_path_is_logged example_fs example_service "/backup" Hin eq_refl)
    as [Hlog | [Hlog | [text Hlog]]].
  - vm_compute in Hlog. destruct Hlog as [Hlog | [Hlog | [Hlog | []]]]; discriminate Hlog.
  - vm_compute in Hlog. destruct Hlog as [Hlog | [Hlog | [Hlog | []]]]; discriminate Hlog.
  - vm_compute. right. right. left. reflexivity.
Defined.

(** X21. When the directory can be listed, the user details are
    those of the sub-directories (symbolic links excluded) met before the
    first one whose size computation raises, in listing order, each with
    the size [_get_dir_size] returns; nothing is logged exactly when no
    size computation raised. *)
Theorem user_details_stop_at_the_first_failure
    (fs : FileSystem) (path : string) (items : list string) :
  os_listdir fs path = Ok items ->
  exists counted rest,
    items = counted ++ rest /\
    Forall2 (is_detail_of fs path) (List.filter (is_user_directory fs path) counted)
            (fst (list_user_details fs path)) /\
    match rest with
    | [] => snd (list_user_details fs path) = []
    | failing :: _ =>
        is_user_directory fs path failing = true /\
        exists e, _get_dir_size fs (os_path_join path failing) = Raise e /\
                  snd (list_user_details fs path) = [listing_failure path e]
    end.
Proof.
  intros Hlist. unfold list_user_details. rewrite Hlist.
  destruct (for_each_kept_prefix fs path items [])
    as (counted & rest & added & Hitems & Hkept & Hdetails & Hrest).
  exists counted, rest. split; [exact Hitems |].
  destruct (for_each_kept (add_user_detail fs path) items []) as [user_details raised].
  cbn [fst snd] in *. subst user_details. destruct rest as [| failing rest].
  - subst raised. split; [exact Hdetails | reflexivity].
  - destruct Hrest as (Hdir & e & Hsize & ->). split; [exact Hdetails |].
    split; [exact Hdir |]. exists e. split; [exact Hsize | reflexivity].
Qed.

Lemma user_details_stop_at_the_first_failure_witness :
  let items := ["alice"; "notes.txt"; "shared"; "bob"; "carol"; "dave"] in
  os_listdir example_fs "/data" = Ok items /\
  list_user_details example_fs "/data" =
    ([{| user_name := "alice"; user_path := "/data/alice"; used_bytes := 120 |};
      {| user_name := "bob"; user_path := "/data/bob"; used_bytes := 7 |}],
     [(LogError, "Error listing directory or getting size for '/data': [Errno 5] Input/output error")]) /\
  exists counted rest,
    items = counted ++ rest /\
    Forall2 (is_detail_of example_fs "/data")
            (List.filter (is_user_directory example_fs "/data") counted)
            (fst (list_user_details example_fs "/data")) /\
    match rest with
    | [] => snd (list_user_details example_fs "/data") = []
    | failing :: _ =>
        is_user_directory example_fs "/data" failing = true /\
        exists e, _get_dir_size example_fs (os_path_join "/data" failing) = Raise e /\
                  snd (list_user_details example_fs "/data") = [listing_failure "/data" e]
    end.
Proof.
  intros items. split; [reflexivity |]. split; [reflexivity |].
  exact (user_details_stop_at_the_first_failure example_fs "/data" items eq_refl).
Defined.

(** X22. The warning about a denied listing is logged only when
    [os.listdir] itself raised [PermissionError], and the entry then has no
    user details: a [PermissionError] below a sub-directory never reaches
    the log, since [_get_dir_size] lets none out. *)
Theorem listing_warning_means_listdir_was_denied
    (fs : FileSystem) (path : string) (message : string) :
  In (LogWarning, message) (snd (list_user_details fs path)) ->
  fst (list_user_details fs path) = [] /\
  exists text, os_listdir fs path = Raise (Os_PermissionError text).
Proof.
  unfold list_user_details.
  destruct (os_listdir fs path) as [items | e] eqn:Hlist.
  - destruct (for_each_kept_prefix fs path items [])
      as (counted & rest & added & _ & _ & _ & Hrest).
    destruct (for_each_kept (add_user_detail fs path) items []) as [user_details raised].
    cbn [fst snd] in *. destruct rest as [| failing rest].
    + subst raised. intros [].
    + destruct Hrest as (_ & e & Hsize & ->). cbn [snd]. intros [Hline | []].
      destruct e as [t | t | t]; simpl in Hline; try discriminate Hline.
      exfalso. exact (dir_size_raises_no_permission_error fs _ _ Hsize).
  - cbn [fst snd]. intros [Hline | []]. split; [reflexivity |].
    destruct e as [t | t | t]; simpl in Hline; try discriminate Hline.
    exists t. reflexivity.
Qed.

Lemma listing_warning_means_listdir_was_denied_witness :
  In (LogWarning, "Permission denied to list contents of '/backup' for disk usage.")
     (snd (list_user_details example_fs "/backup")) /\
  fst (list_user_details example_fs "/backup") = [] /\
  exists text, os_listdir example_fs "/backup" = Raise (Os_PermissionError text).
Proof.
  assert (Hline : In (LogWarning, "Permission denied to list contents of '/backup' for disk usage.")
                     (snd (list_user_details example_fs "/backup")))
    by (vm_compute; left; reflexivity).
  split; [exact Hline |].
  exact (listing_warning_means_listdir_was_denied example_fs "/backup" _ Hline).
Defined.

(** ** What the views send *)

Lemma lookup_alloc (h : heap) (o : pyobj) : fst (alloc h o) !! snd (alloc h o) = Some o.
Proof.
  unfold alloc. cbn [fst snd]. rewrite lookup_app_r by lia.
  rewrite Nat.sub_diag. reflexivity.
Qed.

(** X23. The response of a view carries code 0, the default message
    and, as its data, the very copy the accessor returned, unless the
    collection is empty: then the data is a new empty dict, also where the
    accessor returned an empty list. *)
Theorem view_serves_the_copy_or_an_empty_dict
    (acc : accessor) (self : SystemInfoService) (h : heap) :
  let returned := call acc self h in
  let response := monitor_view acc self h in
  exists data,
    fst response !! snd response =
      Some (DictObj [("code", Imm (SInt 0)); ("msg", Imm (SStr "成功")); ("data", Ref data)]) /\
    if is_empty (held acc self)
    then data <> snd returned /\ fst response !! data = Some (DictObj [])
    else data = snd returned /\ fst response !! data = Some (held acc self).
Proof.
  intros returned response. subst returned response.
  unfold monitor_view. rewrite call_allocates.
  set (copy := alloc h (held acc self)).
  assert (Hcopy : fst copy !! snd copy = Some (held acc self)) by apply lookup_alloc.
  destruct copy as [h1 a] eqn:Halloc. cbn [fst snd] in *.
  assert (Ha : (a < length h1)%nat) by (eapply lookup_lt_Some; exact Hcopy).
  unfold success, py_bool. rewrite Hcopy.
  assert (Hempty : is_empty (held acc self) =
                   match held acc self with
                   | DictObj [] | ListObj [] => true
                   | _ => false
                   end) by reflexivity.
  rewrite Hempty.
  assert (Hlast : forall (l : heap) (o : pyobj), (l ++ [o]) !! length l = Some o).
  { intros l o. rewrite lookup_app_r by lia. rewrite Nat.sub_diag. reflexivity. }
  assert (Hprev : forall (l : heap) (o o' : pyobj), ((l ++ [o]) ++ [o']) !! length l = Some o).
  { intros l o o'. rewrite lookup_app_l by (rewrite length_app; simpl; lia). apply Hlast. }
  destruct (held acc self) as [[| kv d] | [| v l]] eqn:Hheld; unfold alloc; cbn [fst snd].
  - exists (length h1). split; [apply Hlast |]. split; [lia | apply Hprev].
  - exists a. split; [apply Hlast |]. split; [reflexivity |].
    rewrite lookup_app_l by exact Ha. exact Hcopy.
  - exists (length h1). split; [apply Hlast |]. split; [lia | apply Hprev].
  - exists a. split; [apply Hlast |]. split; [reflexivity |].
    rewrite lookup_app_l by exact Ha. exact Hcopy.
Qed.
